(** * NIVA: contour extraction, spline refit and per-frame lumen metrics

    A shallow embedding of the geometric core of the NIVA viewer
    ([input_output/contours.py], [gui/geometry.py], [report/report.py])
    and the properties of its specification that can be settled on it.

    Conventions of the embedding.
    - A Python [float] is an IEEE 754 binary64 number: Rocq's primitive
      [float], with [<], [>], [!=], [*] and [/] the primitive operations
      (so comparisons with [nan] are false, as in Python).  Python's
      integer literal [0] compared or mixed with a float behaves as [0.0].
    - A Python call either returns a value or raises: [result A].
    - Library routines that are not part of the repository (scipy's
      [splprep]/[splev], shapely's [Polygon], matplotlib's
      [Path.contains_point], skimage's [find_contours], numpy) are
      parameters, collected in Sections or records; the theorems hold
      for every behaviour of these routines. *)

From Stdlib Require Import List ZArith Lia Bool PeanoNat String.
From Stdlib Require Import Floats.
From Equations Require Import Equations.
Import ListNotations.

Set Implicit Arguments.

(** ** Python values, exceptions and results *)

Module Py.

Inductive exn : Type :=
| IndexError
| TypeError
| ValueError
| KeyError
| ZeroDivisionError.

Inductive result (A : Type) : Type :=
| Ok (a : A)
| Raise (e : exn).

Arguments Ok {A} a.
Arguments Raise {A} e.

Definition bind {A B : Type} (r : result A) (k : A -> result B) : result B :=
  match r with
  | Ok a => k a
  | Raise e => Raise e
  end.

(** [seq[i]] for a non-negative index: [IndexError] past the end. *)
Definition getitem {A : Type} (l : list A) (i : nat) : result A :=
  match nth_error l i with
  | Some a => Ok a
  | None => Raise IndexError
  end.

(** [seq[i] = v] for a non-negative index: [IndexError] past the end. *)
Fixpoint setitem {A : Type} (l : list A) (i : nat) (v : A) : result (list A) :=
  match l, i with
  | [], _ => Raise IndexError
  | _ :: t, O => Ok (v :: t)
  | h :: t, S j =>
      match setitem t j v with
      | Ok t' => Ok (h :: t')
      | Raise e => Raise e
      end
  end.

(** [range(0, stop, step)] for a non-negative [stop]; a zero step raises
    [ValueError] ("range() arg 3 must not be zero").  The indices are
    [0, step, 2*step, ...] below [stop]: there are [ceil(stop/step)]. *)
Definition range_count (stop step : nat) : nat :=
  (stop + step - 1) / step.

Definition range0 (stop step : nat) : result (list nat) :=
  match step with
  | O => Raise ValueError
  | S _ => Ok (map (fun k => k * step) (seq 0 (range_count stop step)))
  end.

(** [itertools.combinations(seq, 2)]: the pairs [(seq[i], seq[j])], [i < j],
    in lexicographic order of [(i, j)]. *)
Fixpoint combinations2 {A : Type} (l : list A) : list (A * A) :=
  match l with
  | [] => []
  | x :: t => map (pair x) t ++ combinations2 t
  end.

(** Truth value of a float: zero (of either sign) is false, [nan] is true. *)
Definition truthy (x : float) : bool := negb (x =? 0)%float.

(** [x != y] on floats. *)
Definition neqb (x y : float) : bool := negb (x =? y)%float.

End Py.

Import Py.

Notation "x <- r ;; k" := (Py.bind r (fun x => k))
  (at level 61, r at next level, right associativity).
Notation "' pat <- r ;; k" := (Py.bind r (fun x => match x with pat => k end))
  (at level 61, pat pattern, r at next level, right associativity).

(** ** Order facts on binary64 numbers

    The strict order of IEEE floats is irreflexive and transitive, with
    every comparison against [nan] false.  They follow from the
    specification of the primitive comparisons. *)

Module FloatOrder.

Lemma SFcompare_finite_refl (s : bool) (m : positive) (e : Z) :
  SFcompare (S754_finite s m e) (S754_finite s m e) = Some Eq.
Proof.
  simpl. rewrite Z.compare_refl.
  change (Pos.compare_cont Eq m m) with (Pos.compare m m).
  rewrite Pos.compare_refl. now destruct s.
Qed.

Lemma SFltb_irrefl (x : spec_float) : SFltb x x = false.
Proof.
  unfold SFltb. destruct x as [s| s | |s m e].
  - reflexivity.
  - now destruct s.
  - reflexivity.
  - now rewrite SFcompare_finite_refl.
Qed.

(** Two finite numbers of the same sign are compared on (exponent,
    mantissa) pairs, lexicographically. *)
Definition lex_cmp (e1 : Z) (m1 : positive) (e2 : Z) (m2 : positive) : comparison :=
  match (e1 ?= e2)%Z with
  | Lt => Lt
  | Gt => Gt
  | Eq => Pos.compare_cont Eq m1 m2
  end.

Definition lex_lt (e1 : Z) (m1 : positive) (e2 : Z) (m2 : positive) : Prop :=
  (e1 < e2)%Z \/ (e1 = e2 /\ (m1 < m2)%positive).

Lemma lex_cmp_spec e1 m1 e2 m2 :
  CompareSpec (e1 = e2 /\ m1 = m2) (lex_lt e1 m1 e2 m2) (lex_lt e2 m2 e1 m1)
              (lex_cmp e1 m1 e2 m2).
Proof.
  unfold lex_cmp, lex_lt.
  change (Pos.compare_cont Eq m1 m2) with (Pos.compare m1 m2).
  destruct (Z.compare_spec e1 e2) as [H|H|H].
  - destruct (Pos.compare_spec m1 m2) as [K|K|K]; constructor; auto.
  - constructor; auto.
  - constructor; auto.
Qed.

Lemma SFcompare_finite s1 m1 e1 s2 m2 e2 :
  SFcompare (S754_finite s1 m1 e1) (S754_finite s2 m2 e2) =
  Some match s1, s2 with
       | true, false => Lt
       | false, true => Gt
       | false, false => lex_cmp e1 m1 e2 m2
       | true, true => CompOpp (lex_cmp e1 m1 e2 m2)
       end.
Proof.
  unfold lex_cmp. simpl. destruct s1, s2; try reflexivity.
  now destruct (e1 ?= e2)%Z.
Qed.

Ltac finite_cases :=
  repeat match goal with
         | |- context [lex_cmp ?a ?b ?c ?d] =>
             destruct (lex_cmp_spec a b c d); unfold lex_lt in *
         end;
  simpl; try reflexivity; try discriminate; try lia.

Lemma SFltb_trans (x y z : spec_float) :
  SFltb x y = true -> SFltb y z = true -> SFltb x z = true.
Proof.
  unfold SFltb.
  destruct x as [sx|sx| |sx mx ex], y as [sy|sy| |sy my ey], z as [sz|sz| |sz mz ez];
    rewrite ?SFcompare_finite;
    try (simpl; repeat match goal with b : bool |- _ => destruct b end;
         simpl; congruence).
  destruct sx, sy, sz; try (simpl; congruence); finite_cases.
Qed.

Lemma SFltb_SFleb_trans (x y z : spec_float) :
  SFltb x y = true -> SFleb y z = true -> SFltb x z = true.
Proof.
  unfold SFltb, SFleb.
  destruct x as [sx|sx| |sx mx ex], y as [sy|sy| |sy my ey], z as [sz|sz| |sz mz ez];
    rewrite ?SFcompare_finite;
    try (simpl; repeat match goal with b : bool |- _ => destruct b end;
         simpl; congruence).
  destruct sx, sy, sz; try (simpl; congruence); finite_cases.
Qed.

(** The same facts on primitive floats. *)

Lemma ltb_irrefl (x : float) : (x <? x)%float = false.
Proof. rewrite ltb_spec. apply SFltb_irrefl. Qed.

Lemma ltb_trans (x y z : float) :
  (x <? y)%float = true -> (y <? z)%float = true -> (x <? z)%float = true.
Proof. rewrite !ltb_spec. apply SFltb_trans. Qed.

Lemma ltb_leb_trans (x y z : float) :
  (x <? y)%float = true -> (y <=? z)%float = true -> (x <? z)%float = true.
Proof. rewrite !ltb_spec, leb_spec. apply SFltb_SFleb_trans. Qed.

End FloatOrder.

(** ** input_output/contours.py: from masks to knot points *)

Module Contours.

(** [[f(x) for x in l]] where [f] may raise. *)
Fixpoint mapM {A B : Type} (f : A -> result B) (l : list A) : result (list B) :=
  match l with
  | [] => Ok []
  | x :: t =>
      y <- f x ;;
      ys <- mapM f t ;;
      Ok (y :: ys)
  end.

(** [a // b] on non-negative integers. *)
Definition floordiv (a b : nat) : result nat :=
  match b with
  | O => Raise ZeroDivisionError
  | S _ => Ok (a / b)
  end.

Section Downsample.

Variable A : Type.

(** The body of the loop of [downsample] for one frame: the two
    downsampled coordinate lists of the frame. *)
Definition downsample_frame (num_points : nat) (contours : list (list A) * list (list A))
  (frame : nat) : result (list A * list A) :=
  xs <- getitem (fst contours) frame ;;
  match xs with
  | [] => Ok ([], [])
  | _ :: _ =>
      stride <- floordiv (List.length xs) num_points ;;
      points_to_sample <- range0 (List.length xs) stride ;;
      dx <- mapM (getitem xs) points_to_sample ;;
      ys <- getitem (snd contours) frame ;;
      dy <- mapM (getitem ys) points_to_sample ;;
      Ok (dx, dy)
  end.

Definition downsample (contours : list (list A) * list (list A)) (num_points : nat)
  : result (list (list A) * list (list A)) :=
  let num_frames := List.length (fst contours) in
  frames <- mapM (downsample_frame num_points contours) (seq 0 num_frames) ;;
  Ok (map fst frames, map snd frames).

(** **** Facts on [range] and on the sampled indices *)

Lemma mapM_getitem_in_range (l : list A) (idx : list nat) :
  Forall (fun i => i < List.length l) idx ->
  exists out, mapM (getitem l) idx = Ok out /\ List.length out = List.length idx.
Proof.
  induction 1 as [|i t Hi _ [out [E L]]]; cbn [mapM].
  - now exists [].
  - unfold getitem at 1. destruct (nth_error l i) as [a|] eqn:Hn.
    + cbn. rewrite E. cbn. exists (a :: out). split; [reflexivity | cbn; now rewrite L].
    + apply nth_error_None in Hn. lia.
Qed.

Lemma range0_indices (stop step : nat) (l : list nat) :
  range0 stop step = Ok l ->
  0 < step /\ List.length l = range_count stop step /\ Forall (fun i => i < stop) l.
Proof.
  intros H.
  assert (Hpos : 0 < step) by (destruct step; [discriminate H | lia]).
  assert (Hl : l = map (fun k => k * step) (seq 0 (range_count stop step))).
  { destruct step; [lia|]. unfold range0 in H. now injection H. }
  subst l. clear H. split; [exact Hpos|]. split.
  - now rewrite length_map, length_seq.
  - apply Forall_forall. intros i Hi. apply in_map_iff in Hi as [k [<- Hk]].
    apply in_seq in Hk. unfold range_count in Hk.
    assert (Hle : k + 1 <= (stop + step - 1) / step) by lia.
    pose proof (Nat.Div0.mul_div_le (stop + step - 1) step) as Hm.
    nia.
Qed.

(** The number of points of a downsampled frame: with [n] points in the
    frame and a positive stride [n // num_points], it is
    [ceil(n / (n // num_points))]. *)
Lemma downsample_frame_count (num_points : nat) (contours : list (list A) * list (list A))
  (frame : nat) (xs ys : list A) :
  nth_error (fst contours) frame = Some xs ->
  nth_error (snd contours) frame = Some ys ->
  List.length ys = List.length xs ->
  0 < num_points <= List.length xs ->
  exists dx dy,
    downsample_frame num_points contours frame = Ok (dx, dy) /\
    List.length dx = range_count (List.length xs) (List.length xs / num_points) /\
    List.length dy = List.length dx.
Proof.
  intros Hx Hy Hlen [Hk Hn]. unfold downsample_frame, getitem at 1 3. rewrite Hx, Hy.
  cbn [bind].
  destruct xs as [|x0 xs'] eqn:Exs; [cbn in Hn; lia|]. rewrite <- Exs in *.
  assert (Hdiv : floordiv (List.length xs) num_points = Ok (List.length xs / num_points)).
  { unfold floordiv. destruct num_points; [lia|reflexivity]. }
  rewrite Hdiv. cbn [bind].
  assert (Hs : 1 <= List.length xs / num_points).
  { apply Nat.div_le_lower_bound; lia. }
  destruct (range0 (List.length xs) (List.length xs / num_points)) as [idx|e] eqn:Hr.
  - destruct (range0_indices _ _ Hr) as (_ & Hcount & Hin). cbn [bind].
    destruct (mapM_getitem_in_range xs Hin) as [dx [-> Ldx]]. cbn [bind].
    assert (Hin' : Forall (fun i => i < List.length ys) idx) by now rewrite Hlen.
    destruct (mapM_getitem_in_range ys Hin') as [dy [-> Ldy]]. cbn [bind].
    exists dx, dy. repeat split; congruence.
  - unfold range0 in Hr. destruct (List.length xs / num_points); [lia|discriminate].
Qed.

(** A non-empty frame with fewer points than the target has stride 0, and
    [range] refuses a zero step. *)
Lemma downsample_frame_short (num_points : nat) (contours : list (list A) * list (list A))
  (frame : nat) (xs : list A) :
  nth_error (fst contours) frame = Some xs ->
  0 < List.length xs < num_points ->
  downsample_frame num_points contours frame = Raise ValueError.
Proof.
  intros Hx [Hpos Hlt]. unfold downsample_frame, getitem at 1. rewrite Hx.
  cbn [bind].
  destruct xs as [|x0 xs'] eqn:Exs; [cbn in Hpos; lia|]. rewrite <- Exs in *.
  assert (Hdiv : floordiv (List.length xs) num_points = Ok 0).
  { unfold floordiv. destruct num_points; [lia|]. now rewrite Nat.div_small. }
  rewrite Hdiv. reflexivity.
Qed.

(** The count exceeds the target exactly when the target does not divide
    the number of points. *)
Lemma range_count_target (n k : nat) :
  0 < k <= n ->
  k <= range_count n (n / k) /\
  (range_count n (n / k) = k <-> n mod k = 0).
Proof.
  intros [Hk Hn]. unfold range_count.
  set (s := n / k).
  assert (Hs : 1 <= s) by (apply Nat.div_le_lower_bound; lia).
  pose proof (Nat.div_mod_eq n k) as Hdm. fold s in Hdm.
  pose proof (Nat.mod_upper_bound n k ltac:(lia)) as Hr.
  set (r := n mod k) in *.
  assert (Hge : k <= (n + s - 1) / s).
  { apply Nat.div_le_lower_bound; [lia|]. nia. }
  split; [exact Hge|]. split.
  - intros Heq.
    destruct (Nat.eq_dec r 0) as [|Hne]; [assumption|].
    assert (k + 1 <= (n + s - 1) / s); [|lia].
    apply Nat.div_le_lower_bound; [lia|]. nia.
  - intros Hr0.
    assert ((n + s - 1) / s < k + 1); [|lia].
    apply Nat.Div0.div_lt_upper_bound. nia.
Qed.

(** **** From the frames to the whole call *)

Lemma mapM_nth (B C : Type) (g : B -> result C) (l : list B) :
  forall (out : list C) (i : nat) (x : B),
    mapM g l = Ok out -> nth_error l i = Some x ->
    exists y, g x = Ok y /\ nth_error out i = Some y.
Proof.
  induction l as [|h t IH]; intros out i x; cbn [mapM].
  - destruct i; discriminate.
  - destruct (g h) as [y|] eqn:Hh; cbn [bind]; [|discriminate].
    destruct (mapM g t) as [ys|] eqn:Ht; cbn [bind]; [|discriminate].
    intros [= <-]. destruct i as [|i]; cbn.
    + intros [= <-]. now exists y.
    + intros Hx. now apply (IH ys i x).
Qed.

Lemma mapM_raises (B C : Type) (g : B -> result C) (l : list B) (x : B) (e : exn) :
  In x l -> g x = Raise e -> exists e', mapM g l = Raise e'.
Proof.
  induction l as [|h t IH]; intros Hin Hx; [destruct Hin|]. cbn [mapM].
  destruct (g h) as [y|e1] eqn:Hh; cbn [bind]; [|now exists e1].
  destruct Hin as [->|Hin]; [congruence|].
  destruct (IH Hin Hx) as [e' ->]. now exists e'.
Qed.

Lemma nth_error_seq0 (n i : nat) : i < n -> nth_error (seq 0 n) i = Some i.
Proof.
  intros H. rewrite (nth_error_nth' (seq 0 n) 0) by now rewrite length_seq.
  now rewrite seq_nth.
Qed.

(** The lists that [downsample] returns for a frame are those of the loop
    body for that frame. *)
Lemma downsample_frames (num_points : nat) (contours : list (list A) * list (list A))
  (out : list (list A) * list (list A)) (frame : nat) :
  downsample contours num_points = Ok out ->
  frame < List.length (fst contours) ->
  exists dx dy,
    downsample_frame num_points contours frame = Ok (dx, dy) /\
    nth_error (fst out) frame = Some dx /\
    nth_error (snd out) frame = Some dy.
Proof.
  unfold downsample. intros H Hf.
  destruct (mapM (downsample_frame num_points contours)
                 (seq 0 (List.length (fst contours)))) as [frames|] eqn:Hm;
    cbn [bind] in H; [|discriminate].
  injection H as <-.
  destruct (mapM_nth _ _ _ Hm (nth_error_seq0 Hf)) as [[dx dy] [Hd Hn]].
  exists dx, dy. split; [exact Hd|]. cbn [fst snd].
  rewrite !nth_error_map, Hn. now split.
Qed.

End Downsample.

(** The default of the keyword argument [num_points]. *)
Definition default_num_points : nat := 20.

(** A mask frame: [H] rows of [W] values. *)
Definition mask : Type := list (list Z).

(** [np.any(mask == 1)] *)
Definition any_foreground (m : mask) : bool :=
  existsb (existsb (Z.eqb 1)) m.

(** A traced boundary as [label_contours] stores it: the row coordinates
    and the column coordinates of its vertices. *)
Definition boundary : Type := list float * list float.

Section Extraction.

(** skimage's [measure.find_contours(image)]: the traced boundaries, each a
    list of (row, column) vertices; and matplotlib's
    [Path(vertices).contains_point(point)]. *)
Variable find_contours : mask -> list (list (float * float)).
Variable contains_point : list (float * float) -> nat * nat -> bool.

Definition label_contours (image : mask) : list boundary :=
  map (fun contour => (map fst contour, map snd contour)) (find_contours image).

(** "Contour is valid if it contains the centroid of the image" *)
Definition keep_valid_contour (contour : boundary) (image_shape : nat * nat) : bool :=
  let bbPath := combine (fst contour) (snd contour) in
  let centroid := (fst image_shape / 2, snd image_shape / 2) in
  contains_point bbPath centroid.

(** One turn of the loop of [keep_largest_contour]. *)
Definition keep_step (image_shape : nat * nat) (acc : nat * (list float * list float))
  (contour : boundary) : nat * (list float * list float) :=
  let '(max_length, keep_contour) := acc in
  if keep_valid_contour contour image_shape then
    if max_length <? List.length (fst contour)
    then (List.length (fst contour), (snd contour, fst contour))
    else (max_length, keep_contour)
  else (max_length, keep_contour).

Definition keep_largest_contour (contours : list boundary) (image_shape : nat * nat)
  : list float * list float :=
  snd (fold_left (keep_step image_shape) contours (0, ([], []))).

(** One turn of the loop of [get_contours]: the x and y lists appended for
    a frame. *)
Definition get_contours_frame (image_shape : nat * nat) (pred : mask)
  : list float * list float :=
  if any_foreground pred then
    keep_largest_contour (label_contours pred) image_shape
  else ([], []).

Definition get_contours (preds : list mask) (image_shape : nat * nat)
  : list (list float) * list (list float) :=
  fold_left
    (fun lumen_pred pred =>
       let '(keep_lumen_x, keep_lumen_y) := get_contours_frame image_shape pred in
       (fst lumen_pred ++ [keep_lumen_x], snd lumen_pred ++ [keep_lumen_y]))
    preds ([], []).

(** [mask_to_contours(masks)], with [masks.shape[1:3]] the image shape. *)
Definition mask_to_contours (masks : list mask) (image_shape : nat * nat)
  : result (list (list float) * list (list float)) :=
  downsample (get_contours masks image_shape) default_num_points.

(** **** Facts on the selection *)

Lemma keep_step_eq (image_shape : nat * nat) (m : nat) (k : list float * list float)
  (c : boundary) :
  keep_step image_shape (m, k) c =
  if keep_valid_contour c image_shape && (m <? List.length (fst c))
  then (List.length (fst c), (snd c, fst c))
  else (m, k).
Proof.
  unfold keep_step. destruct (keep_valid_contour c image_shape); [|reflexivity].
  now destruct (m <? List.length (fst c)).
Qed.

(** Either nothing was kept, or the boundary kept is the first valid one
    that no valid boundary exceeds in number of vertices. *)
Lemma keep_fold_first (image_shape : nat * nat) (contours : list boundary) :
  forall acc,
    (fold_left (keep_step image_shape) contours acc = acc /\
     Forall (fun c => keep_valid_contour c image_shape = true ->
                      List.length (fst c) <= fst acc) contours) \/
    (exists before c after,
        contours = before ++ c :: after /\
        fold_left (keep_step image_shape) contours acc =
          (List.length (fst c), (snd c, fst c)) /\
        keep_valid_contour c image_shape = true /\
        fst acc < List.length (fst c) /\
        Forall (fun c' => keep_valid_contour c' image_shape = true ->
                          List.length (fst c') < List.length (fst c)) before /\
        Forall (fun c' => keep_valid_contour c' image_shape = true ->
                          List.length (fst c') <= List.length (fst c)) after).
Proof.
  induction contours as [|x t IH]; intros [m k]; cbn [fold_left];
    [left; split; [reflexivity|constructor]|].
  rewrite keep_step_eq.
  destruct (keep_valid_contour x image_shape) eqn:Hv; cbn [andb].
  - destruct (Nat.ltb_spec m (List.length (fst x))) as [Hlt|Hge].
    + right. destruct (IH (List.length (fst x), (snd x, fst x)))
        as [[E F]|[before [c [after [Hl [E [Hc [Hlt' [Hb Ha]]]]]]]]]; cbn [fst] in *.
      * exists [], x, t. repeat split; try assumption. constructor.
      * exists (x :: before), c, after. subst t. repeat split; try assumption; [lia|].
        constructor; [intros _; lia | assumption].
    + destruct (IH (m, k))
        as [[E F]|[before [c [after [Hl [E [Hc [Hlt' [Hb Ha]]]]]]]]]; cbn [fst] in *.
      * left. split; [exact E|]. constructor; [intros _; lia | assumption].
      * right. exists (x :: before), c, after. subst t. repeat split; try assumption.
        constructor; [intros _; lia | assumption].
  - destruct (IH (m, k))
      as [[E F]|[before [c [after [Hl [E [Hc [Hlt' [Hb Ha]]]]]]]]]; cbn [fst] in *.
    + left. split; [exact E|]. constructor; [congruence | assumption].
    + right. exists (x :: before), c, after. subst t. repeat split; try assumption.
      constructor; [congruence | assumption].
Qed.

Lemma get_contours_frames (preds : list mask) (image_shape : nat * nat) :
  get_contours preds image_shape =
  (map (fun pred => fst (get_contours_frame image_shape pred)) preds,
   map (fun pred => snd (get_contours_frame image_shape pred)) preds).
Proof.
  unfold get_contours.
  assert (H : forall acc,
             fold_left
               (fun lumen_pred pred =>
                  let '(keep_lumen_x, keep_lumen_y) := get_contours_frame image_shape pred in
                  (fst lumen_pred ++ [keep_lumen_x], snd lumen_pred ++ [keep_lumen_y]))
               preds acc =
             (fst acc ++ map (fun pred => fst (get_contours_frame image_shape pred)) preds,
              snd acc ++ map (fun pred => snd (get_contours_frame image_shape pred)) preds)).
  { induction preds as [|p t IH]; intros [ax ay]; cbn [fold_left map fst snd].
    - now rewrite !app_nil_r.
    - rewrite IH. destruct (get_contours_frame image_shape p) as [kx ky].
      cbn [fst snd]. now rewrite <- !app_assoc. }
  now rewrite H.
Qed.

End Extraction.

End Contours.

(** ** Points and contours *)

Definition point : Type := float * float.

(** A contour as the program stores it: the list of x coordinates and the
    list of y coordinates ([data['lumen'][0][frame]], [data['lumen'][1][frame]]). *)
Definition coords : Type := list float * list float.

(** ** gui/geometry.py: the spline through the knot points *)

Module Geometry.

(** The attribute [Spline.full_contour]: [None] before any fit,
    [(None, None)] after a failed fit, [(x_new, y_new)] after a fit. *)
Inductive full_contour_t : Type :=
| NotSet
| NoContour
| Contour (x_new y_new : list float).

(** The attributes of a [Spline] object.  The Qt path item is display
    state and is not tracked; the loops that feed it are kept for the
    exceptions they can raise. *)
Record Spline : Type := mkSpline {
  knotpoints : option coords;
  full_contour : full_contour_t
}.

(** [QPointF] of [Spline.update]'s [pos] argument. *)
Record QPointF : Type := mkQPointF { qx : float; qy : float }.

(** A sequence index as Python reads it: negative indices count from the end. *)
Definition py_index (len : nat) (idx : Z) : option nat :=
  if (0 <=? idx)%Z then
    if (idx <? Z.of_nat len)%Z then Some (Z.to_nat idx) else None
  else
    if (- Z.of_nat len <=? idx)%Z then Some (Z.to_nat (Z.of_nat len + idx)) else None.

Definition setitem_z {A : Type} (l : list A) (idx : Z) (v : A) : result (list A) :=
  match py_index (List.length l) idx with
  | Some i => setitem l i v
  | None => Raise IndexError
  end.

(** [np.array(pts)] on the pair of coordinate lists: a 2 x m array when
    the two lists have the same length, and [ValueError] (an inhomogeneous
    shape) when they do not. *)
Definition np_array (pts : coords) : result coords :=
  if List.length (fst pts) =? List.length (snd pts) then Ok pts
  else Raise ValueError.

(** [Spline.__init__(self, points, line_thickness=1, color=None)] (line
    55): the parameters that a call with the points as its one positional
    argument can pass by keyword. *)
Definition Spline_keywords : list string :=
  ["line_thickness"; "color"]%string.

Section Fit.

(** scipy's fitting routine, [splprep(pts, u=None, s=0.0, per=1)], returns
    the spline representation and the parameter values, or raises; the
    evaluation of lines 95-96 is
    [splev(np.linspace(u.min(), u.max(), 500), tck, der=0)]. *)
Variable tck : Type.
Variable splprep : coords -> result (tck * list float).
Variable splev_linspace : tck -> list float -> list float * list float.

(** [Spline.interpolate].  The conversion of line 90 comes before the
    [try]: its [ValueError] is not caught.  Of what [splprep] raises, only
    [ValueError] is caught. *)
Definition interpolate (pts : coords) : result full_contour_t :=
  match np_array pts with
  | Raise e => Raise e
  | Ok pts =>
      match splprep pts with
      | Raise ValueError => Ok NoContour
      | Raise e => Raise e
      | Ok (t, u) =>
          let '(x_new, y_new) := splev_linspace t u in
          Ok (Contour x_new y_new)
      end
  end.

(** [for i in range(0, len(xs)): ... xs[i], ys[i] ...], the loop that feeds
    the path: [ys[i]] raises [IndexError] when [ys] is shorter than [xs]. *)
Fixpoint feed_path (xs ys : list float) : result unit :=
  match xs with
  | [] => Ok tt
  | _ :: xs' =>
      match ys with
      | [] => Raise IndexError
      | _ :: ys' => feed_path xs' ys'
      end
  end.

(** [Spline.setKnotPoints]: the attributes after the call and its outcome.
    An [IndexError] is caught and leaves the attributes as they are at
    the point where it was raised. *)
Definition setKnotPoints (self : Spline) (points : coords) : Spline * result unit :=
  match fst points, snd points with
  | _ :: _, _ :: _ =>
      match interpolate points with
      | Raise IndexError => (self, Ok tt)
      | Raise e => (self, Raise e)
      | Ok fc =>
          match fc with
          | Contour xs ys =>
              match feed_path xs ys with
              | Ok _ => (mkSpline (Some points) fc, Ok tt)
              | Raise _ => (mkSpline (knotpoints self) fc, Ok tt)
              end
          | _ => (mkSpline (knotpoints self) fc, Ok tt)
          end
      end
  | _, _ => (self, Ok tt)
  end.

(** [Spline.__init__] (the pen colour aside). *)
Definition Spline_init (points : coords) : Spline * result unit :=
  setKnotPoints (mkSpline None NotSet) points.

(** A call [Spline(points, keyword=...)]: the object constructed, or the
    exception of the call.  A keyword that [__init__] cannot take raises
    [TypeError] before the body runs; the line thickness and the colour
    only set the pen. *)
Definition Spline_keyword (keyword : string) (points : coords) : result Spline :=
  if existsb (String.eqb keyword) Spline_keywords then
    match Spline_init points with
    | (s, Ok _) => Ok s
    | (_, Raise e) => Raise e
    end
  else Raise TypeError.

(** The first statement of [Spline.update]: the edited knot lists.  The
    two coordinate lists are edited one after the other. *)
Definition update_knots (k : coords) (pos : QPointF) (idx : Z) : coords * result unit :=
  if (idx =? Z.of_nat (List.length (fst k)) + 1)%Z then
    ((fst k ++ [qx pos], snd k ++ [qy pos]), Ok tt)
  else
    match setitem_z (fst k) idx (qx pos) with
    | Raise e => (k, Raise e)
    | Ok xs =>
        match setitem_z (snd k) idx (qy pos) with
        | Raise e => ((xs, snd k), Raise e)
        | Ok ys => ((xs, ys), Ok tt)
        end
    end.

(** [Spline.update]: the attributes after the call and its outcome.
    Nothing is caught here, and [len(self.full_contour[0])] is taken
    whatever [interpolate] returned: on [(None, None)] it raises
    [TypeError]. *)
Definition update (self : Spline) (pos : QPointF) (idx : Z) : Spline * result unit :=
  match knotpoints self with
  | None => (self, Raise TypeError)
  | Some k =>
      match update_knots k pos idx with
      | (k', Raise e) => (mkSpline (Some k') (full_contour self), Raise e)
      | (k', Ok _) =>
          match interpolate k' with
          | Raise e => (mkSpline (Some k') (full_contour self), Raise e)
          | Ok fc =>
              (mkSpline (Some k') fc,
               match fc with
               | Contour xs ys => feed_path xs ys
               | _ => Raise TypeError
               end)
          end
      end
  end.

End Fit.

End Geometry.

(** ** report/report.py: the per-frame metrics *)

Module Report.

(** [main_window.data]: one slot per frame in every list.  A centroid slot
    holds the empty placeholder ([None] here) until it is computed; the
    three lists that were added later may be missing from older data. *)
Record Data : Type := mkData {
  lumen : list (list float) * list (list float);
  phases : list string;
  lumen_area : list float;
  lumen_circumf : list float;
  lumen_centroid : list (option float) * list (option float);
  longest_distance : list float;
  farthest_point : list (list float) * list (list float);
  shortest_distance : list float;
  nearest_point : list (list float) * list (list float);
  elliptic_ratio : option (list float);
  vector_length : option (list float);
  vector_angle : option (list float)
}.

(** The read-only part of [main_window]: [metadata], [images.shape] and
    [config.display.n_points_contour]. *)
Record Window : Type := mkWindow {
  num_frames : nat;
  resolution : float;
  pullback_length : list float;
  images_shape : nat * nat * nat;
  n_points_contour : nat
}.

Definition set_lumen_area (v : list float) (d : Data) : Data :=
  mkData (lumen d) (phases d) v (lumen_circumf d) (lumen_centroid d)
         (longest_distance d) (farthest_point d) (shortest_distance d)
         (nearest_point d) (elliptic_ratio d) (vector_length d) (vector_angle d).

Definition set_lumen_circumf (v : list float) (d : Data) : Data :=
  mkData (lumen d) (phases d) (lumen_area d) v (lumen_centroid d)
         (longest_distance d) (farthest_point d) (shortest_distance d)
         (nearest_point d) (elliptic_ratio d) (vector_length d) (vector_angle d).

Definition set_lumen_centroid (v : list (option float) * list (option float)) (d : Data) : Data :=
  mkData (lumen d) (phases d) (lumen_area d) (lumen_circumf d) v
         (longest_distance d) (farthest_point d) (shortest_distance d)
         (nearest_point d) (elliptic_ratio d) (vector_length d) (vector_angle d).

Definition set_longest_distance (v : list float) (d : Data) : Data :=
  mkData (lumen d) (phases d) (lumen_area d) (lumen_circumf d) (lumen_centroid d)
         v (farthest_point d) (shortest_distance d)
         (nearest_point d) (elliptic_ratio d) (vector_length d) (vector_angle d).

Definition set_farthest_point (v : list (list float) * list (list float)) (d : Data) : Data :=
  mkData (lumen d) (phases d) (lumen_area d) (lumen_circumf d) (lumen_centroid d)
         (longest_distance d) v (shortest_distance d)
         (nearest_point d) (elliptic_ratio d) (vector_length d) (vector_angle d).

Definition set_shortest_distance (v : list float) (d : Data) : Data :=
  mkData (lumen d) (phases d) (lumen_area d) (lumen_circumf d) (lumen_centroid d)
         (longest_distance d) (farthest_point d) v
         (nearest_point d) (elliptic_ratio d) (vector_length d) (vector_angle d).

Definition set_nearest_point (v : list (list float) * list (list float)) (d : Data) : Data :=
  mkData (lumen d) (phases d) (lumen_area d) (lumen_circumf d) (lumen_centroid d)
         (longest_distance d) (farthest_point d) (shortest_distance d)
         v (elliptic_ratio d) (vector_length d) (vector_angle d).

Definition set_late_entries (e l a : option (list float)) (d : Data) : Data :=
  mkData (lumen d) (phases d) (lumen_area d) (lumen_circumf d) (lumen_centroid d)
         (longest_distance d) (farthest_point d) (shortest_distance d)
         (nearest_point d) e l a.

(** *** Stateful calls

    The functions of report.py write into the lists of [main_window.data]
    in place; what was written before an exception stays written.  A call
    maps the data to the data after it and an outcome. *)

Definition M (A : Type) : Type := Data -> Data * result A.

Definition ret {A : Type} (a : A) : M A := fun d => (d, Ok a).

Definition raise {A : Type} (e : exn) : M A := fun d => (d, Raise e).

Definition lift {A : Type} (r : result A) : M A := fun d => (d, r).

Definition bindM {A B : Type} (m : M A) (k : A -> M B) : M B :=
  fun d =>
    match m d with
    | (d', Ok a) => k a d'
    | (d', Raise e) => (d', Raise e)
    end.

Definition gets {A : Type} (f : Data -> A) : M A := fun d => (d, Ok (f d)).

(** [data[...][frame] = v] on the list read by [get] and written by [set]. *)
Definition store {A : Type} (get : Data -> list A) (set : list A -> Data -> Data)
  (frame : nat) (v : A) : M unit :=
  fun d =>
    match setitem (get d) frame v with
    | Ok l => (set l d, Ok tt)
    | Raise e => (d, Raise e)
    end.

(** [data[...][frame]] *)
Definition load {A : Type} (get : Data -> list A) (frame : nat) : M A :=
  fun d => (d, getitem (get d) frame).

Definition set_fst {A B : Type} (get : Data -> A * B) (set : A * B -> Data -> Data)
  (a : A) (d : Data) : Data := set (a, snd (get d)) d.

Definition set_snd {A B : Type} (get : Data -> A * B) (set : A * B -> Data -> Data)
  (b : B) (d : Data) : Data := set (fst (get d), b) d.

Notation "x <~ m ;; k" := (bindM m (fun x => k))
  (at level 61, m at next level, right associativity).
Notation "' pat <~ m ;; k" := (bindM m (fun x => match x with pat => k end))
  (at level 61, pat pattern, m at next level, right associativity).
Notation "m ;;; k" := (bindM m (fun _ => k))
  (at level 61, right associativity).

Section Distances.

(** [math.dist]: the Euclidean distance of two points, as a float.  The
    searches below only compare its values; they are stated for every
    such function. *)
Variable math_dist : point -> point -> float.

(** *** farthest_points *)

(** One turn of the loop over [combinations(exterior_coords, 2)]; the test
    [distance > max_distance] is [max_distance < distance]. *)
Definition farthest_step (acc : float * option (point * point)) (pq : point * point)
  : float * option (point * point) :=
  let '(max_distance, farthest) := acc in
  let distance := math_dist (fst pq) (snd pq) in
  if (max_distance <? distance)%float then (distance, Some pq)
  else (max_distance, farthest).

(** Lines 261-268: [max_distance] and [farthest_points] after the loop. *)
Definition farthest_search (exterior_coords : list point) : float * option (point * point) :=
  fold_left farthest_step (combinations2 exterior_coords) (0%float, None).

(** Lines 270-282.  Unpacking [farthest_points[0]] raises [TypeError] when
    the pair is still [None]; nothing catches it. *)
Definition farthest_points (w : Window) (exterior_coords : list point) (frame : nat)
  : M (float * list float * list float) :=
  let '(max_distance, farthest) := farthest_search exterior_coords in
  let longest := (max_distance * resolution w)%float in
  match farthest with
  | None => raise TypeError
  | Some ((x1, y1), (x2, y2)) =>
      let farthest_point_x := [x1; x2] in
      let farthest_point_y := [y1; y2] in
      store longest_distance set_longest_distance frame longest ;;;
      store (fun d => fst (farthest_point d)) (set_fst farthest_point set_farthest_point)
            frame farthest_point_x ;;;
      store (fun d => snd (farthest_point d)) (set_snd farthest_point set_farthest_point)
            frame farthest_point_y ;;;
      ret (longest, farthest_point_x, farthest_point_y)
  end.

(** *** closest_points *)

(** Lines 295-298: the comparison of one candidate pair. *)
Definition closest_step (acc : float * option (point * point)) (pq : point * point)
  : float * option (point * point) :=
  let '(min_distance, closest) := acc in
  let distance := math_dist (fst pq) (snd pq) in
  if (distance <? min_distance)%float then (distance, Some pq)
  else (min_distance, closest).

(** The [while True] loop of lines 294-304, left by [break] once
    [index_1 >= num_points // 2] after the increments; [half] is
    [num_points // 2]. *)
Equations? closest_loop (contour : list point) (half : nat) (index_1 index_2 : nat)
  (acc : float * option (point * point))
  : result (float * option (point * point)) by wf (half - index_1) lt :=
closest_loop contour half index_1 index_2 acc
  with getitem contour index_1 := {
  | Raise e => Raise e
  | Ok p1 with getitem contour index_2 := {
    | Raise e => Raise e
    | Ok p2 with le_lt_dec half (index_1 + 1) := {
      | left _ => Ok (closest_step acc (p1, p2))
      | right _ =>
          closest_loop contour half (index_1 + 1) (index_2 + 1)
                       (closest_step acc (p1, p2)) } } }.
Proof. lia. Qed.

(** Lines 286-304: [min_distance] and [closest_points] after the loop. *)
Definition closest_search (contour : list point) : result (float * option (point * point)) :=
  let num_points := List.length contour in
  closest_loop contour (num_points / 2) 0 (num_points / 2) (infinity, None).

(** Lines 306-324, with [contour] the ring [polygon.exterior.coords] of the
    polygon passed in.  The [TypeError] of unpacking [None] is caught and
    replaced by the zero distance and the pair (0, 0), (0, 0). *)
Definition closest_points (w : Window) (contour : list point) (frame : nat)
  : M (float * list float * list float) :=
  '(min_distance, closest) <~ lift (closest_search contour) ;;
  let shortest := (min_distance * resolution w)%float in
  let '(shortest, closest_point_x, closest_point_y) :=
    match closest with
    | Some ((x1, y1), (x2, y2)) => (shortest, [x1; x2], [y1; y2])
    | None => (0%float, [0%float; 0%float], [0%float; 0%float])
    end in
  store shortest_distance set_shortest_distance frame shortest ;;;
  store (fun d => fst (nearest_point d)) (set_fst nearest_point set_nearest_point)
        frame closest_point_x ;;;
  store (fun d => snd (nearest_point d)) (set_snd nearest_point set_nearest_point)
        frame closest_point_y ;;;
  ret (shortest, closest_point_x, closest_point_y).

(** The pairs of the width search: point [i] with point [i + half],
    for [i] from [0] to [half - 1]. *)
Definition pair_at (contour : list point) (half i : nat) : point * point :=
  (nth i contour (0%float, 0%float), nth (i + half) contour (0%float, 0%float)).

Definition candidate_pairs (contour : list point) : list (point * point) :=
  let half := List.length contour / 2 in
  map (pair_at contour half) (seq 0 half).

(** The pairs the loop body is run on: the body runs once before the
    first test, so a one-point contour is compared with itself. *)
Definition visited_pairs (contour : list point) : list (point * point) :=
  let half := List.length contour / 2 in
  map (pair_at contour half) (seq 0 (Nat.max 1 half)).

Definition dist_of (pq : point * point) : float := math_dist (fst pq) (snd pq).

(** **** Facts on lists and stores *)

Lemma getitem_nth (A : Type) (l : list A) (i : nat) (d : A) :
  i < List.length l -> getitem l i = Ok (nth i l d).
Proof.
  intros H. unfold getitem. now rewrite (nth_error_nth' l d H).
Qed.

Lemma setitem_ok (A : Type) (l : list A) (i : nat) (v : A) :
  i < List.length l -> exists l', setitem l i v = Ok l'.
Proof.
  revert i. induction l as [|h t IH]; intros i H; simpl in H.
  - lia.
  - destruct i as [|j]; simpl.
    + now exists (v :: t).
    + destruct (IH j) as [t' Ht]; [lia|]. rewrite Ht. now exists (h :: t').
Qed.

Lemma closest_loop_body (contour : list point) (half index_1 index_2 : nat)
  (acc : float * option (point * point)) :
  closest_loop contour half index_1 index_2 acc =
  (p1 <- getitem contour index_1 ;;
   p2 <- getitem contour index_2 ;;
   if le_lt_dec half (index_1 + 1) then Ok (closest_step acc (p1, p2))
   else closest_loop contour half (index_1 + 1) (index_2 + 1)
                     (closest_step acc (p1, p2))).
Proof.
  rewrite closest_loop_equation_1.
  destruct (getitem contour index_1) as [p1|e]; simpl; [|reflexivity].
  destruct (getitem contour index_2) as [p2|e]; simpl; [|reflexivity].
  now destruct (le_lt_dec half (index_1 + 1)).
Qed.

(** The loop is a left fold of [closest_step] over the pairs
    [(contour[i], contour[i + half])], in the order of [i]. *)
Lemma closest_loop_fold (contour : list point) (half n : nat) :
  forall (i : nat) (acc : float * option (point * point)),
    i + S n = Nat.max 1 half ->
    half + i + n < List.length contour ->
    closest_loop contour half i (i + half) acc =
    Ok (fold_left closest_step (map (pair_at contour half) (seq i (S n))) acc).
Proof.
  induction n as [|n IH]; intros i acc Hi Hlen.
  - rewrite closest_loop_body.
    rewrite (getitem_nth contour (0%float, 0%float)) by lia.
    rewrite (getitem_nth contour (0%float, 0%float)) by lia.
    simpl. destruct (le_lt_dec half (i + 1)); [reflexivity|lia].
  - rewrite closest_loop_body.
    rewrite (getitem_nth contour (0%float, 0%float)) by lia.
    rewrite (getitem_nth contour (0%float, 0%float)) by lia.
    simpl. destruct (le_lt_dec half (i + 1)); [lia|].
    replace (i + half + 1) with (i + 1 + half) by lia.
    rewrite IH by lia.
    replace (i + 1) with (S i) by lia. reflexivity.
Qed.

Lemma closest_search_fold (contour : list point) :
  1 <= List.length contour ->
  closest_search contour =
  Ok (fold_left closest_step (visited_pairs contour) (infinity, None)).
Proof.
  intros H. unfold closest_search, visited_pairs.
  set (half := List.length contour / 2).
  assert (Hh : 2 * half <= List.length contour).
  { unfold half. pose proof (Nat.div_mod_eq (List.length contour) 2). lia. }
  destruct (Nat.max 1 half) as [|n] eqn:Hmax; [lia|].
  apply (closest_loop_fold contour half n 0); lia.
Qed.

Lemma visited_candidate_pairs (contour : list point) :
  2 <= List.length contour -> visited_pairs contour = candidate_pairs contour.
Proof.
  intros H. unfold visited_pairs, candidate_pairs.
  assert (1 <= List.length contour / 2).
  { change 1 with (2 / 2). apply Nat.Div0.div_le_mono. exact H. }
  now rewrite Nat.max_r.
Qed.

(** **** The minimum kept by the width search *)

Lemma closest_step_eq (m : float) (c : option (point * point)) (x : point * point) :
  closest_step (m, c) x =
  if (dist_of x <? m)%float then (dist_of x, Some x) else (m, c).
Proof. reflexivity. Qed.

Lemma farthest_step_eq (m : float) (c : option (point * point)) (x : point * point) :
  farthest_step (m, c) x =
  if (m <? dist_of x)%float then (dist_of x, Some x) else (m, c).
Proof. reflexivity. Qed.

Lemma closest_fold_le (l : list (point * point)) :
  forall acc,
    fst (fold_left closest_step l acc) = fst acc \/
    (fst (fold_left closest_step l acc) <? fst acc)%float = true.
Proof.
  induction l as [|x t IH]; intros [m c]; cbn [fold_left]; [now left|].
  rewrite closest_step_eq.
  destruct (dist_of x <? m)%float eqn:Hx.
  - right. destruct (IH (dist_of x, Some x)) as [E|L]; cbn [fst] in *.
    + now rewrite E.
    + eapply FloatOrder.ltb_trans; eassumption.
  - apply IH.
Qed.

Lemma closest_fold_lower (l : list (point * point)) :
  forall acc,
    Forall (fun pq => (dist_of pq <? fst (fold_left closest_step l acc))%float = false) l.
Proof.
  induction l as [|x t IH]; intros [m c]; cbn [fold_left]; constructor; [|apply IH].
  assert (Hx : (dist_of x <? fst (closest_step (m, c) x))%float = false).
  { rewrite closest_step_eq.
    destruct (dist_of x <? m)%float eqn:E; cbn [fst];
      [apply FloatOrder.ltb_irrefl | exact E]. }
  destruct (closest_fold_le t (closest_step (m, c) x)) as [E|L].
  - now rewrite E.
  - destruct (dist_of x <? fst (fold_left closest_step t (closest_step (m, c) x)))%float
      eqn:K; [|reflexivity].
    rewrite (FloatOrder.ltb_trans K L) in Hx. discriminate.
Qed.

Lemma closest_fold_attained (l : list (point * point)) :
  forall acc,
    (fold_left closest_step l acc = acc /\
     Forall (fun pq => (dist_of pq <? fst acc)%float = false) l) \/
    (exists pq, In pq l /\ fold_left closest_step l acc = (dist_of pq, Some pq)).
Proof.
  induction l as [|x t IH]; intros [m c]; cbn [fold_left];
    [left; split; [reflexivity|constructor]|].
  rewrite closest_step_eq.
  destruct (dist_of x <? m)%float eqn:Hx.
  - right. destruct (IH (dist_of x, Some x)) as [[E _]|[pq [I E]]].
    + exists x. split; [now left | exact E].
    + exists pq. split; [now right | exact E].
  - destruct (IH (m, c)) as [[E F]|[pq [I E]]].
    + left. split; [exact E | constructor; assumption].
    + right. exists pq. split; [now right | exact E].
Qed.

Lemma closest_fold_none (l : list (point * point)) (acc : float * option (point * point)) :
  Forall (fun pq => (dist_of pq <? fst acc)%float = false) l ->
  fold_left closest_step l acc = acc.
Proof.
  induction 1 as [|x t Hx _ IH]; cbn [fold_left]; [reflexivity|].
  destruct acc as [m c]. rewrite closest_step_eq. cbn [fst] in Hx.
  now rewrite Hx.
Qed.

(** **** The maximum kept by the diameter search *)

Lemma farthest_fold_none (l : list (point * point)) (acc : float * option (point * point)) :
  Forall (fun pq => (fst acc <? dist_of pq)%float = false) l ->
  fold_left farthest_step l acc = acc.
Proof.
  induction 1 as [|x t Hx _ IH]; cbn [fold_left]; [reflexivity|].
  destruct acc as [m c]. rewrite farthest_step_eq. cbn [fst] in Hx.
  now rewrite Hx.
Qed.

Lemma farthest_fold_first (l : list (point * point)) :
  forall acc,
    (fold_left farthest_step l acc = acc /\
     Forall (fun pq => (fst acc <? dist_of pq)%float = false) l) \/
    (exists before pq after,
        l = before ++ pq :: after /\
        fold_left farthest_step l acc = (dist_of pq, Some pq) /\
        (fst acc <? dist_of pq)%float = true /\
        Forall (fun pq' => (dist_of pq <=? dist_of pq')%float = false) before /\
        Forall (fun pq' => (dist_of pq <? dist_of pq')%float = false) after).
Proof.
  induction l as [|x t IH]; intros [m c]; cbn [fold_left];
    [left; split; [reflexivity|constructor]|].
  rewrite farthest_step_eq.
  destruct (m <? dist_of x)%float eqn:Hx.
  - right. destruct (IH (dist_of x, Some x))
      as [[E F]|[before [pq [after [Hl [E [Hlt [Hb Ha]]]]]]]]; cbn [fst] in *.
    + exists [], x, t. repeat split; try assumption. constructor.
    + exists (x :: before), pq, after. subst t. repeat split; try assumption.
      * eapply FloatOrder.ltb_trans; eassumption.
      * constructor; [|assumption].
        destruct (dist_of pq <=? dist_of x)%float eqn:K; [|reflexivity].
        pose proof (FloatOrder.ltb_leb_trans Hlt K) as Habs.
        now rewrite FloatOrder.ltb_irrefl in Habs.
  - destruct (IH (m, c)) as [[E F]|[before [pq [after [Hl [E [Hlt [Hb Ha]]]]]]]];
      cbn [fst] in *.
    + left. split; [exact E | constructor; assumption].
    + right. exists (x :: before), pq, after. subst t. repeat split; try assumption.
      constructor; [|assumption].
      destruct (dist_of pq <=? dist_of x)%float eqn:K; [|reflexivity].
      pose proof (FloatOrder.ltb_leb_trans Hlt K) as Habs.
      congruence.
Qed.

(** **** The values returned and stored *)

Definition farthest_slots (d : Data) (frame : nat) : Prop :=
  frame < List.length (longest_distance d) /\
  frame < List.length (fst (farthest_point d)) /\
  frame < List.length (snd (farthest_point d)).

Definition nearest_slots (d : Data) (frame : nat) : Prop :=
  frame < List.length (shortest_distance d) /\
  frame < List.length (fst (nearest_point d)) /\
  frame < List.length (snd (nearest_point d)).

Lemma farthest_points_some (w : Window) (coords : list point) (frame : nat) (d : Data)
  (m : float) (p q : point) :
  farthest_search coords = (m, Some (p, q)) ->
  farthest_slots d frame ->
  snd (farthest_points w coords frame d) =
  Ok ((m * resolution w)%float, [fst p; fst q], [snd p; snd q]).
Proof.
  intros Hs (H1 & H2 & H3). unfold farthest_points. rewrite Hs.
  destruct p as [x1 y1], q as [x2 y2]. unfold bindM, store, ret.
  destruct (@setitem_ok _ _ _ (m * resolution w)%float H1) as [l1 ->]. cbn.
  destruct (@setitem_ok _ _ _ [x1; x2] H2) as [l2 ->]. cbn.
  destruct (@setitem_ok _ _ _ [y1; y2] H3) as [l3 ->]. reflexivity.
Qed.

Lemma farthest_points_none (w : Window) (coords : list point) (frame : nat) (d : Data)
  (m : float) :
  farthest_search coords = (m, None) ->
  farthest_points w coords frame d = (d, Raise TypeError).
Proof. intros Hs. unfold farthest_points. now rewrite Hs. Qed.

Lemma closest_points_some (w : Window) (contour : list point) (frame : nat) (d : Data)
  (m : float) (p q : point) :
  closest_search contour = Ok (m, Some (p, q)) ->
  nearest_slots d frame ->
  snd (closest_points w contour frame d) =
  Ok ((m * resolution w)%float, [fst p; fst q], [snd p; snd q]).
Proof.
  intros Hs (H1 & H2 & H3). unfold closest_points. rewrite Hs.
  destruct p as [x1 y1], q as [x2 y2]. unfold bindM, lift, store, ret.
  destruct (@setitem_ok _ _ _ (m * resolution w)%float H1) as [l1 ->]. cbn.
  destruct (@setitem_ok _ _ _ [x1; x2] H2) as [l2 ->]. cbn.
  destruct (@setitem_ok _ _ _ [y1; y2] H3) as [l3 ->]. reflexivity.
Qed.

Lemma closest_points_none (w : Window) (contour : list point) (frame : nat) (d : Data)
  (m : float) :
  closest_search contour = Ok (m, None) ->
  nearest_slots d frame ->
  snd (closest_points w contour frame d) =
  Ok (0%float, [0%float; 0%float], [0%float; 0%float]).
Proof.
  intros Hs (H1 & H2 & H3). unfold closest_points. rewrite Hs.
  unfold bindM, lift, store, ret.
  destruct (@setitem_ok _ _ _ 0%float H1) as [l1 ->]. cbn.
  destruct (@setitem_ok _ _ _ [0%float; 0%float] H2) as [l2 ->]. cbn.
  destruct (@setitem_ok _ _ _ [0%float; 0%float] H3) as [l3 ->]. reflexivity.
Qed.

End Distances.

(** *** The library interfaces of compute_all *)

(** shapely: [Polygon(points)] (which may raise), [polygon.exterior.coords],
    [polygon.area], [polygon.length] and [polygon.centroid]. *)
Record Shapely : Type := mkShapely {
  polygon : Type;
  Polygon : list point -> result polygon;
  exterior_coords : polygon -> list point;
  polygon_area : polygon -> float;
  polygon_length : polygon -> float;
  polygon_centroid : polygon -> point
}.

(** numpy, on two-component vectors: [np.linalg.norm], [np.dot],
    [np.linalg.det] of the matrix of two rows, [np.arctan2], [np.degrees]. *)
Record Numpy : Type := mkNumpy {
  np_linalg_norm : point -> float;
  np_dot : point -> point -> float;
  np_linalg_det : point -> point -> float;
  np_arctan2 : float -> float -> float;
  np_degrees : float -> float
}.

(** An image dimension as a float. *)
Definition float_of_nat (n : nat) : float :=
  PrimFloat.of_uint63 (Uint63.of_Z (Z.of_nat n)).

(** [a / b] on floats raises on a zero divisor. *)
Definition truediv (a b : float) : result float :=
  if (b =? 0)%float then Raise ZeroDivisionError else Ok (a / b)%float.

(** One row of the report table. *)
Record Row : Type := mkRow {
  row_frame : nat;
  row_position : float;
  row_phase : string;
  row_lumen_area : float;
  row_lumen_circumf : float;
  row_longest_distance : float;
  row_shortest_distance : float;
  row_elliptic_ratio : float;
  row_vector_length : float;
  row_vector_angle : float
}.

(** The local lists of compute_all that are not (or may not be) lists of
    [main_window.data]: [fresh] holds [elliptic_ratio], [vector_length] and
    [vector_angle] when they were created by the [except KeyError] branch
    ([None] when the three names are bound to the lists of the data);
    [lumen_x] and [lumen_y] hold the full contours. *)
Record Locals : Type := mkLocals {
  fresh : option (list float * list float * list float);
  lumen_x : list (list float);
  lumen_y : list (list float)
}.

Inductive late : Type := ER | VL | VA.

Definition late_entry (k : late) (d : Data) : list float :=
  match match k with
        | ER => elliptic_ratio d
        | VL => vector_length d
        | VA => vector_angle d
        end with
  | Some l => l
  | None => []
  end.

Definition set_late_entry (k : late) (l : list float) (d : Data) : Data :=
  match k with
  | ER => set_late_entries (Some l) (vector_length d) (vector_angle d) d
  | VL => set_late_entries (elliptic_ratio d) (Some l) (vector_angle d) d
  | VA => set_late_entries (elliptic_ratio d) (vector_length d) (Some l) d
  end.

Definition late_local (k : late) (f : list float * list float * list float) : list float :=
  let '(e, l, a) := f in
  match k with ER => e | VL => l | VA => a end.

Definition set_late_local (k : late) (v : list float)
  (f : list float * list float * list float) : list float * list float * list float :=
  let '(e, l, a) := f in
  match k with ER => (v, l, a) | VL => (e, v, a) | VA => (e, l, v) end.

(** [elliptic_ratio[frame]] and the like, through the local name. *)
Definition late_load (k : late) (lc : Locals) (frame : nat) : M float :=
  match fresh lc with
  | Some f => lift (getitem (late_local k f) frame)
  | None => load (late_entry k) frame
  end.

(** [elliptic_ratio[frame] = v] and the like, through the local name. *)
Definition late_store (k : late) (lc : Locals) (frame : nat) (v : float) : M Locals :=
  match fresh lc with
  | Some f =>
      l <~ lift (setitem (late_local k f) frame v) ;;
      ret (mkLocals (Some (set_late_local k l f)) (lumen_x lc) (lumen_y lc))
  | None =>
      store (late_entry k) (set_late_entry k) frame v ;;;
      ret lc
  end.

Section Metrics.

Variable math_dist : point -> point -> float.
Variable shapely : Shapely.
Variable numpy : Numpy.

(** [Spline(knot_points, n_points=...).full_contour], the call of line 97
    and the attribute read of line 100.  The pass is written over the
    call, so that what does not depend on it is proved once; the call as
    the repository has it is [Spline_n_points] below: the constructor of
    gui/geometry.py does not take the keyword [n_points], and the call
    raises [TypeError]. *)
Variable Spline_full_contour : coords -> nat -> result Geometry.full_contour_t.

(** [progress.wasCanceled()] after [progress.setValue(frame)]. *)
Variable wasCanceled : nat -> bool.

(** [r ** 2] is written [r * r] (the two agree unless the square overflows). *)
Definition compute_polygon_metrics (w : Window) (poly : polygon shapely) (frame : nat)
  : M (float * float * float * float) :=
  let lumen_area_v := (polygon_area shapely poly * (resolution w * resolution w))%float in
  let lumen_circumf_v := (polygon_length shapely poly * resolution w)%float in
  let centroid_x := fst (polygon_centroid shapely poly) in
  let centroid_y := snd (polygon_centroid shapely poly) in
  store lumen_area set_lumen_area frame lumen_area_v ;;;
  store lumen_circumf set_lumen_circumf frame lumen_circumf_v ;;;
  store (fun d => fst (lumen_centroid d)) (set_fst lumen_centroid set_lumen_centroid)
        frame (Some centroid_x) ;;;
  store (fun d => snd (lumen_centroid d)) (set_snd lumen_centroid set_lumen_centroid)
        frame (Some centroid_y) ;;;
  ret (lumen_area_v, lumen_circumf_v, centroid_x, centroid_y).

Definition centroid_center_vector (w : Window) (centroid_x centroid_y : float)
  : float * float :=
  let '(_, h, wd) := images_shape w in
  let center_x := (float_of_nat h / 2)%float in
  let center_y := (float_of_nat wd / 2)%float in
  let unit_vector := (0%float, 1%float) in
  let vector := ((centroid_x - center_x)%float, (centroid_y - center_y)%float) in
  let vector_length_v := (np_linalg_norm numpy vector * resolution w)%float in
  let vector_dot := np_dot numpy unit_vector vector in
  let vector_det := np_linalg_det numpy unit_vector vector in
  let vector_angle_v := np_degrees numpy (np_arctan2 numpy vector_det vector_dot) in
  let vector_angle_v :=
    if (vector_angle_v <? 0)%float then (vector_angle_v + 360)%float else vector_angle_v in
  (vector_length_v, vector_angle_v).

(** A centroid slot read as a number. *)
Definition load_centroid (get : Data -> list (option float)) (frame : nat) : M float :=
  c <~ load get frame ;;
  match c with
  | Some v => ret v
  | None => raise TypeError
  end.

(** Line 94: "values already computed for this frame". *)
Definition already_computed (lc : Locals) (frame : nat) : M bool :=
  a <~ load lumen_area frame ;;
  if truthy a then
    e <~ late_load ER lc frame ;;
    ret (neqb e 0%float)
  else ret false.

(** Lines 97-112: the full contour of the frame, its polygon, and the
    area, perimeter, centroid and the two diameters. *)
Definition frame_geometry (w : Window) (lc : Locals) (frame : nat) : M Locals :=
  xs <~ load (fun d => fst (lumen d)) frame ;;
  ys <~ load (fun d => snd (lumen d)) frame ;;
  fc <~ lift (Spline_full_contour (xs, ys) (n_points_contour w)) ;;
  match fc with
  | Geometry.Contour x_new y_new =>
      lx <~ lift (setitem (lumen_x lc) frame x_new) ;;
      ly <~ lift (setitem (lumen_y lc) frame y_new) ;;
      poly <~ lift (Polygon shapely (combine x_new y_new)) ;;
      let exterior := exterior_coords shapely poly in
      ' (a, c, cx, cy) <~ compute_polygon_metrics w poly frame ;;
      store lumen_area set_lumen_area frame a ;;;
      store lumen_circumf set_lumen_circumf frame c ;;;
      store (fun d => fst (lumen_centroid d)) (set_fst lumen_centroid set_lumen_centroid)
            frame (Some cx) ;;;
      store (fun d => snd (lumen_centroid d)) (set_snd lumen_centroid set_lumen_centroid)
            frame (Some cy) ;;;
      ' (ld, fx, fy) <~ farthest_points math_dist w exterior frame ;;
      store longest_distance set_longest_distance frame ld ;;;
      store (fun d => fst (farthest_point d)) (set_fst farthest_point set_farthest_point)
            frame fx ;;;
      store (fun d => snd (farthest_point d)) (set_snd farthest_point set_farthest_point)
            frame fy ;;;
      ' (sd, nx, ny) <~ closest_points math_dist w exterior frame ;;
      store shortest_distance set_shortest_distance frame sd ;;;
      store (fun d => fst (nearest_point d)) (set_fst nearest_point set_nearest_point)
            frame nx ;;;
      store (fun d => snd (nearest_point d)) (set_snd nearest_point set_nearest_point)
            frame ny ;;;
      ret (mkLocals (fresh lc) lx ly)
  | _ => raise TypeError
  end.

(** Lines 113-117: the elliptic ratio, guarded by the test on the
    shortest distance, and the centroid vector. *)
Definition frame_ratio_and_vector (w : Window) (lc : Locals) (frame : nat) : M Locals :=
  sd <~ load shortest_distance frame ;;
  lc <~ (if neqb sd 0%float then
           ld <~ load longest_distance frame ;;
           sd' <~ load shortest_distance frame ;;
           ratio <~ lift (truediv ld sd') ;;
           late_store ER lc frame ratio
         else ret lc) ;;
  cx <~ load_centroid (fun d => fst (lumen_centroid d)) frame ;;
  cy <~ load_centroid (fun d => snd (lumen_centroid d)) frame ;;
  let '(vl, va) := centroid_center_vector w cx cy in
  lc <~ late_store VL lc frame vl ;;
  late_store VA lc frame va.

(** Lines 97-117: the metrics of one frame. *)
Definition compute_frame (w : Window) (lc : Locals) (frame : nat) : M Locals :=
  lc <~ frame_geometry w lc frame ;;
  frame_ratio_and_vector w lc frame.

(** One turn of the loop of lines 93-121.  The result is [None] when the
    user cancelled ([return None]); otherwise the locals and the values
    shown by the progress dialog so far. *)
Definition process_frame (w : Window) (suppress_messages : bool) (frame : nat)
  (st : Locals * list nat) : M (option (Locals * list nat)) :=
  let '(lc, shown) := st in
  skip <~ already_computed lc frame ;;
  if skip then ret (Some (lc, shown))
  else
    lc <~ compute_frame w lc frame ;;
    if suppress_messages then ret (Some (lc, shown))
    else if wasCanceled frame then ret None
         else ret (Some (lc, shown ++ [frame])).

Fixpoint frames_loop (w : Window) (suppress_messages : bool) (frames : list nat)
  (st : Locals * list nat) : M (option (Locals * list nat)) :=
  match frames with
  | [] => ret (Some st)
  | frame :: rest =>
      r <~ process_frame w suppress_messages frame st ;;
      match r with
      | None => ret None
      | Some st' => frames_loop w suppress_messages rest st'
      end
  end.

(** Lines 82-91: the local lists before the loop. *)
Definition initial_locals (w : Window) (d : Data) : Locals :=
  let zeros := repeat 0%float (num_frames w) in
  mkLocals
    (match elliptic_ratio d, vector_length d, vector_angle d with
     | Some _, Some _, Some _ => None
     | _, _, _ => Some (zeros, zeros, zeros)
     end)
    (repeat [] (num_frames w))
    (repeat [] (num_frames w)).

(** Lines 123-133: one row of the table per contoured frame. *)
Definition report_row (w : Window) (lc : Locals) (frame : nat) : M Row :=
  position <~ lift (getitem (pullback_length w) frame) ;;
  phase <~ load phases frame ;;
  a <~ load lumen_area frame ;;
  c <~ load lumen_circumf frame ;;
  ld <~ load longest_distance frame ;;
  sd <~ load shortest_distance frame ;;
  er <~ late_load ER lc frame ;;
  vl <~ late_load VL lc frame ;;
  va <~ late_load VA lc frame ;;
  ret (mkRow frame position phase a c ld sd er vl va).

Fixpoint report_rows (w : Window) (lc : Locals) (frames : list nat) : M (list Row) :=
  match frames with
  | [] => ret []
  | frame :: rest =>
      r <~ report_row w lc frame ;;
      rs <~ report_rows w lc rest ;;
      ret (r :: rs)
  end.

(** Lines 134-136: the three lists are bound in the data. *)
Definition bind_late_entries (lc : Locals) : M unit :=
  fun d =>
    match fresh lc with
    | Some (e, l, a) => (set_late_entries (Some e) (Some l) (Some a) d, Ok tt)
    | None => (d, Ok tt)
    end.

(** compute_all with [plot=False] and [save_as_csv=False]: the metrics
    pass and the report table.  The result is [None] when the user
    cancelled; the second component lists the frames shown by the progress
    dialog, which are the frames whose metrics were computed in this pass
    (when messages are not suppressed). *)
Definition compute_all (w : Window) (contoured_frames : list nat) (suppress_messages : bool)
  : M (option (list Row * list nat)) :=
  lc0 <~ gets (initial_locals w) ;;
  r <~ frames_loop w suppress_messages contoured_frames (lc0, []) ;;
  match r with
  | None => ret None
  | Some (lc, shown) =>
      rows <~ report_rows w lc contoured_frames ;;
      bind_late_entries lc ;;;
      ret (Some (rows, shown))
  end.

End Metrics.

(** *** What a call keeps

    [keeps R Q E m]: whatever the data, the data after [m] is related to it
    by [R]; a value returned satisfies [Q] and an exception raised [E]. *)

Section Keeps.

Variable R : Data -> Data -> Prop.
Hypothesis R_refl : forall d, R d d.
Hypothesis R_trans : forall d1 d2 d3, R d1 d2 -> R d2 d3 -> R d1 d3.
Variable E : exn -> Prop.

Definition keeps {A : Type} (Q : A -> Prop) (m : M A) : Prop :=
  forall d,
    R d (fst (m d)) /\
    match snd (m d) with
    | Ok a => Q a
    | Raise e => E e
    end.

Lemma keeps_ret (A : Type) (Q : A -> Prop) (a : A) : Q a -> keeps Q (ret a).
Proof. intros H d. split; [apply R_refl | exact H]. Qed.

Lemma keeps_raise (A : Type) (Q : A -> Prop) (e : exn) : E e -> keeps Q (@raise A e).
Proof. intros H d. split; [apply R_refl | exact H]. Qed.

Lemma keeps_lift (A : Type) (Q : A -> Prop) (r : result A) :
  match r with Ok a => Q a | Raise e => E e end -> keeps Q (lift r).
Proof. intros H d. split; [apply R_refl | exact H]. Qed.

Lemma keeps_load (A : Type) (get : Data -> list A) (frame : nat) :
  E IndexError -> keeps (fun _ => True) (load get frame).
Proof.
  intros H d. split; [apply R_refl|]. unfold load, getitem. cbn.
  now destruct (nth_error (get d) frame).
Qed.

Lemma keeps_store (A : Type) (get : Data -> list A) (set : list A -> Data -> Data)
  (frame : nat) (v : A) :
  E IndexError ->
  (forall d l, setitem (get d) frame v = Ok l -> R d (set l d)) ->
  keeps (fun _ => True) (store get set frame v).
Proof.
  intros HE H d. unfold store.
  destruct (setitem (get d) frame v) as [l|e] eqn:Hs; cbn.
  - split; [now apply H | exact I].
  - split; [apply R_refl|].
    assert (e = IndexError); [|now subst].
    clear -Hs. revert frame e Hs. induction (get d) as [|h t IH]; intros [|j] e; cbn;
      try congruence.
    destruct (setitem t j v) eqn:Ht; [discriminate|]. intros [= <-]. now apply (IH j).
Qed.

Lemma keeps_bind (A B : Type) (Q1 : A -> Prop) (Q2 : B -> Prop)
  (m : M A) (k : A -> M B) :
  keeps Q1 m -> (forall a, Q1 a -> keeps Q2 (k a)) -> keeps Q2 (bindM m k).
Proof.
  intros Hm Hk d. unfold bindM. specialize (Hm d).
  destruct (m d) as [d1 [a|e]]; cbn in Hm; destruct Hm as [HR HQ].
  - destruct (Hk a HQ d1) as [HR' HQ']. split; [|exact HQ'].
    eapply R_trans; eassumption.
  - cbn. split; assumption.
Qed.

Lemma keeps_weaken (A : Type) (Q Q' : A -> Prop) (m : M A) :
  (forall a, Q a -> Q' a) -> keeps Q m -> keeps Q' m.
Proof.
  intros H Hm d. destruct (Hm d) as [HR HQ]. split; [exact HR|].
  destruct (snd (m d)); [now apply H | exact HQ].
Qed.

End Keeps.

(** *** Facts on the slots of a frame *)

Lemma setitem_same (A : Type) (l l' : list A) (i : nat) (v : A) :
  setitem l i v = Ok l' -> nth_error l' i = Some v.
Proof.
  revert l' i. induction l as [|h t IH]; intros l' [|j]; cbn; try discriminate.
  - now intros [= <-].
  - destruct (setitem t j v) as [t'|] eqn:Ht; [|discriminate].
    intros [= <-]. cbn. now apply IH.
Qed.

Lemma setitem_other (A : Type) (l l' : list A) (i j : nat) (v : A) :
  setitem l i v = Ok l' -> j <> i -> nth_error l' j = nth_error l j.
Proof.
  revert l' i j. induction l as [|h t IH]; intros l' [|i] j; cbn; try discriminate.
  - intros [= <-] Hj. destruct j; [congruence | reflexivity].
  - destruct (setitem t i v) as [t'|] eqn:Ht; [|discriminate].
    intros [= <-] Hj. destruct j as [|j]; [reflexivity|]. cbn. apply (IH t' i); congruence.
Qed.

Lemma setitem_length (A : Type) (l l' : list A) (i : nat) (v : A) :
  setitem l i v = Ok l' -> List.length l' = List.length l.
Proof.
  revert l' i. induction l as [|h t IH]; intros l' [|j]; cbn; try discriminate.
  - now intros [= <-].
  - destruct (setitem t j v) as [t'|] eqn:Ht; [|discriminate].
    intros [= <-]. cbn. f_equal. now apply (IH t' j).
Qed.

(** The stored metrics of a frame: the slot of the frame in every list
    of metrics of [main_window.data]. *)
Record FrameMetrics : Type := mkFrameMetrics {
  m_lumen_area : option float;
  m_lumen_circumf : option float;
  m_lumen_centroid : option (option float) * option (option float);
  m_longest_distance : option float;
  m_farthest_point : option (list float) * option (list float);
  m_shortest_distance : option float;
  m_nearest_point : option (list float) * option (list float);
  m_elliptic_ratio : option float;
  m_vector_length : option float;
  m_vector_angle : option float
}.

Definition metrics_of (d : Data) (frame : nat) : FrameMetrics :=
  mkFrameMetrics
    (nth_error (lumen_area d) frame)
    (nth_error (lumen_circumf d) frame)
    (nth_error (fst (lumen_centroid d)) frame, nth_error (snd (lumen_centroid d)) frame)
    (nth_error (longest_distance d) frame)
    (nth_error (fst (farthest_point d)) frame, nth_error (snd (farthest_point d)) frame)
    (nth_error (shortest_distance d) frame)
    (nth_error (fst (nearest_point d)) frame, nth_error (snd (nearest_point d)) frame)
    (nth_error (late_entry ER d) frame)
    (nth_error (late_entry VL d) frame)
    (nth_error (late_entry VA d) frame).

(** [untouched f d d']: from [d] to [d'] the stored metrics of frame [f]
    and the knot points of all frames are the same. *)
Definition untouched (f : nat) (d d' : Data) : Prop :=
  metrics_of d' f = metrics_of d f /\ lumen d' = lumen d.

Lemma untouched_refl (f : nat) (d : Data) : untouched f d d.
Proof. now split. Qed.

Lemma untouched_trans (f : nat) (d1 d2 d3 : Data) :
  untouched f d1 d2 -> untouched f d2 d3 -> untouched f d1 d3.
Proof. intros [H1 K1] [H2 K2]. split; congruence. Qed.

(** The three names [elliptic_ratio], [vector_length], [vector_angle] are
    bound to the lists of the data. *)
Definition bound (lc : Locals) : Prop := fresh lc = None.

Definition any_exn (_ : exn) : Prop := True.

(** [R] is kept by every store of lines 97-112 into the slots of [frame]. *)
Definition geometry_stable (frame : nat) (R : Data -> Data -> Prop) : Prop :=
  (forall d l v, setitem (lumen_area d) frame v = Ok l -> R d (set_lumen_area l d)) /\
  (forall d l v, setitem (lumen_circumf d) frame v = Ok l -> R d (set_lumen_circumf l d)) /\
  (forall d l v, setitem (fst (lumen_centroid d)) frame v = Ok l ->
                 R d (set_fst lumen_centroid set_lumen_centroid l d)) /\
  (forall d l v, setitem (snd (lumen_centroid d)) frame v = Ok l ->
                 R d (set_snd lumen_centroid set_lumen_centroid l d)) /\
  (forall d l v, setitem (longest_distance d) frame v = Ok l ->
                 R d (set_longest_distance l d)) /\
  (forall d l v, setitem (fst (farthest_point d)) frame v = Ok l ->
                 R d (set_fst farthest_point set_farthest_point l d)) /\
  (forall d l v, setitem (snd (farthest_point d)) frame v = Ok l ->
                 R d (set_snd farthest_point set_farthest_point l d)) /\
  (forall d l v, setitem (shortest_distance d) frame v = Ok l ->
                 R d (set_shortest_distance l d)) /\
  (forall d l v, setitem (fst (nearest_point d)) frame v = Ok l ->
                 R d (set_fst nearest_point set_nearest_point l d)) /\
  (forall d l v, setitem (snd (nearest_point d)) frame v = Ok l ->
                 R d (set_snd nearest_point set_nearest_point l d)).

Section GeometryKeeps.

Variable math_dist : point -> point -> float.
Variable shapely : Shapely.
Variable Spline_full_contour : coords -> nat -> result Geometry.full_contour_t.

Variable R : Data -> Data -> Prop.
Hypothesis R_refl : forall d, R d d.
Hypothesis R_trans : forall d1 d2 d3, R d1 d2 -> R d2 d3 -> R d1 d3.
Variable frame : nat.
Hypothesis R_stores : geometry_stable frame R.

Local Notation "'keeps_R'" := (keeps R any_exn).

Lemma kr_bind (A B : Type) (Q1 : A -> Prop) (Q2 : B -> Prop) (m : M A) (k : A -> M B) :
  keeps_R Q1 m -> (forall a, Q1 a -> keeps_R Q2 (k a)) -> keeps_R Q2 (bindM m k).
Proof. apply keeps_bind. exact R_trans. Qed.

Lemma kr_ret (A : Type) (Q : A -> Prop) (a : A) : Q a -> keeps_R Q (ret a).
Proof. apply keeps_ret. exact R_refl. Qed.

Lemma kr_raise (A : Type) (Q : A -> Prop) (e : exn) : keeps_R Q (@raise A e).
Proof. apply keeps_raise; [exact R_refl | exact I]. Qed.

Lemma kr_lift (A : Type) (Q : A -> Prop) (r : result A) :
  (forall a, r = Ok a -> Q a) -> keeps_R Q (lift r).
Proof.
  intros H. apply keeps_lift; [exact R_refl|].
  destruct r; [now apply H | exact I].
Qed.

Lemma kr_load (A : Type) (get : Data -> list A) (i : nat) :
  keeps_R (fun _ => True) (load get i).
Proof. apply keeps_load; [exact R_refl | exact I]. Qed.

Lemma kr_store (A : Type) (get : Data -> list A) (set : list A -> Data -> Data)
  (i : nat) (v : A) :
  (forall d l, setitem (get d) i v = Ok l -> R d (set l d)) ->
  keeps_R (fun _ => True) (store get set i v).
Proof. intros H. apply keeps_store; [exact R_refl | exact I | exact H]. Qed.

(** A chain of stores of lines 97-112. *)
Ltac stores :=
  repeat (eapply kr_bind;
          [apply kr_store; intros ? ?;
           first [ apply (proj1 R_stores)
                 | apply (proj1 (proj2 R_stores))
                 | apply (proj1 (proj2 (proj2 R_stores)))
                 | apply (proj1 (proj2 (proj2 (proj2 R_stores))))
                 | apply (proj1 (proj2 (proj2 (proj2 (proj2 R_stores)))))
                 | apply (proj1 (proj2 (proj2 (proj2 (proj2 (proj2 R_stores))))))
                 | apply (proj1 (proj2 (proj2 (proj2 (proj2 (proj2 (proj2 R_stores)))))))
                 | apply (proj1 (proj2 (proj2 (proj2 (proj2 (proj2 (proj2 (proj2 R_stores))))))))
                 | apply (proj1 (proj2 (proj2 (proj2 (proj2 (proj2 (proj2 (proj2
                                  (proj2 R_stores)))))))))
                 | apply (proj2 (proj2 (proj2 (proj2 (proj2 (proj2 (proj2 (proj2
                                  (proj2 R_stores))))))))) ]
          | intros ? _]).

Lemma farthest_points_keeps (w : Window) (exterior : list point) :
  keeps_R (fun _ => True) (farthest_points math_dist w exterior frame).
Proof.
  unfold farthest_points.
  destruct (farthest_search math_dist exterior) as [m [[[x1 y1] [x2 y2]]|]].
  - stores. now apply kr_ret.
  - apply kr_raise.
Qed.

Lemma closest_points_keeps (w : Window) (contour : list point) :
  keeps_R (fun _ => True) (closest_points math_dist w contour frame).
Proof.
  unfold closest_points.
  eapply kr_bind; [apply kr_lift with (Q := fun _ => True); trivial|].
  intros [m c] _.
  destruct c as [[[x1 y1] [x2 y2]]|]; stores; now apply kr_ret.
Qed.

Lemma compute_polygon_metrics_keeps (w : Window) (poly : polygon shapely) :
  keeps_R (fun _ => True) (compute_polygon_metrics shapely w poly frame).
Proof.
  unfold compute_polygon_metrics. stores. now apply kr_ret.
Qed.

Lemma frame_geometry_keeps (w : Window) (lc : Locals) :
  keeps_R (fun lc' => fresh lc' = fresh lc)
          (frame_geometry math_dist shapely Spline_full_contour w lc frame).
Proof.
  unfold frame_geometry.
  eapply kr_bind; [apply kr_load|]. intros xs _.
  eapply kr_bind; [apply kr_load|]. intros ys _.
  eapply kr_bind; [apply kr_lift with (Q := fun _ => True); trivial|]. intros fc _.
  destruct fc as [| |x_new y_new]; try apply kr_raise.
  eapply kr_bind; [apply kr_lift with (Q := fun _ => True); trivial|]. intros lx _.
  eapply kr_bind; [apply kr_lift with (Q := fun _ => True); trivial|]. intros ly _.
  eapply kr_bind; [apply kr_lift with (Q := fun _ => True); trivial|]. intros poly _.
  eapply kr_bind; [now apply compute_polygon_metrics_keeps|]. intros [[[a c] cx] cy] _.
  stores.
  eapply kr_bind; [now apply farthest_points_keeps|]. intros [[ld fx] fy] _.
  stores.
  eapply kr_bind; [now apply closest_points_keeps|]. intros [[sd nx] ny] _.
  stores.
  now apply kr_ret.
Qed.

End GeometryKeeps.

(** The stores of another frame leave the metrics of a frame untouched. *)
Ltac store_untouched Hneq :=
  let d := fresh "d" in
  let l := fresh "l" in
  let Hs := fresh "Hs" in
  intros d l Hs; split; [|reflexivity];
  unfold metrics_of; cbn;
  rewrite ?(@setitem_other _ _ _ _ _ _ Hs Hneq); reflexivity.

Lemma untouched_geometry_stable (f frame : nat) :
  f <> frame -> geometry_stable frame (untouched f).
Proof.
  intros Hneq. unfold geometry_stable.
  repeat match goal with |- _ /\ _ => split end;
    intros d l v Hs; (split; [|reflexivity]);
    unfold metrics_of; cbn;
    rewrite ?(@setitem_other _ _ _ _ _ _ Hs Hneq); reflexivity.
Qed.

Section MetricsFacts.

Variable math_dist : point -> point -> float.
Variable shapely : Shapely.
Variable numpy : Numpy.
Variable Spline_full_contour : coords -> nat -> result Geometry.full_contour_t.
Variable wasCanceled : nat -> bool.

Variable f : nat.

Local Notation "'keeps_f'" := (keeps (untouched f) any_exn).

Lemma kf_bind (A B : Type) (Q1 : A -> Prop) (Q2 : B -> Prop) (m : M A) (k : A -> M B) :
  keeps_f Q1 m -> (forall a, Q1 a -> keeps_f Q2 (k a)) -> keeps_f Q2 (bindM m k).
Proof. apply keeps_bind. apply untouched_trans. Qed.

Lemma kf_ret (A : Type) (Q : A -> Prop) (a : A) : Q a -> keeps_f Q (ret a).
Proof. apply keeps_ret. apply untouched_refl. Qed.

Lemma kf_raise (A : Type) (Q : A -> Prop) (e : exn) : keeps_f Q (@raise A e).
Proof. apply keeps_raise; [apply untouched_refl | exact I]. Qed.

Lemma kf_lift (A : Type) (Q : A -> Prop) (r : result A) :
  (forall a, r = Ok a -> Q a) -> keeps_f Q (lift r).
Proof.
  intros H. apply keeps_lift; [apply untouched_refl|].
  destruct r; [now apply H | exact I].
Qed.

Lemma kf_load (A : Type) (get : Data -> list A) (frame : nat) :
  keeps_f (fun _ => True) (load get frame).
Proof. apply keeps_load; [apply untouched_refl | exact I]. Qed.

Lemma kf_store (A : Type) (get : Data -> list A) (set : list A -> Data -> Data)
  (frame : nat) (v : A) :
  (forall d l, setitem (get d) frame v = Ok l -> untouched f d (set l d)) ->
  keeps_f (fun _ => True) (store get set frame v).
Proof. intros H. apply keeps_store; [apply untouched_refl | exact I | exact H]. Qed.

Lemma kf_weaken (A : Type) (Q Q' : A -> Prop) (m : M A) :
  (forall a, Q a -> Q' a) -> keeps_f Q m -> keeps_f Q' m.
Proof. apply keeps_weaken. Qed.

Lemma late_store_keeps (k : late) (lc : Locals) (frame : nat) (v : float) :
  f <> frame ->
  keeps_f (fun lc' => bound lc -> bound lc') (late_store k lc frame v).
Proof.
  intros Hneq. unfold late_store, bound. destruct (fresh lc) as [fr|] eqn:Hf.
  - eapply kf_bind; [apply kf_lift with (Q := fun _ => True); trivial|].
    intros l _. apply kf_ret. intros H; discriminate H.
  - eapply kf_bind; [apply kf_store; destruct k; store_untouched Hneq|].
    intros _ _. apply kf_ret. intros _; exact Hf.
Qed.

Lemma frame_geometry_untouched (w : Window) (lc : Locals) (frame : nat) :
  f <> frame ->
  keeps_f (fun lc' => fresh lc' = fresh lc)
          (frame_geometry math_dist shapely Spline_full_contour w lc frame).
Proof.
  intros Hneq. apply frame_geometry_keeps.
  - apply untouched_refl.
  - apply untouched_trans.
  - now apply untouched_geometry_stable.
Qed.

Lemma load_centroid_keeps (get : Data -> list (option float)) (frame : nat) :
  keeps_f (fun _ => True) (load_centroid get frame).
Proof.
  unfold load_centroid. eapply kf_bind; [apply kf_load|].
  intros [v|] _; [now apply kf_ret | apply kf_raise].
Qed.

Lemma frame_ratio_and_vector_keeps (w : Window) (lc : Locals) (frame : nat) :
  f <> frame ->
  keeps_f (fun lc' => bound lc -> bound lc')
          (frame_ratio_and_vector numpy w lc frame).
Proof.
  intros Hneq. unfold frame_ratio_and_vector.
  eapply kf_bind; [apply kf_load|]. intros sd _.
  eapply kf_bind with (Q1 := fun lc' => bound lc -> bound lc').
  - destruct (neqb sd 0).
    + eapply kf_bind; [apply kf_load|]. intros ld _.
      eapply kf_bind; [apply kf_load|]. intros sd' _.
      eapply kf_bind; [apply kf_lift with (Q := fun _ => True); trivial|]. intros ratio _.
      now apply late_store_keeps.
    + now apply kf_ret.
  - intros lc1 H1.
    eapply kf_bind; [apply load_centroid_keeps|]. intros cx _.
    eapply kf_bind; [apply load_centroid_keeps|]. intros cy _.
    destruct (centroid_center_vector numpy w cx cy) as [vl va].
    eapply kf_bind; [now apply late_store_keeps|]. intros lc2 H2.
    eapply kf_weaken; [|now apply late_store_keeps]. cbn. auto.
Qed.

Lemma compute_frame_keeps (w : Window) (lc : Locals) (frame : nat) :
  f <> frame ->
  keeps_f (fun lc' => bound lc -> bound lc')
          (compute_frame math_dist shapely numpy Spline_full_contour w lc frame).
Proof.
  intros Hneq. unfold compute_frame.
  eapply kf_bind; [now apply frame_geometry_untouched|]. intros lc1 H1.
  eapply kf_weaken; [|now apply frame_ratio_and_vector_keeps].
  unfold bound. cbn. intros lc2 H2 Hb. apply H2. congruence.
Qed.

Lemma late_load_keeps (k : late) (lc : Locals) (frame : nat) :
  keeps_f (fun _ => True) (late_load k lc frame).
Proof.
  unfold late_load. destruct (fresh lc); [now apply kf_lift | apply kf_load].
Qed.

Lemma already_computed_keeps (lc : Locals) (frame : nat) :
  keeps_f (fun _ => True) (already_computed lc frame).
Proof.
  unfold already_computed. eapply kf_bind; [apply kf_load|]. intros a _.
  destruct (truthy a); [|now apply kf_ret].
  eapply kf_bind; [apply late_load_keeps|]. intros e _. now apply kf_ret.
Qed.

(** The test of line 94 reads the data only, and only the slots of the
    frame. *)
Lemma already_computed_reads (lc : Locals) (frame : nat) (d : Data) :
  fst (already_computed lc frame d) = d.
Proof.
  unfold already_computed, bindM, load, late_load, lift, ret.
  destruct (getitem (lumen_area d) frame) as [a|]; cbn; [|reflexivity].
  destruct (truthy a); [|reflexivity].
  destruct (fresh lc) as [fr|]; unfold load, lift; cbn.
  - now destruct (getitem (late_local ER fr) frame).
  - now destruct (getitem (late_entry ER d) frame).
Qed.

Lemma already_computed_slots (lc : Locals) (d d' : Data) :
  bound lc ->
  metrics_of d' f = metrics_of d f ->
  snd (already_computed lc f d') = snd (already_computed lc f d).
Proof.
  unfold bound. intros Hb Hm.
  pose proof (f_equal m_lumen_area Hm) as Ha.
  pose proof (f_equal m_elliptic_ratio Hm) as He. cbn in Ha, He.
  unfold already_computed, bindM, load, late_load, getitem, ret. rewrite Hb, Ha.
  destruct (nth_error (lumen_area d) f) as [a|]; cbn; [|reflexivity].
  destruct (truthy a); [|reflexivity].
  unfold load, getitem. rewrite He.
  now destruct (nth_error (late_entry ER d) f).
Qed.

Lemma process_frame_untouched (w : Window) (suppress_messages : bool) (g : nat)
  (lc : Locals) (shown : list nat) (d : Data) :
  bound lc ->
  (g = f -> snd (already_computed lc f d) = Ok true) ->
  untouched f d
    (fst (process_frame math_dist shapely numpy Spline_full_contour wasCanceled
            w suppress_messages g (lc, shown) d)) /\
  (forall st', snd (process_frame math_dist shapely numpy Spline_full_contour wasCanceled
                      w suppress_messages g (lc, shown) d) = Ok (Some st') ->
               bound (fst st')).
Proof.
  intros Hb Hdone. destruct (Nat.eq_dec g f) as [->|Hneq].
  - specialize (Hdone eq_refl). unfold process_frame, bindM.
    pose proof (already_computed_reads lc f d) as Hst.
    destruct (already_computed lc f d) as [d1 r]. cbn in Hst, Hdone. subst d1 r.
    cbn. split; [apply untouched_refl|]. now intros st' [= <-].
  - assert (Hk : keeps_f (fun r => forall st', r = Some st' -> bound (fst st'))
                   (process_frame math_dist shapely numpy Spline_full_contour wasCanceled
                      w suppress_messages g (lc, shown))).
    { unfold process_frame.
      eapply kf_bind; [apply already_computed_keeps|]. intros skip _.
      destruct skip; [apply kf_ret; now intros st' [= <-]|].
      eapply kf_bind; [apply compute_frame_keeps; congruence|]. intros lc' Hlc'.
      destruct suppress_messages; [apply kf_ret; intros st' [= <-]; now apply Hlc'|].
      destruct (wasCanceled g); apply kf_ret; [discriminate|].
      intros st' [= <-]. now apply Hlc'. }
    destruct (Hk d) as [HR HQ]. split; [exact HR|].
    intros st' Hst. rewrite Hst in HQ. now apply HQ.
Qed.

Lemma frames_loop_untouched (w : Window) (suppress_messages : bool) (frames : list nat) :
  forall (lc : Locals) (shown : list nat) (d : Data),
    bound lc ->
    (In f frames -> snd (already_computed lc f d) = Ok true) ->
    untouched f d
      (fst (frames_loop math_dist shapely numpy Spline_full_contour wasCanceled
              w suppress_messages frames (lc, shown) d)) /\
    (forall st', snd (frames_loop math_dist shapely numpy Spline_full_contour wasCanceled
                        w suppress_messages frames (lc, shown) d) = Ok (Some st') ->
                 bound (fst st')).
Proof.
  induction frames as [|g rest IH]; intros lc shown d Hb Hdone.
  - cbn. split; [apply untouched_refl|]. now intros st' [= <-].
  - cbn [frames_loop]. unfold bindM.
    destruct (@process_frame_untouched w suppress_messages g lc shown d Hb) as [HR HQ].
    { intros ->. apply Hdone. now left. }
    destruct (process_frame math_dist shapely numpy Spline_full_contour wasCanceled
                w suppress_messages g (lc, shown) d) as [d1 [[[lc1 shown1]|]|e]];
      cbn [fst snd] in *.
    + specialize (HQ _ eq_refl). cbn in HQ.
      destruct (IH lc1 shown1 d1 HQ) as [HR' HQ'].
      { intros Hin. rewrite (@already_computed_slots lc1 d d1 HQ (proj1 HR)).
        rewrite <- (Hdone (or_intror Hin)).
        unfold bound in *. unfold already_computed, late_load. now rewrite Hb, HQ. }
      split; [eapply untouched_trans; eassumption | exact HQ'].
    + cbn. split; [exact HR | discriminate].
    + cbn. split; [exact HR | discriminate].
Qed.

Lemma report_rows_keeps (w : Window) (lc : Locals) (frames : list nat) :
  keeps_f (fun _ => True) (report_rows w lc frames).
Proof.
  induction frames as [|g rest IH]; cbn [report_rows]; [now apply kf_ret|].
  eapply kf_bind.
  - unfold report_row.
    eapply kf_bind; [apply kf_lift with (Q := fun _ => True); trivial|]. intros ? _.
    do 5 (eapply kf_bind; [apply kf_load|]; intros ? _).
    do 3 (eapply kf_bind; [apply late_load_keeps|]; intros ? _).
    apply kf_ret with (Q := fun _ => True). exact I.
  - intros r _. eapply kf_bind; [exact IH|]. intros rs _. now apply kf_ret.
Qed.

Lemma initial_locals_bound (w : Window) (d : Data) :
  bound (initial_locals w d) <->
  (elliptic_ratio d <> None /\ vector_length d <> None /\ vector_angle d <> None).
Proof.
  unfold bound, initial_locals. cbn.
  destruct (elliptic_ratio d), (vector_length d), (vector_angle d);
    split; try discriminate; try (intros (? & ? & ?); congruence);
    intros _; repeat split; discriminate.
Qed.

Lemma nth_error_repeat (A : Type) (a x : A) (n i : nat) :
  nth_error (repeat a n) i = Some x -> x = a.
Proof.
  intros H. apply nth_error_In in H. now apply repeat_spec in H.
Qed.

Lemma already_computed_bound (w : Window) (d : Data) (g : nat) :
  snd (already_computed (initial_locals w d) g d) = Ok true ->
  bound (initial_locals w d).
Proof.
  unfold bound. destruct (fresh (initial_locals w d)) as [[[e l] a]|] eqn:Hf; [|reflexivity].
  intros H. exfalso. revert H.
  unfold already_computed, bindM, load, late_load, ret. rewrite Hf.
  destruct (getitem (lumen_area d) g) as [ar|]; cbn; [|discriminate].
  destruct (truthy ar); [|discriminate].
  unfold lift, getitem. cbn.
  destruct (nth_error e g) as [x|] eqn:Hx; cbn; [|discriminate].
  unfold initial_locals in Hf. cbn in Hf.
  assert (He : e = repeat 0%float (num_frames w)).
  { destruct (elliptic_ratio d), (vector_length d), (vector_angle d); congruence. }
  subst e. apply nth_error_repeat in Hx. subst x. discriminate.
Qed.

Lemma compute_all_untouched (w : Window) (frames : list nat) (suppress_messages : bool)
  (d : Data) :
  bound (initial_locals w d) ->
  (In f frames -> snd (already_computed (initial_locals w d) f d) = Ok true) ->
  untouched f d
    (fst (compute_all math_dist shapely numpy Spline_full_contour wasCanceled
            w frames suppress_messages d)).
Proof.
  intros Hb Hdone. unfold compute_all, bindM, gets. cbn [fst snd].
  destruct (@frames_loop_untouched w suppress_messages frames (initial_locals w d) [] d
              Hb Hdone) as [HR HQ].
  destruct (frames_loop math_dist shapely numpy Spline_full_contour wasCanceled
              w suppress_messages frames (initial_locals w d, []) d)
    as [d1 [[[lc shown]|]|e]]; cbn [fst snd] in *; try exact HR.
  specialize (HQ _ eq_refl). cbn in HQ.
  destruct (report_rows_keeps w lc frames d1) as [HR' _].
  destruct (report_rows w lc frames d1) as [d2 [rows|e]]; cbn [fst snd] in *.
  - unfold bind_late_entries. unfold bound in HQ. rewrite HQ. cbn.
    eapply untouched_trans; eassumption.
  - eapply untouched_trans; eassumption.
Qed.

End MetricsFacts.

(** *** The test of line 94 *)

(** The list that the local name [elliptic_ratio] (or [vector_length],
    [vector_angle]) denotes. *)
Definition late_view (k : late) (lc : Locals) (d : Data) : list float :=
  match fresh lc with
  | Some fr => late_local k fr
  | None => late_entry k d
  end.

Lemma bindM_inv (A B : Type) (m : M A) (k : A -> M B) (d d' : Data) (b : B) :
  bindM m k d = (d', Ok b) ->
  exists a d1, m d = (d1, Ok a) /\ k a d1 = (d', Ok b).
Proof.
  unfold bindM. destruct (m d) as [d1 [a|e]]; [|discriminate].
  intros H. now exists a, d1.
Qed.

Lemma load_inv (A : Type) (get : Data -> list A) (frame : nat) (d d1 : Data) (a : A) :
  load get frame d = (d1, Ok a) -> d1 = d /\ nth_error (get d) frame = Some a.
Proof.
  unfold load, getitem. destruct (nth_error (get d) frame); [|discriminate].
  now intros [= <- <-].
Qed.

(** The test of line 94 succeeds exactly when the stored area of the
    frame is truthy and its elliptic ratio differs from zero. *)
Lemma already_computed_true (lc : Locals) (frame : nat) (d : Data) :
  snd (already_computed lc frame d) = Ok true <->
  exists a e,
    nth_error (lumen_area d) frame = Some a /\ truthy a = true /\
    nth_error (late_view ER lc d) frame = Some e /\ neqb e 0%float = true.
Proof.
  unfold already_computed, bindM, load, late_load, late_view, lift, getitem, ret.
  destruct (nth_error (lumen_area d) frame) as [a|]; cbn.
  - destruct (truthy a) eqn:Ha; cbn.
    + destruct (fresh lc) as [fr|]; cbn.
      * destruct (nth_error (late_local ER fr) frame) as [e|]; cbn; split.
        -- intros [= H]. exists a, e. repeat split; assumption.
        -- intros (a' & e' & [= <-] & _ & [= <-] & H). now rewrite H.
        -- discriminate.
        -- intros (a' & e' & _ & _ & H & _). discriminate.
      * unfold load, getitem. cbn.
        destruct (nth_error (late_entry ER d) frame) as [e|]; cbn; split.
        -- intros [= H]. exists a, e. repeat split; assumption.
        -- intros (a' & e' & [= <-] & _ & [= <-] & H). now rewrite H.
        -- discriminate.
        -- intros (a' & e' & _ & _ & H & _). discriminate.
    + split; [discriminate|]. intros (a' & e' & [= <-] & H & _). congruence.
  - split; [discriminate|]. intros (a' & e' & H & _). discriminate.
Qed.

(** **** The pairs enumerated by [combinations] *)

Lemma combinations2_complete (A : Type) (l : list A) (o : A) :
  forall i j, i < j -> j < List.length l ->
              In (nth i l o, nth j l o) (combinations2 l).
Proof.
  induction l as [|x t IH]; intros i j Hij Hj; simpl in Hj; [lia|].
  destruct j as [|j]; [lia|]. cbn [combinations2]. apply in_or_app.
  destruct i as [|i]; cbn [nth].
  - left. apply in_map. apply nth_In. lia.
  - right. apply IH; lia.
Qed.

Lemma combinations2_members (A : Type) (l : list A) (pq : A * A) :
  In pq (combinations2 l) -> In (fst pq) l /\ In (snd pq) l.
Proof.
  induction l as [|x t IH]; cbn [combinations2]; [intros []|].
  intros H. apply in_app_or in H as [H|H].
  - apply in_map_iff in H as [y [<- Hy]]. split; [now left | now right].
  - destruct (IH H). split; now right.
Qed.

Lemma fold_left_ext_in (A B : Type) (f g : A -> B -> A) (l : list B) :
  (forall a b, In b l -> f a b = g a b) ->
  forall a, fold_left f l a = fold_left g l a.
Proof.
  induction l as [|x t IH]; intros H a; cbn [fold_left]; [reflexivity|].
  rewrite (H a x) by now left. apply IH. intros; apply H; now right.
Qed.

(** *** The constructor call of line 97

    [Spline([...], n_points=...)], followed by the read of [full_contour].
    The constructor of gui/geometry.py takes [points], [line_thickness]
    and [color]; the keyword [n_points] names none of them, so the call
    raises [TypeError], whatever the knot points and the fitting routine. *)

Section ConstructorCall.

Variable tck : Type.
Variable splprep : coords -> result (tck * list float).
Variable splev_linspace : tck -> list float -> list float * list float.

Definition Spline_n_points (knots : coords) (n_points : nat)
  : result Geometry.full_contour_t :=
  lumen_contour <- Geometry.Spline_keyword splprep splev_linspace "n_points" knots ;;
  Ok (Geometry.full_contour lumen_contour).

Lemma Spline_n_points_raises (knots : coords) (n_points : nat) :
  Spline_n_points knots n_points = Raise TypeError.
Proof. reflexivity. Qed.

Variable math_dist : point -> point -> float.
Variable shapely : Shapely.
Variable numpy : Numpy.
Variable wasCanceled : nat -> bool.
Variable w : Window.

(** Lines 97-117 for a frame that has knot points: the call raises before
    anything is stored. *)
Lemma compute_frame_n_points (lc : Locals) (frame : nat) (d : Data) (xs ys : list float) :
  nth_error (fst (lumen d)) frame = Some xs ->
  nth_error (snd (lumen d)) frame = Some ys ->
  compute_frame math_dist shapely numpy Spline_n_points w lc frame d =
    (d, Raise TypeError).
Proof.
  intros Hx Hy. unfold compute_frame, frame_geometry, bindM, load, getitem. cbn [fst snd].
  now rewrite Hx, Hy.
Qed.

(** The turn of the loop for a frame that the test of line 94 lets through. *)
Lemma process_frame_n_points (suppress_messages : bool) (lc : Locals) (shown : list nat)
  (frame : nat) (d : Data) (xs ys : list float) :
  nth_error (fst (lumen d)) frame = Some xs ->
  nth_error (snd (lumen d)) frame = Some ys ->
  snd (already_computed lc frame d) = Ok false ->
  process_frame math_dist shapely numpy Spline_n_points wasCanceled
    w suppress_messages frame (lc, shown) d = (d, Raise TypeError).
Proof.
  intros Hx Hy Hskip. unfold process_frame. unfold bindM at 1.
  pose proof (already_computed_reads lc frame d) as Hst.
  destruct (already_computed lc frame d) as [d1 r]. cbn in Hst, Hskip. subst d1 r.
  unfold bindM. now rewrite (compute_frame_n_points lc frame d Hx Hy).
Qed.

(** The turn of the loop for a frame that the test of line 94 skips, for
    every constructor. *)
Lemma process_frame_skipped (Spline_full_contour : coords -> nat -> result Geometry.full_contour_t)
  (suppress_messages : bool) (lc : Locals) (shown : list nat) (frame : nat) (d : Data) :
  snd (already_computed lc frame d) = Ok true ->
  process_frame math_dist shapely numpy Spline_full_contour wasCanceled
    w suppress_messages frame (lc, shown) d = (d, Ok (Some (lc, shown))).
Proof.
  intros Hskip. unfold process_frame, bindM.
  pose proof (already_computed_reads lc frame d) as Hst.
  destruct (already_computed lc frame d) as [d1 r]. cbn in Hst, Hskip. now subst.
Qed.

Lemma frames_loop_skipped (Spline_full_contour : coords -> nat -> result Geometry.full_contour_t)
  (suppress_messages : bool) (lc : Locals) (shown : list nat) (d : Data)
  (skipped rest : list nat) :
  Forall (fun g => snd (already_computed lc g d) = Ok true) skipped ->
  frames_loop math_dist shapely numpy Spline_full_contour wasCanceled
    w suppress_messages (skipped ++ rest) (lc, shown) d =
  frames_loop math_dist shapely numpy Spline_full_contour wasCanceled
    w suppress_messages rest (lc, shown) d.
Proof.
  induction 1 as [|g skipped Hg _ IH]; [reflexivity|].
  cbn [app frames_loop]. unfold bindM at 1.
  now rewrite (process_frame_skipped Spline_full_contour suppress_messages lc shown g d Hg).
Qed.

(** The pass ends at the first frame that is not skipped. *)
Lemma compute_all_n_points (suppress_messages : bool) (d : Data)
  (skipped rest : list nat) (frame : nat) (xs ys : list float) :
  Forall (fun g => snd (already_computed (initial_locals w d) g d) = Ok true) skipped ->
  snd (already_computed (initial_locals w d) frame d) = Ok false ->
  nth_error (fst (lumen d)) frame = Some xs ->
  nth_error (snd (lumen d)) frame = Some ys ->
  compute_all math_dist shapely numpy Spline_n_points wasCanceled
    w (skipped ++ frame :: rest) suppress_messages d = (d, Raise TypeError).
Proof.
  intros Hs Hf Hx Hy. unfold compute_all. unfold bindM at 1, gets.
  unfold bindM at 1. rewrite frames_loop_skipped by exact Hs.
  cbn [frames_loop]. unfold bindM at 1.
  now erewrite process_frame_n_points by eassumption.
Qed.

End ConstructorCall.

End Report.

(** ** Concrete inputs

    Small inputs on which the model is run, and executable stand-ins for
    the library routines.  They serve to evaluate the model and to show
    that the hypotheses of the theorems can be met; the theorems
    themselves hold for every behaviour of the libraries.  [euclid]
    computes the Euclidean distance with the float operations. *)

Module Examples.

Import Report.

Definition euclid (p q : point) : float :=
  sqrt ((fst p - fst q) * (fst p - fst q) + (snd p - snd q) * (snd p - snd q)).

(** The containers of a pullback of [n] frames before anything is
    computed, as read_contours initialises them. *)
Definition blank (n : nat) : Data :=
  mkData (repeat [] n, repeat [] n) (repeat "-"%string n)
         (repeat 0%float n) (repeat 0%float n)
         (repeat None n, repeat None n)
         (repeat 0%float n) (repeat [] n, repeat [] n)
         (repeat 0%float n) (repeat [] n, repeat [] n)
         (Some (repeat 0%float n)) (Some (repeat 0%float n)) (Some (repeat 0%float n)).

Definition window (n : nat) (res : float) : Window :=
  mkWindow n res (repeat 0%float n) (n, 512, 512) 500.

(** A closed ring of five points. *)
Definition kite : list point :=
  [(0, 0); (1, 0); (3, 4); (1, 3); (0, 0)]%float.

(** A ring whose points all coincide. *)
Definition dot : list point :=
  [(2, 2); (2, 2); (2, 2); (2, 2)]%float.

(** A ring with undefined coordinates. *)
Definition undefined_ring : list point :=
  [(nan, nan); (nan, nan); (nan, nan); (nan, nan)]%float.

(** A frame of [n] points on a line. *)
Definition ramp (n : nat) : list float := map float_of_nat (seq 0 n).

(** Two traced boundaries, given by their (row, column) vertices: a small
    triangle in a corner and a square around the image centre. *)
Definition corner_triangle : list (float * float) :=
  [(0, 0); (0, 1); (1, 0); (0, 0)]%float.

Definition centre_square : list (float * float) :=
  [(1, 1); (1, 5); (5, 5); (5, 1); (1, 1)]%float.

Definition traced (_ : Contours.mask) : list (list (float * float)) :=
  [corner_triangle; centre_square].

(** A containment test on the bounding box of the vertices. *)
Definition in_bounding_box (vertices : list (float * float)) (pt : nat * nat) : bool :=
  let r := float_of_nat (fst pt) in
  let c := float_of_nat (snd pt) in
  existsb (fun v => (fst v <=? r)%float) vertices &&
  existsb (fun v => (r <=? fst v)%float) vertices &&
  existsb (fun v => (snd v <=? c)%float) vertices &&
  existsb (fun v => (c <=? snd v)%float) vertices.

(** A fitting routine with the input checks of [splprep]: at least four
    points ("m > k must hold", a [TypeError]) and no two consecutive points
    equal ("Invalid inputs", a [ValueError]).  The curve it returns is the
    closed polyline through the knots. *)
Fixpoint consecutive_equal (xs ys : list float) : bool :=
  match xs, ys with
  | x1 :: ((x2 :: _) as xs'), y1 :: ((y2 :: _) as ys') =>
      ((x1 =? x2)%float && (y1 =? y2)%float) || consecutive_equal xs' ys'
  | _, _ => false
  end.

Definition checked_splprep (pts : coords) : result (coords * list float) :=
  if List.length (fst pts) <=? 3 then Raise TypeError
  else if consecutive_equal (fst pts) (snd pts) then Raise ValueError
       else Ok (pts, []).

Definition polyline (t : coords) (_ : list float) : list float * list float :=
  (fst t ++ firstn 1 (fst t), snd t ++ firstn 1 (snd t)).

(** The knot points of a square. *)
Definition square_knots : coords :=
  ([0; 10; 10; 0]%float, [0; 0; 10; 10]%float).

(** Stand-ins for the geometry libraries, to run compute_all: a polygon is
    its closed ring of vertices, with the shoelace area, the perimeter and
    the area-weighted centroid; the vector operations are the textbook
    formulas; the angle is tabulated for the directions of the axes only. *)
Definition same_point (p q : point) : bool :=
  ((fst p =? fst q) && (snd p =? snd q))%float.

Definition ring (pts : list point) : list point :=
  match pts with
  | [] => []
  | p :: _ => if same_point p (last pts p) then pts else pts ++ [p]
  end.

Fixpoint shoelace (r : list point) : float :=
  match r with
  | p :: ((q :: _) as t) => (fst p * snd q - fst q * snd p + shoelace t)%float
  | _ => 0%float
  end.

Fixpoint perimeter (r : list point) : float :=
  match r with
  | p :: ((q :: _) as t) => (euclid p q + perimeter t)%float
  | _ => 0%float
  end.

Fixpoint moment (sel : point -> float) (r : list point) : float :=
  match r with
  | p :: ((q :: _) as t) =>
      ((sel p + sel q) * (fst p * snd q - fst q * snd p) + moment sel t)%float
  | _ => 0%float
  end.

Definition ring_polygon : Shapely :=
  mkShapely
    (fun pts => if (1 <=? List.length pts) && (List.length pts <=? 2)
                then Raise ValueError else Ok (ring pts))
    (fun r => r)
    (fun r => (abs (shoelace r) / 2)%float)
    perimeter
    (fun r => ((moment fst r / (3 * shoelace r))%float,
               (moment snd r / (3 * shoelace r))%float)).

Definition axis_arctan2 (y x : float) : float :=
  if (y =? 0)%float then (if (x <? 0)%float then 0x1.921fb54442d18p+1 else 0)%float
  else if (x =? 0)%float
       then (if (y <? 0)%float then -0x1.921fb54442d18p+0 else 0x1.921fb54442d18p+0)%float
       else nan.

Definition plain_numpy : Numpy :=
  mkNumpy
    (fun v => sqrt (fst v * fst v + snd v * snd v))
    (fun u v => (fst u * fst v + snd u * snd v)%float)
    (fun u v => (fst u * snd v - snd u * fst v)%float)
    axis_arctan2
    (fun r => (r * 180 / 0x1.921fb54442d18p+1)%float).

(** The constructor call of report.py, with the fitting stand-in behind
    it (which the call never reaches). *)
Definition spline_full_contour (knots : coords) (n_points : nat)
  : result Geometry.full_contour_t :=
  Spline_n_points checked_splprep polyline knots n_points.

Definition never_canceled (_ : nat) : bool := false.

(** The knot points of a 4 x 2 rectangle, and six knot points of a second
    contour. *)
Definition rectangle_knots : coords :=
  ([2; 6; 6; 2]%float, [1; 1; 3; 3]%float).

Definition pinched_knots : coords :=
  ([3; 5; 4; 5; 3; 4]%float, [1; 1; 2; 3; 3; 2]%float).

(** A pullback of one frame, with the given knot points. *)
Definition small_window : Window :=
  mkWindow 1 1 [0%float] (1, 8, 4) 500.

Definition with_knots (knots : coords) (d : Data) : Data :=
  mkData ([fst knots], [snd knots]) (phases d) (lumen_area d) (lumen_circumf d)
         (lumen_centroid d) (longest_distance d) (farthest_point d)
         (shortest_distance d) (nearest_point d) (elliptic_ratio d)
         (vector_length d) (vector_angle d).

(** A pass over the frame of the pullback. *)
Definition run (d : Data) (suppress_messages : bool)
  : Data * result (option (list Row * list nat)) :=
  compute_all euclid ring_polygon plain_numpy spline_full_contour never_canceled
              small_window [0] suppress_messages d.

(** Data in which metrics are stored for the frame (area 8, perimeter
    12, centroid (4, 2), both diameters along a diagonal of the rectangle,
    elliptic ratio 1), as [read_contours] loads them from a contour file;
    and the same data without the three keys that were added later, as an
    older file holds them. *)
Definition computed_rectangle : Data :=
  mkData ([fst rectangle_knots], [snd rectangle_knots]) ["-"%string]
         [8%float] [12%float] ([Some 4%float], [Some 2%float])
         [0x1.1e3779b97f4a8p+2%float] ([[2; 6]%float], [[1; 3]%float])
         [0x1.1e3779b97f4a8p+2%float] ([[2; 6]%float], [[1; 3]%float])
         (Some [1%float]) (Some [0%float]) (Some [0%float]).

Definition older_rectangle : Data :=
  set_late_entries None None None computed_rectangle.

(** A pullback of two frames: frame 0 with the stored metrics of the
    rectangle, frame 1 just contoured. *)
Definition two_frame_window : Window :=
  mkWindow 2 1 [0; 1]%float (2, 8, 4) 500.

Definition second_frame_new : Data :=
  mkData ([fst rectangle_knots; fst pinched_knots], [snd rectangle_knots; snd pinched_knots])
         ["-"; "-"]%string
         [8; 0]%float [12; 0]%float ([Some 4%float; None], [Some 2%float; None])
         [0x1.1e3779b97f4a8p+2; 0]%float ([[2; 6]%float; []], [[1; 3]%float; []])
         [0x1.1e3779b97f4a8p+2; 0]%float ([[2; 6]%float; []], [[1; 3]%float; []])
         (Some [1; 0]%float) (Some [0; 0]%float) (Some [0; 0]%float).

End Examples.

(** ** Runs of the model *)

(** Extraction on a stack of two 6 x 6 masks, with the tracing and
    containment stand-ins: the empty mask gives no contour; on the other
    the square around the centre is kept, as (x, y) = (column, row) lists,
    and the corner triangle is discarded. *)
Example get_contours_two_frames :
  Contours.get_contours Examples.traced Examples.in_bounding_box
    [repeat (repeat 0%Z 6) 6; repeat (repeat 1%Z 6) 6] (6, 6) =
  ([[]; [1; 5; 5; 1; 1]%float], [[]; [1; 1; 5; 5; 1]%float]).
Proof. vm_compute. reflexivity. Qed.

(** A frame of 40 points is sampled at stride 2 into 20 points; a frame of
    41 points into 21. *)
Example downsample_40_and_41 :
  match Contours.downsample ([Examples.ramp 40; Examples.ramp 41],
                             [Examples.ramp 40; Examples.ramp 41])
                            Contours.default_num_points with
  | Ok (xs, _) => map (@List.length float) xs
  | Raise _ => []
  end = [20; 21].
Proof. vm_compute. reflexivity. Qed.

(** The initial fit of a degenerate contour ends with "no contour". *)
Example initial_fit_of_coincident_knots :
  Geometry.Spline_init Examples.checked_splprep Examples.polyline
    ([1; 1; 1; 1]%float, [2; 2; 2; 2]%float) =
  (Geometry.mkSpline None Geometry.NoContour, Ok tt).
Proof. vm_compute. reflexivity. Qed.

(** A pass over a frame that was just contoured ends at the constructor
    call, with the data as it was; a pass over the frame with its metrics
    stored skips it and returns the table read off the data. *)
Example pass_over_new_frame :
  Examples.run (Examples.with_knots Examples.rectangle_knots (Examples.blank 1)) true =
  (Examples.with_knots Examples.rectangle_knots (Examples.blank 1), Raise TypeError).
Proof. vm_compute. reflexivity. Qed.

Example pass_over_computed_frame :
  Examples.run Examples.computed_rectangle true =
  (Examples.computed_rectangle,
   Ok (Some ([Report.mkRow 0 0 "-" 8 12 0x1.1e3779b97f4a8p+2 0x1.1e3779b97f4a8p+2 1 0 0],
             []))).
Proof. vm_compute. reflexivity. Qed.

(** * The claims of the specification *)

Import Report.

Section WidthSearch.

Variable math_dist : point -> point -> float.
Variable w : Window.
Variable contour : list point.
Variable frame : nat.
Variable d : Data.

(** C1.  On a contour of [N >= 2] exterior points the width search compares
    exactly the pairs (point [i], point [i + N/2]), [i = 0 .. N/2 - 1], all
    of them points of the contour: the loop is the fold of the comparison
    over these [N/2] pairs, and its result does not depend on the distance
    of any other pair.  When a candidate has a distance below infinity, the
    value returned is the distance of a candidate pair that no candidate
    undercuts, times the resolution, with the coordinates of that pair. *)
Theorem closest_points_antipodal_minimum :
  2 <= List.length contour ->
  Exists (fun pq => (dist_of math_dist pq <? infinity)%float = true) (candidate_pairs contour) ->
  nearest_slots d frame ->
  candidate_pairs contour =
    map (fun i => (nth i contour (0%float, 0%float),
                   nth (i + List.length contour / 2) contour (0%float, 0%float)))
        (seq 0 (List.length contour / 2)) /\
  (forall i, i < List.length contour / 2 ->
             i < List.length contour /\ i + List.length contour / 2 < List.length contour) /\
  closest_search math_dist contour =
    Ok (fold_left (closest_step math_dist) (candidate_pairs contour) (infinity, None)) /\
  (exists p q,
      In (p, q) (candidate_pairs contour) /\
      Forall (fun pq => (dist_of math_dist pq <? math_dist p q)%float = false)
             (candidate_pairs contour) /\
      snd (closest_points math_dist w contour frame d) =
        Ok ((math_dist p q * resolution w)%float, [fst p; fst q], [snd p; snd q])) /\
  (forall other_dist : point -> point -> float,
      (forall pq, In pq (candidate_pairs contour) ->
                  dist_of other_dist pq = dist_of math_dist pq) ->
      closest_points other_dist w contour frame d =
      closest_points math_dist w contour frame d).
Proof.
  intros HN Hex Hslots.
  assert (Hfold : forall dist, closest_search dist contour =
            Ok (fold_left (closest_step dist) (candidate_pairs contour) (infinity, None))).
  { intros dist. rewrite closest_search_fold by lia.
    now rewrite visited_candidate_pairs. }
  split; [reflexivity|]. split.
  { intros i Hi. pose proof (Nat.div_mod_eq (List.length contour) 2). lia. }
  split; [apply Hfold|]. split.
  - destruct (closest_fold_attained math_dist (candidate_pairs contour) (infinity, None))
      as [[_ Hall]|[[p q] [Hin Hres]]].
    + exfalso. apply Exists_exists in Hex as [pq [Hin Hlt]].
      rewrite Forall_forall in Hall. specialize (Hall pq Hin). cbn [fst] in Hall.
      congruence.
    + exists p, q. split; [exact Hin|]. split.
      * pose proof (closest_fold_lower math_dist (candidate_pairs contour) (infinity, None)) as Hl.
        rewrite Hres in Hl. exact Hl.
      * apply closest_points_some; [|exact Hslots].
        rewrite Hfold, Hres. reflexivity.
  - intros other Hagree. unfold closest_points. rewrite !Hfold.
    rewrite (@fold_left_ext_in _ _ (closest_step other) (closest_step math_dist)).
    + reflexivity.
    + intros [m c] pq Hin. rewrite !closest_step_eq. now rewrite (Hagree pq Hin).
Qed.

(** C7.  When no pair visited by the width search has a distance below
    infinity, [closest_points] stays [None] and the call returns the
    fallback: shortest distance 0 with the pair (0,0), (0,0), stored in the
    frame's slots, and no exception. *)
Theorem closest_points_fallback :
  1 <= List.length contour ->
  Forall (fun pq => (dist_of math_dist pq <? infinity)%float = false) (visited_pairs contour) ->
  nearest_slots d frame ->
  closest_search math_dist contour = Ok (infinity, None) /\
  snd (closest_points math_dist w contour frame d) =
    Ok (0%float, [0%float; 0%float], [0%float; 0%float]) /\
  m_shortest_distance (metrics_of (fst (closest_points math_dist w contour frame d)) frame) =
    Some 0%float /\
  m_nearest_point (metrics_of (fst (closest_points math_dist w contour frame d)) frame) =
    (Some [0%float; 0%float], Some [0%float; 0%float]).
Proof.
  intros HN Hall Hslots.
  assert (Hs : closest_search math_dist contour = Ok (infinity, None)).
  { rewrite closest_search_fold by exact HN.
    now rewrite closest_fold_none. }
  split; [exact Hs|]. split; [eapply closest_points_none; eassumption|].
  destruct Hslots as (H1 & H2 & H3).
  unfold closest_points. rewrite Hs. unfold bindM, lift, store, ret. cbn [fst snd].
  destruct (@setitem_ok _ _ _ 0%float H1) as [l1 E1]. rewrite E1. cbn.
  destruct (@setitem_ok _ _ _ [0%float; 0%float] H2) as [l2 E2]. rewrite E2. cbn.
  destruct (@setitem_ok _ _ _ [0%float; 0%float] H3) as [l3 E3]. rewrite E3. cbn.
  rewrite (@setitem_same _ _ _ _ _ E1), (@setitem_same _ _ _ _ _ E2),
    (@setitem_same _ _ _ _ _ E3).
  now split.
Qed.

End WidthSearch.

Section DiameterSearch.

Variable math_dist : point -> point -> float.
Variable w : Window.
Variable exterior : list point.
Variable frame : nat.
Variable d : Data.

(** C5.  [combinations] enumerates every unordered pair of exterior points,
    in index order.  When some pair lies at a positive distance, the pair
    returned is the first of the enumeration whose distance no pair
    exceeds: every earlier pair is strictly closer, no later pair is
    farther, and the longest distance is the distance of that pair times
    the resolution. *)
Theorem farthest_points_first_maximum :
  Exists (fun pq => (0 <? dist_of math_dist pq)%float = true) (combinations2 exterior) ->
  farthest_slots d frame ->
  (forall i j, i < j -> j < List.length exterior ->
               In (nth i exterior (0%float, 0%float), nth j exterior (0%float, 0%float))
                  (combinations2 exterior)) /\
  exists before p q after,
    combinations2 exterior = before ++ (p, q) :: after /\
    Forall (fun pq => (math_dist p q <=? dist_of math_dist pq)%float = false) before /\
    Forall (fun pq => (math_dist p q <? dist_of math_dist pq)%float = false) after /\
    snd (farthest_points math_dist w exterior frame d) =
      Ok ((math_dist p q * resolution w)%float, [fst p; fst q], [snd p; snd q]).
Proof.
  intros Hex Hslots. split; [apply combinations2_complete|].
  destruct (farthest_fold_first math_dist (combinations2 exterior) (0%float, None))
    as [[_ Hall]|[before [[p q] [after [Hl [E [_ [Hb Ha]]]]]]]].
  - exfalso. apply Exists_exists in Hex as [pq [Hin Hlt]].
    rewrite Forall_forall in Hall. specialize (Hall pq Hin). cbn [fst] in Hall.
    congruence.
  - exists before, p, q, after. repeat split; try assumption.
    apply farthest_points_some; [exact E | exact Hslots].
Qed.

(** C10.  [farthest_points] needs two exterior points at a strictly
    positive distance.  With such a pair it returns the coordinates of a
    pair of the enumeration; without one (no pair at all, or every
    distance zero, as when all exterior points coincide) the pair stays
    [None] and the call raises [TypeError], the data untouched: there is
    no fallback here. *)
Theorem farthest_points_needs_positive_distance :
  (Exists (fun pq => (0 <? dist_of math_dist pq)%float = true) (combinations2 exterior) ->
   farthest_slots d frame ->
   exists p q,
     In (p, q) (combinations2 exterior) /\
     snd (farthest_points math_dist w exterior frame d) =
       Ok ((math_dist p q * resolution w)%float, [fst p; fst q], [snd p; snd q])) /\
  (Forall (fun pq => (0 <? dist_of math_dist pq)%float = false) (combinations2 exterior) ->
   farthest_points math_dist w exterior frame d = (d, Raise TypeError)) /\
  (forall p0 : point,
      math_dist p0 p0 = 0%float ->
      Forall (fun p => p = p0) exterior ->
      farthest_points math_dist w exterior frame d = (d, Raise TypeError)).
Proof.
  assert (Hnone : Forall (fun pq => (0 <? dist_of math_dist pq)%float = false)
                         (combinations2 exterior) ->
                  farthest_points math_dist w exterior frame d = (d, Raise TypeError)).
  { intros Hall. apply farthest_points_none with (m := 0%float).
    unfold farthest_search. now rewrite farthest_fold_none. }
  split; [|split].
  - intros Hex Hslots.
    destruct (farthest_fold_first math_dist (combinations2 exterior) (0%float, None))
      as [[_ Hall]|[before [[p q] [after [Hl [E _]]]]]].
    + exfalso. apply Exists_exists in Hex as [pq [Hin Hlt]].
      rewrite Forall_forall in Hall. specialize (Hall pq Hin). cbn [fst] in Hall.
      congruence.
    + exists p, q. split.
      * rewrite Hl. apply in_or_app. right. now left.
      * apply farthest_points_some; [exact E | exact Hslots].
  - exact Hnone.
  - intros p0 H0 Hsame. apply Hnone. apply Forall_forall. intros [p q] Hin.
    apply combinations2_members in Hin as [Hp Hq]. cbn [fst snd] in Hp, Hq.
    rewrite Forall_forall in Hsame.
    rewrite (Hsame p Hp), (Hsame q Hq). unfold dist_of. cbn [fst snd].
    rewrite H0. reflexivity.
Qed.

End DiameterSearch.

(** Witnesses: the theorems above at concrete rings. *)

Lemma closest_points_antipodal_minimum_witness :
  exists p q,
    In (p, q) (candidate_pairs Examples.kite) /\
    Forall (fun pq => (dist_of Examples.euclid pq <? Examples.euclid p q)%float = false)
           (candidate_pairs Examples.kite) /\
    snd (closest_points Examples.euclid (Examples.window 1 2) Examples.kite 0 (Examples.blank 1)) =
      Ok ((Examples.euclid p q * 2)%float, [fst p; fst q], [snd p; snd q]).
Proof.
  refine (proj1 (proj2 (proj2 (proj2
    (@closest_points_antipodal_minimum Examples.euclid (Examples.window 1 2)
       Examples.kite 0 (Examples.blank 1) _ _ _))))).
  - simpl. lia.
  - apply Exists_cons_hd. vm_compute. reflexivity.
  - unfold nearest_slots. simpl. lia.
Defined.

Lemma closest_points_fallback_witness :
  snd (closest_points Examples.euclid (Examples.window 1 2) Examples.undefined_ring 0
         (Examples.blank 1)) =
  Ok (0%float, [0%float; 0%float], [0%float; 0%float]).
Proof.
  refine (proj1 (proj2 (@closest_points_fallback Examples.euclid (Examples.window 1 2)
                   Examples.undefined_ring 0 (Examples.blank 1) _ _ _))).
  - simpl. lia.
  - repeat constructor.
  - unfold nearest_slots. simpl. lia.
Defined.

Lemma farthest_points_first_maximum_witness :
  exists before p q after,
    combinations2 Examples.kite = before ++ (p, q) :: after /\
    Forall (fun pq => (Examples.euclid p q <=? dist_of Examples.euclid pq)%float = false) before /\
    Forall (fun pq => (Examples.euclid p q <? dist_of Examples.euclid pq)%float = false) after /\
    snd (farthest_points Examples.euclid (Examples.window 1 2) Examples.kite 0 (Examples.blank 1)) =
      Ok ((Examples.euclid p q * 2)%float, [fst p; fst q], [snd p; snd q]).
Proof.
  refine (proj2 (@farthest_points_first_maximum Examples.euclid (Examples.window 1 2)
                   Examples.kite 0 (Examples.blank 1) _ _)).
  - apply Exists_cons_hd. vm_compute. reflexivity.
  - unfold farthest_slots. simpl. lia.
Defined.

Lemma farthest_points_needs_positive_distance_witness :
  (exists p q,
     In (p, q) (combinations2 Examples.kite) /\
     snd (farthest_points Examples.euclid (Examples.window 1 2) Examples.kite 0 (Examples.blank 1)) =
       Ok ((Examples.euclid p q * 2)%float, [fst p; fst q], [snd p; snd q])) /\
  farthest_points Examples.euclid (Examples.window 1 2) Examples.dot 0 (Examples.blank 1) =
    (Examples.blank 1, Raise TypeError).
Proof.
  split.
  - refine (proj1 (@farthest_points_needs_positive_distance Examples.euclid
                     (Examples.window 1 2) Examples.kite 0 (Examples.blank 1)) _ _).
    + apply Exists_cons_hd. vm_compute. reflexivity.
    + unfold farthest_slots. simpl. lia.
  - refine (proj2 (proj2 (@farthest_points_needs_positive_distance Examples.euclid
                     (Examples.window 1 2) Examples.dot 0 (Examples.blank 1)))
                  (2, 2)%float _ _).
    + vm_compute. reflexivity.
    + repeat constructor.
Defined.

Section Extraction.

Variable find_contours : Contours.mask -> list (list (float * float)).
Variable contains_point : list (float * float) -> nat * nat -> bool.
Variable image_shape : nat * nat.

(** C6.  For every mask frame, [get_contours] appends the result of the
    frame.  That result is empty when the mask has no pixel equal to 1, and
    when no traced boundary contains the centre ([H // 2], [W // 2]).
    With foreground, it is the (x, y) lists of a traced boundary that
    contains the centre and has the most vertices among the traced
    boundaries that contain it (the first such in tracing order), and it
    is empty only if every boundary that contains the centre has no vertex:
    boundaries that do not contain the centre never count. *)
Theorem get_contours_keeps_largest_centred_boundary :
  forall preds : list Contours.mask,
    Contours.get_contours find_contours contains_point preds image_shape =
      (map (fun pred => fst (Contours.get_contours_frame find_contours contains_point
                               image_shape pred)) preds,
       map (fun pred => snd (Contours.get_contours_frame find_contours contains_point
                               image_shape pred)) preds) /\
    forall pred : Contours.mask,
      (Contours.any_foreground pred = false ->
       Contours.get_contours_frame find_contours contains_point image_shape pred = ([], [])) /\
      (Forall (fun c => contains_point (combine (fst c) (snd c))
                          (fst image_shape / 2, snd image_shape / 2) = false)
              (Contours.label_contours find_contours pred) ->
       Contours.get_contours_frame find_contours contains_point image_shape pred = ([], [])) /\
      (Contours.any_foreground pred = true ->
       (Contours.get_contours_frame find_contours contains_point image_shape pred = ([], []) /\
        Forall (fun c => contains_point (combine (fst c) (snd c))
                           (fst image_shape / 2, snd image_shape / 2) = true ->
                         List.length (fst c) = 0)
               (Contours.label_contours find_contours pred)) \/
       (exists before c after,
           Contours.label_contours find_contours pred = before ++ c :: after /\
           contains_point (combine (fst c) (snd c))
             (fst image_shape / 2, snd image_shape / 2) = true /\
           Contours.get_contours_frame find_contours contains_point image_shape pred =
             (snd c, fst c) /\
           Forall (fun c' => contains_point (combine (fst c') (snd c'))
                               (fst image_shape / 2, snd image_shape / 2) = true ->
                             List.length (fst c') < List.length (fst c)) before /\
           Forall (fun c' => contains_point (combine (fst c') (snd c'))
                               (fst image_shape / 2, snd image_shape / 2) = true ->
                             List.length (fst c') <= List.length (fst c)) after)).
Proof.
  intros preds. split; [apply Contours.get_contours_frames|].
  intros pred. unfold Contours.get_contours_frame, Contours.keep_largest_contour.
  destruct (Contours.any_foreground pred).
  - destruct (Contours.keep_fold_first contains_point image_shape
                (Contours.label_contours find_contours pred) (0, ([], [])))
      as [[E F]|[before [c [after [Hl [E [Hc [Hlt [Hb Ha]]]]]]]]].
    + rewrite E. cbn [snd]. split; [discriminate|]. split; [reflexivity|].
      intros _. left. split; [reflexivity|].
      eapply Forall_impl; [|exact F]. cbn. intros c Hc Hv.
      specialize (Hc Hv). lia.
    + rewrite E. cbn [snd]. split; [discriminate|]. split.
      * intros Hall. exfalso. rewrite Forall_forall in Hall.
        specialize (Hall c). rewrite Hl in Hall.
        unfold Contours.keep_valid_contour in Hc. rewrite Hall in Hc; [discriminate|].
        apply in_or_app. right. now left.
      * intros _. right. exists before, c, after. repeat split; assumption.
  - split; [reflexivity|]. split; [reflexivity|discriminate].
Qed.

End Extraction.

Section Downsampling.

Variable A : Type.
Variable contours : list (list A) * list (list A).
Variable num_points : nat.
Variable frame : nat.
Variable xs ys : list A.

(** C3 (the code departs from it).  For a frame of at least [num_points]
    points whose number is not a multiple of [num_points], the stride
    [len // num_points] is too short: [downsample] returns
    [ceil(len / (len // num_points))] points for the frame, more than
    [num_points]. *)
Theorem downsample_exceeds_target :
  forall out : list (list A) * list (list A),
    Contours.downsample contours num_points = Ok out ->
    nth_error (fst contours) frame = Some xs ->
    nth_error (snd contours) frame = Some ys ->
    List.length ys = List.length xs ->
    0 < num_points <= List.length xs ->
    List.length xs mod num_points <> 0 ->
    exists dx dy,
      nth_error (fst out) frame = Some dx /\
      nth_error (snd out) frame = Some dy /\
      List.length dx = range_count (List.length xs) (List.length xs / num_points) /\
      List.length dy = List.length dx /\
      num_points < List.length dx.
Proof.
  intros out Hout Hx Hy Hlen Hk Hmod.
  assert (Hf : frame < List.length (fst contours)).
  { apply nth_error_Some. congruence. }
  destruct (Contours.downsample_frames _ _ Hout Hf) as (dx & dy & Hd & Hnx & Hny).
  destruct (Contours.downsample_frame_count _ _ Hx Hy Hlen Hk)
    as (dx' & dy' & Hd' & Lx & Ly).
  rewrite Hd in Hd'. injection Hd' as <- <-.
  exists dx, dy. repeat split; try assumption.
  destruct (Contours.range_count_target Hk) as [Hge Hiff].
  rewrite Lx. destruct (Nat.eq_dec (range_count (List.length xs) (List.length xs / num_points))
                          num_points) as [Heq|Hne]; [|lia].
  apply Hiff in Heq. contradiction.
Qed.

(** C4 (the code departs from it).  For a non-empty frame of fewer than
    [num_points] points the stride [len // num_points] is 0, which [range]
    refuses: the loop body raises [ValueError] and [downsample] returns
    nothing. *)
Theorem downsample_short_frame_raises :
  nth_error (fst contours) frame = Some xs ->
  0 < List.length xs < num_points ->
  Contours.downsample_frame num_points contours frame = Raise ValueError /\
  exists e, Contours.downsample contours num_points = Raise e.
Proof.
  intros Hx Hlen.
  assert (Hr : Contours.downsample_frame num_points contours frame = Raise ValueError)
    by (eapply Contours.downsample_frame_short; eassumption).
  split; [exact Hr|].
  assert (Hf : frame < List.length (fst contours)).
  { apply nth_error_Some. congruence. }
  unfold Contours.downsample.
  destruct (@Contours.mapM_raises _ _ (Contours.downsample_frame num_points contours)
              (seq 0 (List.length (fst contours))) frame ValueError) as [e He].
  - apply in_seq. lia.
  - exact Hr.
  - rewrite He. now exists e.
Qed.

End Downsampling.

Lemma downsample_exceeds_target_witness :
  Contours.downsample ([Examples.ramp 39], [Examples.ramp 39]) Contours.default_num_points =
    Ok ([Examples.ramp 39], [Examples.ramp 39]) /\
  exists dx dy,
    nth_error [Examples.ramp 39] 0 = Some dx /\
    nth_error [Examples.ramp 39] 0 = Some dy /\
    List.length dx = range_count 39 (39 / 20) /\
    List.length dy = List.length dx /\
    20 < List.length dx.
Proof.
  split; [vm_compute; reflexivity|].
  refine (@downsample_exceeds_target float ([Examples.ramp 39], [Examples.ramp 39]) 20 0
            (Examples.ramp 39) (Examples.ramp 39)
            ([Examples.ramp 39], [Examples.ramp 39]) _ _ _ _ _ _).
  - vm_compute. reflexivity.
  - reflexivity.
  - reflexivity.
  - reflexivity.
  - vm_compute. lia.
  - vm_compute. discriminate.
Defined.

Lemma downsample_short_frame_raises_witness :
  Contours.downsample_frame 20 ([Examples.ramp 5], [Examples.ramp 5]) 0 = Raise ValueError /\
  Contours.downsample ([Examples.ramp 5], [Examples.ramp 5]) Contours.default_num_points =
    Raise ValueError.
Proof.
  split; [|vm_compute; reflexivity].
  refine (proj1 (@downsample_short_frame_raises float ([Examples.ramp 5], [Examples.ramp 5])
                   20 0 (Examples.ramp 5) _ _)).
  - reflexivity.
  - vm_compute. lia.
Defined.

Section SplineFit.

Variable tck : Type.
Variable splprep : coords -> result (tck * list float).
Variable splev_linspace : tck -> list float -> list float * list float.

(** C2 (the code departs from it).  When the fitting routine raises
    [ValueError] on the edited knot points, [Spline.interpolate] returns
    [(None, None)]; [Spline.setKnotPoints] checks for it and ends normally,
    but [Spline.update] takes [len(self.full_contour[0])] at once and
    raises [TypeError].  This is so whenever the two edited coordinate
    lists have one length, as the knot points of a spline have; on lists
    of different lengths the conversion of line 90 raises [ValueError]
    itself, outside the [try], and [Spline.update] ends with it. *)
Theorem update_after_failed_fit_raises :
  forall (self : Geometry.Spline) (k k' : coords) (pos : Geometry.QPointF) (idx : Z),
    Geometry.knotpoints self = Some k ->
    Geometry.update_knots k pos idx = (k', Ok tt) ->
    splprep k' = Raise ValueError ->
    (List.length (fst k') = List.length (snd k') ->
     Geometry.interpolate splprep splev_linspace k' = Ok Geometry.NoContour /\
     Geometry.update splprep splev_linspace self pos idx =
       (Geometry.mkSpline (Some k') Geometry.NoContour, Raise TypeError) /\
     snd (Geometry.setKnotPoints splprep splev_linspace self k') = Ok tt) /\
    (List.length (fst k') <> List.length (snd k') ->
     Geometry.interpolate splprep splev_linspace k' = Raise ValueError /\
     Geometry.update splprep splev_linspace self pos idx =
       (Geometry.mkSpline (Some k') (Geometry.full_contour self), Raise ValueError)).
Proof.
  intros self k k' pos idx Hk Hu Hfit. split.
  - intros Hlen.
    assert (Hi : Geometry.interpolate splprep splev_linspace k' = Ok Geometry.NoContour).
    { unfold Geometry.interpolate, Geometry.np_array.
      apply Nat.eqb_eq in Hlen. now rewrite Hlen, Hfit. }
    split; [exact Hi|]. split.
    + unfold Geometry.update. now rewrite Hk, Hu, Hi.
    + unfold Geometry.setKnotPoints. rewrite Hi.
      destruct (fst k'); [reflexivity|]. destruct (snd k'); reflexivity.
  - intros Hlen.
    assert (Hi : Geometry.interpolate splprep splev_linspace k' = Raise ValueError).
    { unfold Geometry.interpolate, Geometry.np_array.
      apply Nat.eqb_neq in Hlen. now rewrite Hlen. }
    split; [exact Hi|].
    unfold Geometry.update. now rewrite Hk, Hu, Hi.
Qed.

End SplineFit.

Lemma update_after_failed_fit_raises_witness :
  Geometry.update Examples.checked_splprep Examples.polyline
    (fst (Geometry.Spline_init Examples.checked_splprep Examples.polyline Examples.square_knots))
    (Geometry.mkQPointF 0 0) 1 =
  (Geometry.mkSpline (Some ([0; 0; 10; 0]%float, [0; 0; 10; 10]%float)) Geometry.NoContour,
   Raise TypeError).
Proof.
  refine (proj1 (proj2 (proj1 (@update_after_failed_fit_raises _ Examples.checked_splprep
    Examples.polyline _ Examples.square_knots _ (Geometry.mkQPointF 0 0) 1%Z _ _ _) _))).
  - vm_compute. reflexivity.
  - vm_compute. reflexivity.
  - vm_compute. reflexivity.
  - reflexivity.
Defined.

Section MetricsPass.

Variable tck : Type.
Variable splprep : coords -> result (tck * list float).
Variable splev_linspace : tck -> list float -> list float * list float.
Variable math_dist : point -> point -> float.
Variable shapely : Shapely.
Variable numpy : Numpy.
Variable wasCanceled : nat -> bool.
Variable w : Window.

(** C8 (the code departs from it).  Lines 113-114 divide the longest by
    the shortest distance behind the test that the claim describes, but no
    frame reaches them.  For a frame with knot points, the statements of
    lines 97-117 end at the constructor call of line 97, which passes
    [n_points] to a constructor that has no such parameter: [TypeError]
    is raised and nothing is stored.  So for a frame that the test of
    line 94 does not skip, the turn of the loop, and with it a pass that
    starts at the frame, ends with [TypeError]: the elliptic ratio of the
    frame is not computed, whatever its stored distances are. *)
Theorem elliptic_ratio_never_computed :
  forall (suppress_messages : bool) (lc : Locals) (shown : list nat) (frame : nat)
         (rest : list nat) (d : Data) (xs ys : list float),
    nth_error (fst (lumen d)) frame = Some xs ->
    nth_error (snd (lumen d)) frame = Some ys ->
    compute_frame math_dist shapely numpy (Spline_n_points splprep splev_linspace)
      w lc frame d = (d, Raise TypeError) /\
    (snd (already_computed lc frame d) = Ok false ->
     process_frame math_dist shapely numpy (Spline_n_points splprep splev_linspace)
       wasCanceled w suppress_messages frame (lc, shown) d = (d, Raise TypeError)) /\
    (snd (already_computed (initial_locals w d) frame d) = Ok false ->
     compute_all math_dist shapely numpy (Spline_n_points splprep splev_linspace)
       wasCanceled w (frame :: rest) suppress_messages d = (d, Raise TypeError)).
Proof.
  intros suppress_messages lc shown frame rest d xs ys Hx Hy. split; [|split].
  - eapply compute_frame_n_points; eassumption.
  - intros Hskip. eapply process_frame_n_points; eassumption.
  - intros Hskip.
    apply (@compute_all_n_points _ splprep splev_linspace math_dist shapely numpy wasCanceled
             w suppress_messages d [] rest frame xs ys); [constructor|assumption..].
Qed.

(** C9 (the code departs from it).  A pass skips the frames that the test
    of line 94 takes as computed, and at the first frame that it does not
    skip it ends with the [TypeError] of the constructor call of line 97,
    when the frame has knot points.  No metric of that frame or of a later
    one is computed, no table is returned and the data are as before the
    pass. *)
Theorem metrics_pass_raises_on_uncomputed_frame :
  forall (skipped rest : list nat) (frame : nat) (suppress_messages : bool)
         (d : Data) (xs ys : list float),
    Forall (fun g => snd (already_computed (initial_locals w d) g d) = Ok true) skipped ->
    snd (already_computed (initial_locals w d) frame d) = Ok false ->
    nth_error (fst (lumen d)) frame = Some xs ->
    nth_error (snd (lumen d)) frame = Some ys ->
    compute_all math_dist shapely numpy (Spline_n_points splprep splev_linspace)
      wasCanceled w (skipped ++ frame :: rest) suppress_messages d =
    (d, Raise TypeError).
Proof.
  intros skipped rest frame suppress_messages d xs ys Hs Hf Hx Hy.
  eapply compute_all_n_points; eassumption.
Qed.

End MetricsPass.

(** The frame of an older data file: its stored shortest distance is not
    zero and it has no elliptic ratio.  The pass does not skip it and ends
    with [TypeError]; the data still have no elliptic ratio. *)
Lemma elliptic_ratio_never_computed_witness :
  let d := Examples.older_rectangle in
  (exists sd, nth_error (shortest_distance d) 0 = Some sd /\ neqb sd 0%float = true) /\
  elliptic_ratio d = None /\
  Examples.run d true = (d, Raise TypeError).
Proof.
  intros d.
  split; [eexists; split; [reflexivity|vm_compute; reflexivity]|].
  split; [reflexivity|].
  refine (proj2 (proj2 (@elliptic_ratio_never_computed _ Examples.checked_splprep
            Examples.polyline Examples.euclid Examples.ring_polygon Examples.plain_numpy
            Examples.never_canceled Examples.small_window true
            (initial_locals Examples.small_window d) [] 0 [] d
            (fst Examples.rectangle_knots) (snd Examples.rectangle_knots) _ _)) _).
  - reflexivity.
  - reflexivity.
  - vm_compute. reflexivity.
Defined.

(** A pass over both frames of [Examples.second_frame_new] skips frame 0
    and ends at frame 1, which was just contoured. *)
Lemma metrics_pass_raises_on_uncomputed_frame_witness :
  compute_all Examples.euclid Examples.ring_polygon Examples.plain_numpy
    Examples.spline_full_contour Examples.never_canceled Examples.two_frame_window
    [0; 1] true Examples.second_frame_new =
  (Examples.second_frame_new, Raise TypeError).
Proof.
  refine (@metrics_pass_raises_on_uncomputed_frame _ Examples.checked_splprep Examples.polyline
            Examples.euclid Examples.ring_polygon Examples.plain_numpy
            Examples.never_canceled Examples.two_frame_window [0] [] 1 true
            Examples.second_frame_new
            (fst Examples.pinched_knots) (snd Examples.pinched_knots) _ _ _ _).
  - repeat constructor.
  - vm_compute. reflexivity.
  - reflexivity.
  - reflexivity.
Defined.

(** * More of the code

    Facts on the functions above beyond what the specification states of
    them, and the functions of the same files that it leaves out: the
    frames written by [write_contours], the containers set up by
    [read_contours], the entry point [report] and the choice of the
    frames to plot. *)

(** ** input_output/contours.py: downsampling and extraction as a whole *)

Module ContoursFacts.

Import Contours.

Lemma mapM_length (B C : Type) (g : B -> result C) (l : list B) :
  forall out, mapM g l = Ok out -> List.length out = List.length l.
Proof.
  induction l as [|h t IH]; intros out; cbn [mapM].
  - now intros [= <-].
  - destruct (g h) as [y|]; cbn [bind]; [|discriminate].
    destruct (mapM g t) as [ys|]; cbn [bind]; [|discriminate].
    intros [= <-]. cbn. f_equal. now apply IH.
Qed.

Lemma mapM_ok (B C : Type) (g : B -> result C) (l : list B) :
  Forall (fun x => exists y, g x = Ok y) l -> exists out, mapM g l = Ok out.
Proof.
  induction 1 as [|h t [y Hy] _ [out Hout]]; cbn [mapM].
  - now exists [].
  - rewrite Hy. cbn [bind]. rewrite Hout. cbn [bind]. now exists (y :: out).
Qed.

Lemma mapM_total (B C : Type) (g : B -> result C) (g' : B -> C) (l : list B) :
  (forall x, In x l -> g x = Ok (g' x)) -> mapM g l = Ok (map g' l).
Proof.
  induction l as [|h t IH]; intros H; cbn [mapM map]; [reflexivity|].
  rewrite (H h (or_introl eq_refl)). cbn [bind].
  rewrite IH by (intros x Hx; apply H; now right). reflexivity.
Qed.

Lemma mapM_map (B C D : Type) (g : C -> result D) (h : B -> C) (l : list B) :
  mapM g (map h l) = mapM (fun x => g (h x)) l.
Proof.
  induction l as [|x t IH]; cbn [map mapM]; [reflexivity|]. now rewrite IH.
Qed.

Lemma mapM_ext (B C : Type) (g g' : B -> result C) (l : list B) :
  (forall x, g x = g' x) -> mapM g l = mapM g' l.
Proof.
  intros H. induction l as [|x t IH]; cbn [mapM]; [reflexivity|]. now rewrite H, IH.
Qed.

Lemma mapM_getitem_all (A : Type) (l : list A) :
  mapM (getitem l) (seq 0 (List.length l)) = Ok l.
Proof.
  induction l as [|h t IH]; [reflexivity|].
  cbn [List.length seq mapM]. unfold getitem at 1. cbn [nth_error bind].
  rewrite <- seq_shift, mapM_map.
  replace (mapM (fun x => getitem (h :: t) (S x)) (seq 0 (List.length t)))
    with (mapM (getitem t) (seq 0 (List.length t))) by reflexivity.
  now rewrite IH.
Qed.

Lemma map_nth_seq (A : Type) (d : A) (l : list A) :
  forall n, map (fun i => nth i l d) (seq 0 n) = firstn n l ++ repeat d (n - List.length l).
Proof.
  induction l as [|h t IH]; intros n.
  - rewrite firstn_nil, Nat.sub_0_r. cbn [app].
    transitivity (map (fun _ : nat => d) (seq 0 n)); [apply map_ext; now intros [|i]|].
    now rewrite map_const, length_seq.
  - destruct n as [|n]; [reflexivity|]. cbn [seq map nth firstn List.length app Nat.sub].
    f_equal. rewrite <- seq_shift, map_map. cbn [nth]. apply IH.
Qed.

(** The two coordinate lists have one entry per frame, and the two
    entries of a frame have the same number of points. *)
Definition well_formed (A : Type) (contours : list (list A) * list (list A)) : Prop :=
  List.length (snd contours) = List.length (fst contours) /\
  forall frame xs ys,
    nth_error (fst contours) frame = Some xs ->
    nth_error (snd contours) frame = Some ys ->
    List.length ys = List.length xs.

Section Downsample.

Variable A : Type.
Variable contours : list (list A) * list (list A).
Variable num_points : nat.

(** What the loop body returns for a frame, read off its success. *)
Lemma downsample_frame_values (frame : nat) (xs dx dy : list A) :
  nth_error (fst contours) frame = Some xs ->
  downsample_frame num_points contours frame = Ok (dx, dy) ->
  (xs = [] /\ dx = [] /\ dy = []) \/
  (xs <> [] /\ 0 < num_points <= List.length xs /\
   exists ys,
     nth_error (snd contours) frame = Some ys /\
     List.length dx = range_count (List.length xs) (List.length xs / num_points) /\
     List.length dy = List.length dx /\
     forall j, j < List.length dx ->
               j * (List.length xs / num_points) < List.length xs /\
               nth_error dx j = nth_error xs (j * (List.length xs / num_points)) /\
               nth_error dy j = nth_error ys (j * (List.length xs / num_points))).
Proof.
  intros Hx. unfold downsample_frame, getitem at 1. rewrite Hx. cbn [bind].
  destruct xs as [|x0 xs'] eqn:Exs.
  - intros [= <- <-]. now left.
  - rewrite <- Exs in *. intros H. right. split; [congruence|].
    unfold floordiv in H. destruct num_points as [|k] eqn:Ek; [discriminate|].
    rewrite <- Ek in *. cbn [bind] in H.
    destruct (range0 (List.length xs) (List.length xs / num_points)) as [idx|] eqn:Hr;
      cbn [bind] in H; [|discriminate].
    destruct (range0_indices _ _ Hr) as (Hpos & Hcount & Hin).
    assert (Hidx : idx = map (fun j => j * (List.length xs / num_points))
                             (seq 0 (range_count (List.length xs)
                                                 (List.length xs / num_points)))).
    { unfold range0 in Hr. destruct (List.length xs / num_points); [lia|]. now injection Hr. }
    destruct (mapM (getitem xs) idx) as [dx'|] eqn:Hdx; cbn [bind] in H; [|discriminate].
    unfold getitem at 1 in H.
    destruct (nth_error (snd contours) frame) as [ys|]; cbn [bind] in H; [|discriminate].
    destruct (mapM (getitem ys) idx) as [dy'|] eqn:Hdy; cbn [bind] in H; [|discriminate].
    injection H as <- <-.
    pose proof (mapM_length _ _ Hdx) as Ldx. pose proof (mapM_length _ _ Hdy) as Ldy.
    split.
    { split; [lia|].
      destruct (Nat.le_gt_cases num_points (List.length xs)) as [|Hlt]; [assumption|].
      rewrite Nat.div_small in Hpos by exact Hlt. lia. }
    exists ys. split; [reflexivity|]. split; [congruence|]. split; [congruence|].
    intros j Hj.
    assert (Hnth : nth_error idx j = Some (j * (List.length xs / num_points))).
    { rewrite Hidx. rewrite nth_error_map, nth_error_seq0 by congruence. reflexivity. }
    destruct (mapM_nth _ _ _ Hdx Hnth) as [y [Hy Hoy]].
    destruct (mapM_nth _ _ _ Hdy Hnth) as [z [Hz Hoz]].
    unfold getitem in Hy, Hz.
    destruct (nth_error xs (j * (List.length xs / num_points))) eqn:Ex; [|discriminate].
    destruct (nth_error ys (j * (List.length xs / num_points))) eqn:Ey; [|discriminate].
    split; [apply nth_error_Some; congruence|]. split; congruence.
Qed.

(** A call that returns has gone through every frame without raising. *)
Lemma downsample_ok_frames (out : list (list A) * list (list A)) (frame : nat)
  (xs : list A) :
  downsample contours num_points = Ok out ->
  nth_error (fst contours) frame = Some xs ->
  xs = [] \/ 0 < num_points <= List.length xs.
Proof.
  intros Hout Hx.
  assert (Hf : frame < List.length (fst contours)) by (apply nth_error_Some; congruence).
  destruct (downsample_frames _ _ Hout Hf) as (dx & dy & Hd & _).
  destruct (downsample_frame_values _ Hx Hd) as [[-> _]|[_ [Hk _]]]; [now left|now right].
Qed.

(** On well-formed contours whose frames are empty or long enough, no frame
    raises. *)
Lemma downsample_frames_ok :
  well_formed contours ->
  (forall frame xs, nth_error (fst contours) frame = Some xs ->
                    xs = [] \/ 0 < num_points <= List.length xs) ->
  exists out, downsample contours num_points = Ok out.
Proof.
  intros [Hlen Hwf] Hall. unfold downsample.
  destruct (@mapM_ok _ _ (downsample_frame num_points contours)
              (seq 0 (List.length (fst contours)))) as [frames Hm].
  - apply Forall_forall. intros frame Hin. apply in_seq in Hin.
    destruct (nth_error (fst contours) frame) as [xs|] eqn:Hx;
      [|apply nth_error_None in Hx; lia].
    destruct (nth_error (snd contours) frame) as [ys|] eqn:Hy;
      [|apply nth_error_None in Hy; lia].
    destruct (Hall _ _ Hx) as [->|Hk].
    + exists ([], []). unfold downsample_frame, getitem at 1. now rewrite Hx.
    + destruct (downsample_frame_count _ _ Hx Hy (Hwf _ _ _ Hx Hy) Hk)
        as (dx & dy & Hd & _).
      now exists (dx, dy).
  - rewrite Hm. cbn [bind]. eauto.
Qed.

End Downsample.

(** The stride [n // k] is at least [n / (2 k)]: fewer than [2 k] points
    are sampled. *)
Lemma range_count_below_double (n k : nat) :
  0 < k <= n -> range_count n (n / k) < 2 * k.
Proof.
  intros [Hk Hn]. unfold range_count.
  set (s := n / k).
  assert (Hs : 1 <= s) by (apply Nat.div_le_lower_bound; lia).
  pose proof (Nat.div_mod_eq n k) as Hdm. fold s in Hdm.
  pose proof (Nat.mod_upper_bound n k ltac:(lia)) as Hr.
  set (r := n mod k) in *.
  apply Nat.Div0.div_lt_upper_bound. nia.
Qed.

(** The indices of [range(0, stop, step)] are all the multiples of the
    step below [stop]. *)
Lemma range_count_index (stop step j : nat) :
  0 < step -> (j < range_count stop step <-> j * step < stop).
Proof.
  intros Hs. unfold range_count. split.
  - intros Hj. destruct (Nat.lt_ge_cases (j * step) stop) as [H|H]; [exact H|].
    exfalso. assert ((stop + step - 1) / step < S j); [|lia].
    apply Nat.Div0.div_lt_upper_bound. nia.
  - intros Hj. apply Nat.div_le_lower_bound; [lia|]. nia.
Qed.

Section ExtractionShape.

Variable find_contours : mask -> list (list (float * float)).
Variable contains_point : list (float * float) -> nat * nat -> bool.
Variable image_shape : nat * nat.

(** The x list that [get_contours] keeps for a mask frame. *)
Definition kept_x (pred : mask) : list float :=
  fst (get_contours_frame find_contours contains_point image_shape pred).

Lemma keep_fold_lengths (contours : list boundary) :
  Forall (fun c => List.length (snd c) = List.length (fst c)) contours ->
  forall acc,
    List.length (snd (snd acc)) = List.length (fst (snd acc)) ->
    let r := fold_left (keep_step contains_point image_shape) contours acc in
    List.length (snd (snd r)) = List.length (fst (snd r)).
Proof.
  induction 1 as [|c t Hc _ IH]; intros [m k] Hacc; cbn [fold_left]; [exact Hacc|].
  apply IH. rewrite keep_step_eq.
  destruct (keep_valid_contour contains_point c image_shape && (m <? List.length (fst c)));
    cbn [fst snd] in *; congruence.
Qed.

(** The two lists that a frame contributes have the same length. *)
Lemma get_contours_frame_lengths (pred : mask) :
  let r := get_contours_frame find_contours contains_point image_shape pred in
  List.length (snd r) = List.length (fst r).
Proof.
  unfold get_contours_frame. destruct (any_foreground pred); [|reflexivity].
  unfold keep_largest_contour. apply keep_fold_lengths; [|reflexivity].
  unfold label_contours. apply Forall_forall. intros c Hin.
  apply in_map_iff in Hin as [v [<- _]]. cbn [fst snd]. now rewrite !length_map.
Qed.

Lemma get_contours_well_formed (preds : list mask) :
  well_formed (get_contours find_contours contains_point preds image_shape).
Proof.
  rewrite get_contours_frames. split; cbn [fst snd].
  - now rewrite !length_map.
  - intros frame xs ys. rewrite !nth_error_map.
    destruct (nth_error preds frame) as [p|]; cbn; [|discriminate].
    intros [= <-] [= <-]. apply get_contours_frame_lengths.
Qed.

End ExtractionShape.

Lemma mapM_raise_inv (B C : Type) (g : B -> result C) (l : list B) (e : exn) :
  mapM g l = Raise e -> exists x, In x l /\ g x = Raise e.
Proof.
  induction l as [|h t IH]; cbn [mapM]; [discriminate|].
  destruct (g h) as [y|e1] eqn:Hh; cbn [bind].
  - destruct (mapM g t) as [ys|e2]; cbn [bind]; [discriminate|].
    intros [= <-]. destruct (IH eq_refl) as [x [Hin Hx]].
    exists x. split; [now right|exact Hx].
  - intros [= <-]. exists h. split; [now left|exact Hh].
Qed.

Section DownsampleRaises.

Variable A : Type.
Variable contours : list (list A) * list (list A).
Variable num_points : nat.

(** On well-formed contours the only failures are those of the stride:
    the division by a zero target, and the zero step of a frame shorter
    than the target. *)
Lemma downsample_raise_inv (e : exn) :
  well_formed contours ->
  downsample contours num_points = Raise e ->
  exists frame xs,
    nth_error (fst contours) frame = Some xs /\ xs <> [] /\
    ((num_points = 0 /\ e = ZeroDivisionError) \/
     (List.length xs < num_points /\ e = ValueError)).
Proof.
  intros [Hlen Hwf]. unfold downsample.
  destruct (mapM (downsample_frame num_points contours)
                 (seq 0 (List.length (fst contours)))) as [frames|e'] eqn:Hm;
    cbn [bind]; [discriminate|].
  intros [= <-]. destruct (mapM_raise_inv _ _ Hm) as [frame [Hin Hr]].
  apply in_seq in Hin.
  destruct (nth_error (fst contours) frame) as [xs|] eqn:Hx;
    [|apply nth_error_None in Hx; lia].
  destruct (nth_error (snd contours) frame) as [ys|] eqn:Hy;
    [|apply nth_error_None in Hy; lia].
  exists frame, xs. split; [exact Hx|].
  destruct xs as [|x0 xs'] eqn:Exs.
  { unfold downsample_frame, getitem at 1 in Hr. rewrite Hx in Hr. discriminate. }
  rewrite <- Exs in *. split; [congruence|].
  destruct (Nat.eqb_spec num_points 0) as [Hz|Hnz].
  - left. split; [exact Hz|]. unfold downsample_frame, getitem at 1 in Hr.
    rewrite Hx, Exs, Hz in Hr. cbn in Hr. congruence.
  - destruct (Nat.le_gt_cases num_points (List.length xs)) as [Hle|Hlt].
    + assert (Hk : 0 < num_points <= List.length xs) by lia.
      destruct (downsample_frame_count _ _ Hx Hy (Hwf _ _ _ Hx Hy) Hk)
        as (dx & dy & Hd & _). congruence.
    + right. split; [lia|].
      assert (Hpos : 0 < List.length xs) by (rewrite Exs; cbn; lia).
      rewrite (downsample_frame_short _ _ Hx (conj Hpos Hlt)) in Hr. congruence.
Qed.

End DownsampleRaises.

Lemma downsample_lengths (A : Type) (contours out : list (list A) * list (list A))
  (num_points : nat) :
  downsample contours num_points = Ok out ->
  List.length (fst out) = List.length (fst contours) /\
  List.length (snd out) = List.length (fst contours).
Proof.
  unfold downsample.
  destruct (mapM (downsample_frame num_points contours)
                 (seq 0 (List.length (fst contours)))) as [frames|] eqn:Hm;
    cbn [bind]; [|discriminate].
  intros [= <-]. cbn [fst snd]. rewrite !length_map.
  rewrite (@mapM_length _ _ _ _ _ Hm). now rewrite length_seq.
Qed.

Lemma mapM_const (B C : Type) (g : B -> result C) (c : C) (l : list B) :
  (forall x, In x l -> g x = Ok c) -> mapM g l = Ok (repeat c (List.length l)).
Proof.
  induction l as [|h t IH]; intros H; cbn [mapM]; [reflexivity|].
  rewrite (H h (or_introl eq_refl)). cbn [bind].
  rewrite IH by (intros x Hx; apply H; now right). reflexivity.
Qed.

(** Frames without points go through [downsample] as they are, whatever
    the target. *)
Lemma downsample_empty_frames (A : Type) (n num_points : nat) :
  downsample (repeat (@nil A) n, repeat (@nil A) n) num_points =
  Ok (repeat [] n, repeat [] n).
Proof.
  unfold downsample. cbn [fst snd]. rewrite repeat_length.
  rewrite (@mapM_const _ _ _ (@nil A, @nil A)).
  - cbn [bind]. rewrite length_seq. f_equal. f_equal; now rewrite map_repeat.
  - intros frame Hin. apply in_seq in Hin. unfold downsample_frame, getitem. cbn [fst].
    rewrite (nth_error_nth' _ (@nil A)) by (rewrite repeat_length; lia).
    now rewrite nth_repeat.
Qed.

End ContoursFacts.

(** ** gui/geometry.py: constructing and editing a spline *)

Module GeometryFacts.

Import Geometry.

(** The position that an index in [[-n, n)] designates. *)
Lemma py_index_in_range (n : nat) (idx : Z) :
  (- Z.of_nat n <= idx < Z.of_nat n)%Z ->
  py_index n idx = Some (Z.to_nat (idx mod Z.of_nat n)).
Proof.
  intros H. unfold py_index.
  destruct (Z.leb_spec 0 idx) as [Hnn|Hneg].
  - destruct (Z.ltb_spec idx (Z.of_nat n)); [|lia].
    now rewrite Z.mod_small by lia.
  - destruct (Z.leb_spec (- Z.of_nat n) idx); [|lia].
    f_equal. f_equal.
    rewrite <- (Z.mod_add idx 1 (Z.of_nat n)) by lia.
    rewrite Z.mod_small by lia. lia.
Qed.

Lemma py_index_out_of_range (n : nat) (idx : Z) :
  (idx < - Z.of_nat n \/ Z.of_nat n <= idx)%Z -> py_index n idx = None.
Proof.
  intros H. unfold py_index.
  destruct (Z.leb_spec 0 idx) as [Hnn|Hneg].
  - destruct (Z.ltb_spec idx (Z.of_nat n)); [lia|reflexivity].
  - destruct (Z.leb_spec (- Z.of_nat n) idx); [lia|reflexivity].
Qed.

Lemma py_index_bound (n : nat) (idx : Z) (i : nat) :
  py_index n idx = Some i -> i < n.
Proof.
  unfold py_index.
  destruct (Z.leb_spec 0 idx) as [Hnn|Hneg].
  - destruct (Z.ltb_spec idx (Z.of_nat n)); [|discriminate]. intros [= <-]. lia.
  - destruct (Z.leb_spec (- Z.of_nat n) idx); [|discriminate]. intros [= <-]. lia.
Qed.

(** [seq[idx] = v] replaces one element or raises [IndexError]. *)
Lemma setitem_z_spec (A : Type) (l : list A) (idx : Z) (v : A) :
  match py_index (List.length l) idx with
  | Some i =>
      exists l', setitem_z l idx v = Ok l' /\
                 List.length l' = List.length l /\
                 nth_error l' i = Some v /\
                 forall j, j <> i -> nth_error l' j = nth_error l j
  | None => setitem_z l idx v = Raise IndexError
  end.
Proof.
  unfold setitem_z. destruct (py_index (List.length l) idx) as [i|] eqn:Hi; [|reflexivity].
  apply py_index_bound in Hi.
  destruct (@Report.setitem_ok _ l i v Hi) as [l' Hl']. exists l'.
  split; [exact Hl'|]. split; [eapply Report.setitem_length; exact Hl'|].
  split; [eapply Report.setitem_same; exact Hl'|].
  intros j Hj. eapply Report.setitem_other; [exact Hl'|exact Hj].
Qed.

(** The curve of a successful fit. *)
Definition fitted (tck : Type) (splev_linspace : tck -> list float -> list float * list float)
  (t : tck) (u : list float) : full_contour_t :=
  Contour (fst (splev_linspace t u)) (snd (splev_linspace t u)).

(** [Spline.interpolate] on lists of one length, and on lists of
    different lengths. *)
Lemma interpolate_equal_lengths (tck : Type) (splprep : coords -> result (tck * list float))
  (splev_linspace : tck -> list float -> list float * list float) (pts : coords) :
  List.length (fst pts) = List.length (snd pts) ->
  interpolate splprep splev_linspace pts =
    match splprep pts with
    | Raise ValueError => Ok NoContour
    | Raise e => Raise e
    | Ok (t, u) => Ok (fitted splev_linspace t u)
    end.
Proof.
  intros H. unfold interpolate, np_array, fitted. apply Nat.eqb_eq in H. rewrite H.
  destruct (splprep pts) as [[t u]|e]; [|reflexivity].
  now destruct (splev_linspace t u).
Qed.

Lemma interpolate_different_lengths (tck : Type)
  (splprep : coords -> result (tck * list float))
  (splev_linspace : tck -> list float -> list float * list float) (pts : coords) :
  List.length (fst pts) <> List.length (snd pts) ->
  interpolate splprep splev_linspace pts = Raise ValueError.
Proof.
  intros H. unfold interpolate, np_array. apply Nat.eqb_neq in H. now rewrite H.
Qed.

End GeometryFacts.


(** ** report/report.py: the two diameters together *)

Module DistanceFacts.

Import Report.

Lemma SFltb_SFleb (x y : spec_float) : SFltb x y = true -> SFleb x y = true.
Proof. unfold SFltb, SFleb. now destruct (SFcompare x y) as [[]|]. Qed.

Lemma ltb_leb (x y : float) : (x <? y)%float = true -> (x <=? y)%float = true.
Proof. rewrite ltb_spec, leb_spec. apply SFltb_SFleb. Qed.

Lemma ltb_asym (x y : float) : (x <? y)%float = true -> (y <? x)%float = false.
Proof.
  intros H. destruct (y <? x)%float eqn:K; [|reflexivity].
  pose proof (FloatOrder.ltb_trans H K) as Habs.
  now rewrite FloatOrder.ltb_irrefl in Habs.
Qed.

Section Bounds.

Variable math_dist : point -> point -> float.

(** No pair of the enumeration lies farther apart than the maximum kept. *)
Lemma farthest_fold_upper (l : list (point * point)) (acc : float * option (point * point)) :
  Forall (fun pq => (fst (fold_left (farthest_step math_dist) l acc) <?
                     dist_of math_dist pq)%float = false) l.
Proof.
  destruct (farthest_fold_first math_dist l acc)
    as [[-> F]|(before & pq & after & -> & -> & Hlt & Hb & Ha)]; [exact F|].
  cbn [fst]. apply Forall_app. split; [|constructor].
  - eapply Forall_impl; [|exact Hb]. cbn. intros pq' H.
    destruct (dist_of math_dist pq <? dist_of math_dist pq')%float eqn:K; [|reflexivity].
    apply ltb_leb in K. congruence.
  - apply FloatOrder.ltb_irrefl.
  - exact Ha.
Qed.

(** The maximum kept is not below its initial value. *)
Lemma farthest_fold_initial (l : list (point * point)) (acc : float * option (point * point)) :
  (fst (fold_left (farthest_step math_dist) l acc) <? fst acc)%float = false.
Proof.
  destruct (farthest_fold_first math_dist l acc)
    as [[-> F]|(before & pq & after & -> & -> & Hlt & Hb & Ha)].
  - apply FloatOrder.ltb_irrefl.
  - cbn [fst]. now apply ltb_asym.
Qed.

(** Every pair of the width search is a pair of the diameter search. *)
Lemma candidate_pairs_combinations (contour : list point) (pq : point * point) :
  In pq (candidate_pairs contour) -> In pq (combinations2 contour).
Proof.
  unfold candidate_pairs. intros H. apply in_map_iff in H as [i [<- Hi]].
  apply in_seq in Hi. unfold pair_at.
  pose proof (Nat.Div0.mul_div_le (List.length contour) 2) as Hh.
  apply combinations2_complete; lia.
Qed.

End Bounds.

(** The distance that [closest_points] reports, in pixels: the minimum
    found, or 0 when no pair was kept. *)
Definition shortest_in_pixels (found : float * option (point * point)) : float :=
  match snd found with
  | Some _ => fst found
  | None => 0%float
  end.

End DistanceFacts.


(** ** report/report.py: the table returned *)

Module ReportFacts.

Import Report.

Lemma lift_inv (A : Type) (r : result A) (d d1 : Data) (a : A) :
  lift r d = (d1, Ok a) -> d1 = d /\ r = Ok a.
Proof. unfold lift. now intros [= <- ->]. Qed.

Lemma late_load_inv (k : late) (lc : Locals) (frame : nat) (d d1 : Data) (v : float) :
  late_load k lc frame d = (d1, Ok v) ->
  d1 = d /\ nth_error (late_view k lc d) frame = Some v.
Proof.
  unfold late_load, late_view. destruct (fresh lc) as [fr|].
  - intros H. apply lift_inv in H as [-> H]. split; [reflexivity|].
    unfold getitem in H. destruct (nth_error (late_local k fr) frame); congruence.
  - apply load_inv.
Qed.

(** What a row of the table was read from: the slots of its frame in the
    data [d], with [late_lists] the three lists that may be local. *)
Definition row_reads (w : Window) (late_lists : late -> list float) (d : Data) (r : Row)
  : Prop :=
  nth_error (pullback_length w) (row_frame r) = Some (row_position r) /\
  nth_error (phases d) (row_frame r) = Some (row_phase r) /\
  nth_error (lumen_area d) (row_frame r) = Some (row_lumen_area r) /\
  nth_error (lumen_circumf d) (row_frame r) = Some (row_lumen_circumf r) /\
  nth_error (longest_distance d) (row_frame r) = Some (row_longest_distance r) /\
  nth_error (shortest_distance d) (row_frame r) = Some (row_shortest_distance r) /\
  nth_error (late_lists ER) (row_frame r) = Some (row_elliptic_ratio r) /\
  nth_error (late_lists VL) (row_frame r) = Some (row_vector_length r) /\
  nth_error (late_lists VA) (row_frame r) = Some (row_vector_angle r).

Lemma report_row_inv (w : Window) (lc : Locals) (frame : nat) (d d1 : Data) (r : Row) :
  report_row w lc frame d = (d1, Ok r) ->
  d1 = d /\ row_frame r = frame /\ row_reads w (fun k => late_view k lc d) d r.
Proof.
  unfold report_row. intros H.
  apply bindM_inv in H as (position & d2 & H1 & H). apply lift_inv in H1 as [-> H1].
  apply bindM_inv in H as (phase & d2 & H2 & H). apply load_inv in H2 as [-> H2].
  apply bindM_inv in H as (a & d2 & H3 & H). apply load_inv in H3 as [-> H3].
  apply bindM_inv in H as (c & d2 & H4 & H). apply load_inv in H4 as [-> H4].
  apply bindM_inv in H as (ld & d2 & H5 & H). apply load_inv in H5 as [-> H5].
  apply bindM_inv in H as (sd & d2 & H6 & H). apply load_inv in H6 as [-> H6].
  apply bindM_inv in H as (er & d2 & H7 & H). apply late_load_inv in H7 as [-> H7].
  apply bindM_inv in H as (vl & d2 & H8 & H). apply late_load_inv in H8 as [-> H8].
  apply bindM_inv in H as (va & d2 & H9 & H). apply late_load_inv in H9 as [-> H9].
  injection H as <- <-. split; [reflexivity|]. split; [reflexivity|].
  unfold row_reads. cbn.
  unfold getitem in H1. destruct (nth_error (pullback_length w) frame); [|discriminate].
  injection H1 as ->. now repeat split.
Qed.

Lemma report_rows_inv (w : Window) (lc : Locals) (frames : list nat) :
  forall (d d1 : Data) (rows : list Row),
    report_rows w lc frames d = (d1, Ok rows) ->
    d1 = d /\ map row_frame rows = frames /\
    Forall (row_reads w (fun k => late_view k lc d) d) rows.
Proof.
  induction frames as [|frame rest IH]; intros d d1 rows; cbn [report_rows].
  - intros [= <- <-]. now repeat split.
  - intros H. apply bindM_inv in H as (r & d2 & Hr & H).
    apply report_row_inv in Hr as (-> & Hf & Hr).
    apply bindM_inv in H as (rs & d3 & Hrs & H).
    apply IH in Hrs as (-> & Hfs & Hrs). injection H as <- <-.
    split; [reflexivity|]. split; [cbn; congruence|]. now constructor.
Qed.

(** Lines 134-136 bind the three lists read by the table in the data and
    change nothing else. *)
Lemma bind_late_entries_inv (lc : Locals) (d d1 : Data) (u : unit) :
  bind_late_entries lc d = (d1, Ok u) ->
  (forall k, late_entry k d1 = late_view k lc d) /\
  phases d1 = phases d /\ lumen_area d1 = lumen_area d /\
  lumen_circumf d1 = lumen_circumf d /\ longest_distance d1 = longest_distance d /\
  shortest_distance d1 = shortest_distance d /\
  (fresh lc <> None ->
   elliptic_ratio d1 <> None /\ vector_length d1 <> None /\ vector_angle d1 <> None).
Proof.
  unfold bind_late_entries, late_view. destruct (fresh lc) as [[[e l] a]|].
  - intros [= <-]. split; [now intros []|]. cbn. repeat split; discriminate.
  - intros [= <-]. repeat split; congruence.
Qed.

End ReportFacts.


(** ** report/report.py: the three lists added later *)

Module LateKeyFacts.

Import Report.

(** The presence of the three keys in the data: unchanged, or kept. *)
Definition keys_same (d d' : Data) : Prop :=
  elliptic_ratio d' = elliptic_ratio d /\
  vector_length d' = vector_length d /\
  vector_angle d' = vector_angle d.

Definition all_keys (d : Data) : Prop :=
  elliptic_ratio d <> None /\ vector_length d <> None /\ vector_angle d <> None.

Definition keys_stay (d d' : Data) : Prop := all_keys d -> all_keys d'.

Lemma keys_same_stable (frame : nat) : geometry_stable frame keys_same.
Proof. unfold geometry_stable, keys_same. repeat split. Qed.

Lemma keys_stay_stable (frame : nat) : geometry_stable frame keys_stay.
Proof. unfold geometry_stable, keys_stay, all_keys. repeat split; tauto. Qed.

Section Pass.

Variable math_dist : point -> point -> float.
Variable shapely : Shapely.
Variable numpy : Numpy.
Variable Spline_full_contour : coords -> nat -> result Geometry.full_contour_t.
Variable wasCanceled : nat -> bool.

Variable R : Data -> Data -> Prop.
Hypothesis R_refl : forall d, R d d.
Hypothesis R_trans : forall d1 d2 d3, R d1 d2 -> R d2 d3 -> R d1 d3.
Hypothesis R_stores : forall frame, geometry_stable frame R.

(** A property of the local names that depends on [fresh] only and that
    the stores through the local names keep, together with [R]. *)
Variable P : Locals -> Prop.
Hypothesis P_fresh : forall lc lc', fresh lc' = fresh lc -> P lc -> P lc'.
Hypothesis P_late_store :
  forall k lc frame v, P lc -> keeps R any_exn P (late_store k lc frame v).

Local Notation "'keeps_P'" := (keeps R any_exn).

Lemma kl_bind (A B : Type) (Q1 : A -> Prop) (Q2 : B -> Prop) (m : M A) (k : A -> M B) :
  keeps_P Q1 m -> (forall a, Q1 a -> keeps_P Q2 (k a)) -> keeps_P Q2 (bindM m k).
Proof. apply keeps_bind. exact R_trans. Qed.

Lemma kl_ret (A : Type) (Q : A -> Prop) (a : A) : Q a -> keeps_P Q (ret a).
Proof. apply keeps_ret. exact R_refl. Qed.

Lemma kl_reads (A : Type) (m : M A) :
  (forall d, fst (m d) = d) -> keeps_P (fun _ => True) m.
Proof.
  intros H d. rewrite H. split; [apply R_refl|]. now destruct (snd (m d)).
Qed.

Lemma load_centroid_reads (get : Data -> list (option float)) (frame : nat) (d : Data) :
  fst (load_centroid get frame d) = d.
Proof.
  unfold load_centroid, bindM, load. cbn.
  destruct (getitem (get d) frame) as [[v|]|]; reflexivity.
Qed.

Lemma frame_ratio_and_vector_pass (w : Window) (lc : Locals) (frame : nat) :
  P lc -> keeps_P P (frame_ratio_and_vector numpy w lc frame).
Proof.
  intros Hlc. unfold frame_ratio_and_vector.
  eapply kl_bind; [apply kl_reads; reflexivity|]. intros sd _.
  eapply kl_bind with (Q1 := P).
  - destruct (neqb sd 0%float); [|now apply kl_ret].
    eapply kl_bind; [apply kl_reads; reflexivity|]. intros ld _.
    eapply kl_bind; [apply kl_reads; reflexivity|]. intros sd' _.
    eapply kl_bind; [apply kl_reads; reflexivity|]. intros ratio _.
    now apply P_late_store.
  - intros lc1 H1.
    eapply kl_bind; [apply kl_reads; apply load_centroid_reads|]. intros cx _.
    eapply kl_bind; [apply kl_reads; apply load_centroid_reads|]. intros cy _.
    destruct (centroid_center_vector numpy w cx cy) as [vl va].
    eapply kl_bind; [now apply P_late_store|]. intros lc2 H2.
    now apply P_late_store.
Qed.

Lemma process_frame_pass (w : Window) (suppress_messages : bool) (frame : nat)
  (lc : Locals) (shown : list nat) :
  P lc ->
  keeps_P (fun r => forall st, r = Some st -> P (fst st))
          (process_frame math_dist shapely numpy Spline_full_contour wasCanceled
             w suppress_messages frame (lc, shown)).
Proof.
  intros Hlc. unfold process_frame.
  eapply kl_bind; [apply kl_reads; apply already_computed_reads|]. intros skip _.
  destruct skip; [apply kl_ret; now intros st [= <-]|].
  eapply kl_bind with (Q1 := P).
  - unfold compute_frame. eapply kl_bind with (Q1 := P).
    + eapply keeps_weaken; [|apply frame_geometry_keeps;
                              [exact R_refl|exact R_trans|apply R_stores]].
      cbn. intros lc1 H1. eapply P_fresh; eassumption.
    + intros lc1 H1. now apply frame_ratio_and_vector_pass.
  - intros lc1 H1. destruct suppress_messages; [apply kl_ret; now intros st [= <-]|].
    destruct (wasCanceled frame); apply kl_ret; [discriminate|now intros st [= <-]].
Qed.

Lemma frames_loop_pass (w : Window) (suppress_messages : bool) (frames : list nat) :
  forall (lc : Locals) (shown : list nat),
    P lc ->
    keeps_P (fun r => forall st, r = Some st -> P (fst st))
            (frames_loop math_dist shapely numpy Spline_full_contour wasCanceled
               w suppress_messages frames (lc, shown)).
Proof.
  induction frames as [|frame rest IH]; intros lc shown Hlc; cbn [frames_loop].
  - apply kl_ret. now intros st [= <-].
  - eapply kl_bind; [now apply process_frame_pass|]. intros [[lc1 shown1]|] H1.
    + apply IH. now apply (H1 _ eq_refl).
    + apply kl_ret. discriminate.
Qed.

End Pass.

(** **** The two instances: keys missing, and keys present *)

Lemma keys_same_refl (d : Data) : keys_same d d.
Proof. now repeat split. Qed.

Lemma keys_same_trans (d1 d2 d3 : Data) :
  keys_same d1 d2 -> keys_same d2 d3 -> keys_same d1 d3.
Proof. unfold keys_same. intros (?&?&?) (?&?&?). repeat split; congruence. Qed.

Lemma keys_stay_trans (d1 d2 d3 : Data) :
  keys_stay d1 d2 -> keys_stay d2 d3 -> keys_stay d1 d3.
Proof. unfold keys_stay. tauto. Qed.

(** With local lists, the stores of the three lists stay local. *)
Lemma late_store_local (k : late) (lc : Locals) (frame : nat) (v : float) :
  fresh lc <> None ->
  keeps keys_same any_exn (fun lc' => fresh lc' <> None) (late_store k lc frame v).
Proof.
  intros Hlc d. unfold late_store. destruct (fresh lc) as [fr|]; [|congruence].
  unfold bindM, lift, ret. destruct (setitem (late_local k fr) frame v); cbn.
  - split; [apply keys_same_refl|discriminate].
  - split; [apply keys_same_refl|exact I].
Qed.

(** A store into one of the three lists of the data keeps all three. *)
Lemma late_store_keys_stay (k : late) (lc : Locals) (frame : nat) (v : float) :
  keeps keys_stay any_exn (fun _ => True) (late_store k lc frame v).
Proof.
  intros d. unfold late_store. destruct (fresh lc) as [fr|].
  - unfold bindM, lift, ret. destruct (setitem (late_local k fr) frame v); cbn;
      (split; [now intros H|exact I]).
  - unfold bindM, store, ret. destruct (setitem (late_entry k d) frame v) as [l|]; cbn.
    + split; [|exact I]. unfold keys_stay, all_keys. destruct k; cbn;
        intros (?&?&?); repeat split; try assumption; discriminate.
    + split; [now intros H|exact I].
Qed.

Lemma late_load_reads (k : late) (lc : Locals) (frame : nat) (d : Data) :
  fst (late_load k lc frame d) = d.
Proof. unfold late_load. now destruct (fresh lc). Qed.

Lemma bindM_reads (A B : Type) (m : M A) (k : A -> M B) :
  (forall d, fst (m d) = d) -> (forall a d, fst (k a d) = d) ->
  forall d, fst (bindM m k d) = d.
Proof.
  intros Hm Hk d. unfold bindM. specialize (Hm d).
  destruct (m d) as [d1 [a|e]]; cbn in *; [subst d1; apply Hk | exact Hm].
Qed.

(** The table is read off the data: building it changes nothing. *)
Lemma report_rows_reads (w : Window) (lc : Locals) (frames : list nat) :
  forall d, fst (report_rows w lc frames d) = d.
Proof.
  induction frames as [|frame rest IH]; cbn [report_rows]; [reflexivity|].
  apply bindM_reads.
  - unfold report_row.
    apply bindM_reads; [reflexivity|]. intros position.
    do 5 (apply bindM_reads; [reflexivity|]; intros ?).
    do 3 (apply bindM_reads; [apply late_load_reads|]; intros ?).
    reflexivity.
  - intros r. apply bindM_reads; [exact IH|]. reflexivity.
Qed.

(** Lines 134-136 make the three keys present when the lists are local,
    and change nothing when they are the lists of the data. *)
Lemma bind_late_entries_keys (lc : Locals) (d : Data) :
  snd (bind_late_entries lc d) = Ok tt /\
  (fresh lc <> None -> all_keys (fst (bind_late_entries lc d))) /\
  (fresh lc = None -> fst (bind_late_entries lc d) = d).
Proof.
  unfold bind_late_entries, all_keys. destruct (fresh lc) as [[[e l] a]|]; cbn.
  - split; [reflexivity|]. split; [|discriminate]. intros _. repeat split; discriminate.
  - split; [reflexivity|]. split; [congruence|reflexivity].
Qed.

End LateKeyFacts.


(** ** report/report.py: the entry point *)

Module ReportEntry.

Import Report.

(** [[frame for frame in frames if lumen_x[frame]]]: a frame is kept when
    its list of knot points is not empty. *)
Fixpoint select_contoured (lumen_x : list (list float)) (frames : list nat)
  : result (list nat) :=
  match frames with
  | [] => Ok []
  | frame :: rest =>
      xs <- getitem lumen_x frame ;;
      selected <- select_contoured lumen_x rest ;;
      Ok (match xs with
          | [] => selected
          | _ :: _ => frame :: selected
          end)
  end.

Section Entry.

(** [report] hands the frames to [compute_all] together with the two
    switches of the configuration; [compute_all] is a parameter here, so
    that what follows holds whatever the switches are.  The file written
    from the table returned is not tracked. *)
Variable report_data : Type.
Variable compute_all : list nat -> bool -> M (option report_data).

Definition report (image_displayed : bool) (w : Window) (suppress_messages : bool)
  : M (option report_data) :=
  if negb image_displayed then ret None
  else
    contoured_frames <~
      (fun d => (d, select_contoured (fst (lumen d)) (seq 0 (num_frames w)))) ;;
    match contoured_frames with
    | [] => ret None
    | _ :: _ => compute_all contoured_frames suppress_messages
    end.

End Entry.

(** The frame has knot points. *)
Definition has_knots (lumen_x : list (list float)) (frame : nat) : bool :=
  match nth_error lumen_x frame with
  | Some (_ :: _) => true
  | _ => false
  end.

Lemma select_contoured_filter (lumen_x : list (list float)) (frames : list nat) :
  Forall (fun frame => frame < List.length lumen_x) frames ->
  select_contoured lumen_x frames = Ok (filter (has_knots lumen_x) frames).
Proof.
  induction 1 as [|frame rest Hf _ IH]; cbn [select_contoured filter]; [reflexivity|].
  unfold getitem, has_knots.
  destruct (nth_error lumen_x frame) as [xs|] eqn:Hx; [|apply nth_error_None in Hx; lia].
  cbn [bind]. rewrite IH. cbn [bind]. now destruct xs.
Qed.

Lemma select_contoured_short (lumen_x : list (list float)) (frames : list nat) :
  Exists (fun frame => List.length lumen_x <= frame) frames ->
  select_contoured lumen_x frames = Raise IndexError.
Proof.
  induction 1 as [frame rest Hf|frame rest _ IH]; cbn [select_contoured]; unfold getitem.
  - apply nth_error_None in Hf. now rewrite Hf.
  - destruct (nth_error lumen_x frame); [|reflexivity]. cbn [bind]. now rewrite IH.
Qed.

End ReportEntry.


(** ** input_output/contours.py: automatic segmentation *)

Module Segment.

Import Contours.

(** [np.sum(mask == 1)] over one frame: the number of its pixels equal to 1. *)
Definition count_ones (m : mask) : nat :=
  list_sum (map (fun row => List.length (filter (Z.eqb 1) row)) m).

(** [compute_area]: the pixel count of every frame times the squared
    resolution ([r ** 2] written [r * r], as above). *)
Definition compute_area (w : Report.Window) (masks : list mask) : list float :=
  map (fun m => (Report.float_of_nat (count_ones m) *
                 (Report.resolution w * Report.resolution w))%float) masks.

(** The attributes of [main_window] that [segment] assigns. *)
Record Segmentation : Type := mkSegmentation {
  metrics : list float;
  lumen : list (list float) * list (list float);
  contours_drawn : bool
}.

Section Segment.

Variable find_contours : mask -> list (list (float * float)).
Variable contains_point : list (float * float) -> nat * nat -> bool.

(** [main_window.predictor], applied to the images: the stack of masks,
    and its shape [masks.shape[1:3]].  The messages, the display and the
    check box are not tracked. *)
Variable images : Type.
Variable predictor : images -> list mask.
Variable image_shape : nat * nat.

Definition segment (image_displayed : bool) (w : Report.Window) (imgs : images)
  (s : Segmentation) : Segmentation * result unit :=
  if negb image_displayed then (s, Ok tt)
  else
    let masks := predictor imgs in
    let s := mkSegmentation (compute_area w masks) (lumen s) (contours_drawn s) in
    match mask_to_contours find_contours contains_point masks image_shape with
    | Raise e => (s, Raise e)
    | Ok lumen_pred => (mkSegmentation (metrics s) lumen_pred true, Ok tt)
    end.

End Segment.

Lemma count_ones_zero (m : mask) : count_ones m = 0 -> any_foreground m = false.
Proof.
  unfold count_ones, any_foreground. induction m as [|row t IH]; [reflexivity|].
  simpl. intros H. apply Nat.eq_add_0 in H as [Hrow Ht].
  rewrite (IH Ht), orb_false_r. clear IH Ht.
  induction row as [|x r IHr]; [reflexivity|]. cbn [filter existsb] in *.
  destruct (1 =? x)%Z; [cbn in Hrow; discriminate Hrow|]. now apply IHr.
Qed.

End Segment.

(** ** input_output/contours.py: the frames written to the XML file *)

Module WriteContours.

(** One turn of the loop of lines 70-79: the x and y lists appended for
    frame [i]. *)
Definition xml_frame (lumen : list (list float) * list (list float)) (i : nat)
  : result (list float * list float) :=
  if i <? List.length (fst lumen) then
    new_x_lumen <- getitem (fst lumen) i ;;
    new_y_lumen <- getitem (snd lumen) i ;;
    Ok (new_x_lumen, new_y_lumen)
  else Ok ([], []).

(** The lists [x] and [y] that [write_contours] hands to [write_xml]. *)
Definition xml_frames (num_frames : nat) (lumen : list (list float) * list (list float))
  : result (list (list float) * list (list float)) :=
  frames <- Contours.mapM (xml_frame lumen) (seq 0 num_frames) ;;
  Ok (map fst frames, map snd frames).

End WriteContours.


(** ** report/report.py: the frames that are plotted *)

Module Plot.

(** Lines 166-169: [int(len(contoured_frames) * 0.25)] and the like.  The
    products with 0.25, 0.5 and 0.75 are exact on the lengths that occur,
    and [int] drops the fraction: the indices are the integer quotients. *)
Definition indices_to_plot (contoured_frames : list nat) : list nat :=
  let first_third := List.length contoured_frames / 4 in
  let second_third := List.length contoured_frames / 2 in
  let third_third := 3 * List.length contoured_frames / 4 in
  [first_third; second_third; third_third].

(** Line 170: [[contoured_frames[frame] for frame in indices_to_plot]]. *)
Definition frames_to_plot (contoured_frames : list nat) : result (list nat) :=
  Contours.mapM (getitem contoured_frames) (indices_to_plot contoured_frames).

End Plot.


(** ** From input_output/contours.py to report/report.py: the first pass
    after reading contours from XML *)

Module ReadContours.

Import Report.

(** Lines 37-46 of [read_contours]: the containers for the data that the
    XML file does not store, [[0] * num_frames] for the four scalar lists
    and a pair of lists of empty placeholders for the three point lists.
    The contours (already lists here) and the other keys are as
    [read_xml] left them. *)
Definition xml_containers (num_frames : nat) (d : Data) : Data :=
  let zeros := repeat 0%float num_frames in
  mkData (lumen d) (phases d)
         zeros zeros
         (repeat None num_frames, repeat None num_frames)
         zeros (repeat [] num_frames, repeat [] num_frames)
         zeros (repeat [] num_frames, repeat [] num_frames)
         (elliptic_ratio d) (vector_length d) (vector_angle d).

(** The stored area of the frame is the zero it was initialised with. *)
Definition area_unset (d : Data) (frame : nat) : Prop :=
  nth_error (lumen_area d) frame = Some 0%float.

Lemma xml_containers_area_unset (num_frames : nat) (d : Data) (frame : nat) :
  frame < num_frames -> area_unset (xml_containers num_frames d) frame.
Proof.
  intros H. unfold area_unset, xml_containers. cbn.
  rewrite (nth_error_nth' _ 0%float) by now rewrite repeat_length.
  now rewrite nth_repeat.
Qed.

(** A frame whose stored area is zero is not skipped. *)
Lemma already_computed_unset (lc : Locals) (frame : nat) (d : Data) :
  area_unset d frame -> already_computed lc frame d = (d, Ok false).
Proof.
  unfold area_unset, already_computed, bindM, load, getitem. now intros ->.
Qed.

End ReadContours.


(** ** input_output/contours.py: downsampling twice *)

Module DownsampleTwice.

Import Contours.

(** A frame of at least [num_points] and fewer than twice [num_points]
    points has stride 1: all its points are kept. *)
Lemma downsample_frame_stride_one (A : Type) (num_points : nat)
  (contours : list (list A) * list (list A)) (frame : nat) (xs ys : list A) :
  nth_error (fst contours) frame = Some xs ->
  nth_error (snd contours) frame = Some ys ->
  List.length ys = List.length xs ->
  0 < num_points <= List.length xs ->
  List.length xs < 2 * num_points ->
  downsample_frame num_points contours frame = Ok (xs, ys).
Proof.
  intros Hx Hy Hlen [Hk Hn] Hlt. unfold downsample_frame, getitem at 1 3. rewrite Hx, Hy.
  cbn [bind].
  destruct xs as [|x0 xs'] eqn:Exs; [cbn in Hn; lia|]. rewrite <- Exs in *.
  assert (Hs : List.length xs / num_points = 1).
  { symmetry. apply Nat.div_unique with (r := List.length xs - num_points); lia. }
  unfold floordiv. destruct num_points as [|k] eqn:Ek; [lia|]. rewrite <- Ek in *.
  rewrite Hs. cbn [bind]. unfold range0, range_count.
  replace ((List.length xs + 1 - 1) / 1) with (List.length xs)
    by (rewrite Nat.div_1_r; lia).
  cbn [bind]. rewrite !ContoursFacts.mapM_map.
  rewrite (ContoursFacts.mapM_ext (fun x => getitem xs (x * 1)) (getitem xs))
    by (intros x; now rewrite Nat.mul_1_r).
  rewrite ContoursFacts.mapM_getitem_all. cbn [bind].
  rewrite (ContoursFacts.mapM_ext (fun x => getitem ys (x * 1)) (getitem ys))
    by (intros x; now rewrite Nat.mul_1_r).
  rewrite <- Hlen, ContoursFacts.mapM_getitem_all. reflexivity.
Qed.

End DownsampleTwice.

(** ** More concrete inputs *)

Module ContourExamples.

(** Three frames for the runs below: 40 points, none, 45 points; and what
    the stride 2 keeps of them. *)
Definition three_frames : list (list float) * list (list float) :=
  ([Examples.ramp 40; []; Examples.ramp 45], [Examples.ramp 40; []; Examples.ramp 45]).

Definition every_second (n : nat) : list float :=
  map (fun j => float_of_nat (j * 2)) (seq 0 n).

Definition three_frames_sampled : list (list float) * list (list float) :=
  ([every_second 20; []; every_second 23], [every_second 20; []; every_second 23]).

End ContourExamples.

(** * Further properties of the code *)

(** ** input_output/contours.py *)

Section DownsampleProperties.

Variable A : Type.
Variable contours : list (list A) * list (list A).
Variable num_points : nat.

(** X1.  When [downsample] returns, the lists of a non-empty frame hold
    the points of the frame at the indices 0, s, 2s, ... below its length,
    all of them and in this order, with s the stride [len // num_points]:
    the number of points kept is the number of these indices, position j
    is kept exactly when j * s is below the length of the frame, and it
    holds the point at j * s.  The x and the y list are sampled at the
    same indices, and the first point of the frame is always kept. *)
Theorem downsample_samples_at_stride :
  forall (out : list (list A) * list (list A)) (frame : nat) (xs : list A),
    Contours.downsample contours num_points = Ok out ->
    nth_error (fst contours) frame = Some xs ->
    xs <> [] ->
    exists ys dx dy,
      nth_error (snd contours) frame = Some ys /\
      nth_error (fst out) frame = Some dx /\
      nth_error (snd out) frame = Some dy /\
      List.length dx = range_count (List.length xs) (List.length xs / num_points) /\
      List.length dy = List.length dx /\
      nth_error dx 0 = nth_error xs 0 /\ 0 < List.length dx /\
      (forall j, j < List.length dx <->
                 j * (List.length xs / num_points) < List.length xs) /\
      forall j, j < List.length dx ->
                j * (List.length xs / num_points) < List.length xs /\
                nth_error dx j = nth_error xs (j * (List.length xs / num_points)) /\
                nth_error dy j = nth_error ys (j * (List.length xs / num_points)).
Proof.
  intros out frame xs Hout Hx Hne.
  assert (Hf : frame < List.length (fst contours)) by (apply nth_error_Some; congruence).
  destruct (Contours.downsample_frames _ _ Hout Hf) as (dx & dy & Hd & Hnx & Hny).
  destruct (@ContoursFacts.downsample_frame_values _ _ _ _ _ _ _ Hx Hd)
    as [[-> _]|(_ & Hk & ys & Hy & Lx & Ly & Hv)]; [congruence|].
  exists ys, dx, dy. repeat match goal with |- _ /\ _ => split end; try assumption.
  - assert (Hpos : 0 < List.length dx).
    { rewrite Lx. destruct (Contours.range_count_target Hk) as [Hge _]. lia. }
    destruct (Hv 0 Hpos) as (_ & E & _). exact E.
  - rewrite Lx. destruct (Contours.range_count_target Hk) as [Hge _]. lia.
  - intros j. rewrite Lx. apply ContoursFacts.range_count_index.
    apply Nat.div_str_pos. exact Hk.
Qed.

(** X2.  When [downsample] returns, a non-empty frame keeps at least
    [num_points] and fewer than [2 * num_points] points, and exactly
    [num_points] if and only if [num_points] divides its length. *)
Theorem downsample_point_count :
  forall (out : list (list A) * list (list A)) (frame : nat) (xs : list A),
    Contours.downsample contours num_points = Ok out ->
    nth_error (fst contours) frame = Some xs ->
    xs <> [] ->
    exists dx,
      nth_error (fst out) frame = Some dx /\
      num_points <= List.length dx < 2 * num_points /\
      (List.length dx = num_points <-> List.length xs mod num_points = 0).
Proof.
  intros out frame xs Hout Hx Hne.
  assert (Hf : frame < List.length (fst contours)) by (apply nth_error_Some; congruence).
  destruct (Contours.downsample_frames _ _ Hout Hf) as (dx & dy & Hd & Hnx & Hny).
  destruct (@ContoursFacts.downsample_frame_values _ _ _ _ _ _ _ Hx Hd)
    as [[-> _]|(_ & Hk & ys & Hy & Lx & Ly & Hv)]; [congruence|].
  exists dx. split; [exact Hnx|]. rewrite Lx.
  destruct (Contours.range_count_target Hk) as [Hge Hiff].
  pose proof (ContoursFacts.range_count_below_double Hk) as Hlt.
  split; [lia|exact Hiff].
Qed.

(** X3.  On contours with one x and one y list of equal length per frame,
    [downsample] returns exactly when every frame is empty or has at least
    [num_points] points (and [num_points] is positive, if some frame is not
    empty).  Otherwise it raises: [ZeroDivisionError] for a zero target,
    [ValueError] for a frame shorter than the target. *)
Theorem downsample_returns_iff :
  ContoursFacts.well_formed contours ->
  ((exists out, Contours.downsample contours num_points = Ok out) <->
   (forall frame xs, nth_error (fst contours) frame = Some xs ->
                     xs = [] \/ 0 < num_points <= List.length xs)) /\
  (forall e, Contours.downsample contours num_points = Raise e ->
             e = if num_points =? 0 then ZeroDivisionError else ValueError).
Proof.
  intros Hwf. split; [split|].
  - intros [out Hout] frame xs Hx. eapply ContoursFacts.downsample_ok_frames; eassumption.
  - now apply ContoursFacts.downsample_frames_ok.
  - intros e He.
    destruct (@ContoursFacts.downsample_raise_inv _ _ _ _ Hwf He)
      as (frame & xs & Hx & Hne & [[-> ->]|[Hlt ->]]); [reflexivity|].
    destruct (Nat.eqb_spec num_points 0); [lia|reflexivity].
Qed.

(** X4.  The result of [downsample] has the shape of its argument: one x
    and one y list per frame of the input, of equal length within a frame;
    the empty frames, and only they, stay empty. *)
Theorem downsample_keeps_shape :
  forall out : list (list A) * list (list A),
    Contours.downsample contours num_points = Ok out ->
    List.length (fst out) = List.length (fst contours) /\
    ContoursFacts.well_formed out /\
    forall frame xs dx,
      nth_error (fst contours) frame = Some xs ->
      nth_error (fst out) frame = Some dx ->
      (dx = [] <-> xs = []).
Proof.
  intros out Hout.
  pose proof (@ContoursFacts.downsample_lengths _ _ _ _ Hout) as Hlen.
  destruct Hlen as [L1 L2].
  split; [exact L1|]. split; [split; [congruence|]|].
  - intros frame dx dy Hdx Hdy.
    assert (Hf : frame < List.length (fst contours)).
    { rewrite <- L1. apply nth_error_Some. congruence. }
    destruct (Contours.downsample_frames _ _ Hout Hf) as (dx' & dy' & Hd & Hnx & Hny).
    assert (dx' = dx) by congruence. assert (dy' = dy) by congruence. subst dx' dy'.
    destruct (nth_error (fst contours) frame) as [xs|] eqn:Hx;
      [|apply nth_error_None in Hx; lia].
    destruct (@ContoursFacts.downsample_frame_values _ _ _ _ _ _ _ Hx Hd)
      as [(_ & -> & ->)|(_ & _ & ys & _ & _ & Ly & _)]; [reflexivity|exact Ly].
  - intros frame xs dx Hx Hdx.
    assert (Hf : frame < List.length (fst contours)) by (apply nth_error_Some; congruence).
    destruct (Contours.downsample_frames _ _ Hout Hf) as (dx' & dy' & Hd & Hnx & Hny).
    assert (dx' = dx) by congruence. subst dx'.
    destruct (@ContoursFacts.downsample_frame_values _ _ _ _ _ _ _ Hx Hd)
      as [(-> & -> & _)|(Hne & Hk & ys & _ & Lx & _ & _)]; [tauto|].
    split; [|tauto]. intros ->. cbn in Lx.
    destruct (Contours.range_count_target Hk) as [Hge _]. lia.
Qed.

End DownsampleProperties.

Lemma downsample_samples_at_stride_witness :
  exists ys dx dy,
    nth_error (snd ContourExamples.three_frames) 2 = Some ys /\
    nth_error (fst ContourExamples.three_frames_sampled) 2 = Some dx /\
    nth_error (snd ContourExamples.three_frames_sampled) 2 = Some dy /\
    List.length dx = range_count (List.length (Examples.ramp 45))
                                 (List.length (Examples.ramp 45) / 20) /\
    List.length dy = List.length dx /\
    nth_error dx 0 = nth_error (Examples.ramp 45) 0 /\ 0 < List.length dx /\
    (forall j, j < List.length dx <->
               j * (List.length (Examples.ramp 45) / 20) < List.length (Examples.ramp 45)) /\
    forall j, j < List.length dx ->
              j * (List.length (Examples.ramp 45) / 20) < List.length (Examples.ramp 45) /\
              nth_error dx j =
                nth_error (Examples.ramp 45) (j * (List.length (Examples.ramp 45) / 20)) /\
              nth_error dy j = nth_error ys (j * (List.length (Examples.ramp 45) / 20)).
Proof.
  refine (@downsample_samples_at_stride float ContourExamples.three_frames 20
            ContourExamples.three_frames_sampled 2 (Examples.ramp 45) _ _ _).
  - vm_compute. reflexivity.
  - reflexivity.
  - discriminate.
Defined.

Lemma downsample_point_count_witness :
  exists dx,
    nth_error (fst ContourExamples.three_frames_sampled) 2 = Some dx /\
    20 <= List.length dx < 2 * 20 /\
    (List.length dx = 20 <-> List.length (Examples.ramp 45) mod 20 = 0).
Proof.
  refine (@downsample_point_count float ContourExamples.three_frames 20
            ContourExamples.three_frames_sampled 2 (Examples.ramp 45) _ _ _).
  - vm_compute. reflexivity.
  - reflexivity.
  - discriminate.
Defined.

Lemma downsample_returns_iff_witness :
  ((exists out, Contours.downsample ContourExamples.three_frames 20 = Ok out) <->
   (forall frame xs, nth_error (fst ContourExamples.three_frames) frame = Some xs ->
                     xs = [] \/ 0 < 20 <= List.length xs)) /\
  (forall e, Contours.downsample ContourExamples.three_frames 20 = Raise e ->
             e = if 20 =? 0 then ZeroDivisionError else ValueError).
Proof.
  refine (@downsample_returns_iff float ContourExamples.three_frames 20 _).
  split; [reflexivity|].
  intros [|[|[|frame]]] xs ys; cbn; try discriminate; try (destruct frame; discriminate);
    now intros [= <-] [= <-].
Defined.

Lemma downsample_keeps_shape_witness :
  List.length (fst ContourExamples.three_frames_sampled) =
    List.length (fst ContourExamples.three_frames) /\
  ContoursFacts.well_formed ContourExamples.three_frames_sampled /\
  forall frame xs dx,
    nth_error (fst ContourExamples.three_frames) frame = Some xs ->
    nth_error (fst ContourExamples.three_frames_sampled) frame = Some dx ->
    (dx = [] <-> xs = []).
Proof.
  refine (@downsample_keeps_shape float ContourExamples.three_frames 20
            ContourExamples.three_frames_sampled _).
  vm_compute. reflexivity.
Defined.

Section DownsampleTwiceProperties.

Variable A : Type.
Variable contours : list (list A) * list (list A).
Variable num_points : nat.

(** X5.  Downsampling is idempotent: the frames that [downsample]
    returns are empty or have fewer than twice [num_points] points, so a
    second call with the same target has stride 1 on every frame and
    returns them as they are. *)
Theorem downsample_idempotent :
  forall out : list (list A) * list (list A),
    Contours.downsample contours num_points = Ok out ->
    Contours.downsample out num_points = Ok out.
Proof.
  intros [ox oy] Hout.
  destruct (@ContoursFacts.downsample_lengths _ _ _ _ Hout) as [L1 L2]. cbn [fst snd] in *.
  unfold Contours.downsample. cbn [fst snd].
  rewrite (@ContoursFacts.mapM_total _ _ _ (fun i => (nth i ox [], nth i oy []))).
  - cbn [bind]. rewrite !map_map. cbn [fst snd].
    assert (E : List.length oy = List.length ox) by congruence.
    rewrite (ContoursFacts.map_nth_seq [] ox (List.length ox)).
    rewrite firstn_all, Nat.sub_diag, app_nil_r. rewrite <- E.
    rewrite (ContoursFacts.map_nth_seq [] oy (List.length oy)).
    now rewrite firstn_all, Nat.sub_diag, app_nil_r.
  - intros frame Hin. apply in_seq in Hin.
    assert (Hf : frame < List.length (fst contours)) by lia.
    destruct (Contours.downsample_frames _ _ Hout Hf) as (dx & dy & Hd & Hnx & Hny).
    cbn [fst snd] in Hnx, Hny.
    rewrite (nth_error_nth _ _ [] Hnx), (nth_error_nth _ _ [] Hny).
    destruct (nth_error (fst contours) frame) as [xs|] eqn:Hx;
      [|apply nth_error_None in Hx; lia].
    destruct (@ContoursFacts.downsample_frame_values _ _ _ _ _ _ _ Hx Hd)
      as [(_ & -> & ->)|(_ & Hk & ys & _ & Lx & Ly & _)].
    + unfold Contours.downsample_frame, getitem. cbn [fst]. now rewrite Hnx.
    + destruct (Contours.range_count_target Hk) as [Hge _].
      pose proof (ContoursFacts.range_count_below_double Hk) as Hlt.
      apply DownsampleTwice.downsample_frame_stride_one; cbn [fst snd];
        try assumption; lia.
Qed.

End DownsampleTwiceProperties.

Lemma downsample_idempotent_witness :
  Contours.downsample ContourExamples.three_frames_sampled 20 =
    Ok ContourExamples.three_frames_sampled.
Proof.
  refine (@downsample_idempotent float ContourExamples.three_frames 20
            ContourExamples.three_frames_sampled _).
  vm_compute. reflexivity.
Defined.

Section ExtractionProperties.

Variable find_contours : Contours.mask -> list (list (float * float)).
Variable contains_point : list (float * float) -> nat * nat -> bool.
Variable image_shape : nat * nat.

Local Notation "'kept_x'" :=
  (ContoursFacts.kept_x find_contours contains_point image_shape).

(** X6.  [get_contours] returns one x list and one y list per mask frame,
    in the order of the frames, and the two lists of a frame have the same
    number of points, whatever the tracing returns. *)
Theorem get_contours_one_contour_per_mask :
  forall preds : list Contours.mask,
    let lumen_pred := Contours.get_contours find_contours contains_point preds image_shape in
    List.length (fst lumen_pred) = List.length preds /\
    List.length (snd lumen_pred) = List.length preds /\
    forall frame pred,
      nth_error preds frame = Some pred ->
      exists xs ys,
        nth_error (fst lumen_pred) frame = Some xs /\
        nth_error (snd lumen_pred) frame = Some ys /\
        (xs, ys) = Contours.get_contours_frame find_contours contains_point image_shape pred /\
        List.length ys = List.length xs.
Proof.
  intros preds lumen_pred. subst lumen_pred. rewrite Contours.get_contours_frames.
  cbn [fst snd]. rewrite !length_map. split; [reflexivity|]. split; [reflexivity|].
  intros frame pred Hp. rewrite !nth_error_map, Hp. cbn.
  eexists _, _. split; [reflexivity|]. split; [reflexivity|].
  split; [now rewrite <- surjective_pairing|].
  apply ContoursFacts.get_contours_frame_lengths.
Qed.

(** X7.  [mask_to_contours] returns exactly when the contour kept for
    every mask frame is empty or has at least 20 points, and then with one
    frame per mask; when some kept contour has between 1 and 19 points it
    raises [ValueError], and nothing else is ever raised. *)
Theorem mask_to_contours_needs_twenty_points :
  forall masks : list Contours.mask,
    match Contours.mask_to_contours find_contours contains_point masks image_shape with
    | Ok out =>
        Forall (fun pred => kept_x pred = [] \/ 20 <= List.length (kept_x pred)) masks /\
        List.length (fst out) = List.length masks /\
        List.length (snd out) = List.length masks
    | Raise e =>
        e = ValueError /\
        Exists (fun pred => 0 < List.length (kept_x pred) < 20) masks
    end.
Proof.
  intros masks. unfold Contours.mask_to_contours, Contours.default_num_points.
  pose proof (ContoursFacts.get_contours_well_formed find_contours contains_point
                image_shape masks) as Hwf.
  destruct (Contours.downsample
              (Contours.get_contours find_contours contains_point masks image_shape) 20)
    as [out|e] eqn:Hd.
  - split.
    + apply Forall_forall. intros pred Hin. apply In_nth_error in Hin as [frame Hp].
      destruct (@ContoursFacts.downsample_ok_frames _ _ _ out frame (kept_x pred) Hd)
        as [E|E]; [|now left|right; lia].
      rewrite Contours.get_contours_frames. cbn [fst]. now rewrite nth_error_map, Hp.
    + destruct (@ContoursFacts.downsample_lengths _ _ _ _ Hd) as [L L'].
      rewrite L, L'. rewrite Contours.get_contours_frames. cbn [fst].
      now rewrite length_map.
  - destruct (@ContoursFacts.downsample_raise_inv _ _ _ _ Hwf Hd)
      as (frame & xs & Hx & Hne & [[Hz _]|[Hlt ->]]); [discriminate Hz|].
    split; [reflexivity|].
    rewrite Contours.get_contours_frames in Hx. cbn [fst] in Hx.
    rewrite nth_error_map in Hx.
    destruct (nth_error masks frame) as [pred|] eqn:Hp; [|discriminate].
    injection Hx as <-. apply Exists_exists. exists pred.
    split; [eapply nth_error_In; exact Hp|].
    fold (ContoursFacts.kept_x find_contours contains_point image_shape pred) in *.
    split; [|exact Hlt]. destruct (kept_x pred); [congruence|cbn; lia].
Qed.

(** X8.  Masks in which no pixel equals 1 give one empty contour per
    frame: [mask_to_contours] returns them without tracing a boundary and
    without raising. *)
Theorem mask_to_contours_without_foreground :
  forall masks : list Contours.mask,
    Forall (fun pred => Contours.any_foreground pred = false) masks ->
    Contours.mask_to_contours find_contours contains_point masks image_shape =
      Ok (repeat [] (List.length masks), repeat [] (List.length masks)).
Proof.
  intros masks Hall. unfold Contours.mask_to_contours.
  rewrite Contours.get_contours_frames.
  assert (E : forall (proj : list float * list float -> list float),
             proj ([], []) = [] ->
             map (fun pred => proj (Contours.get_contours_frame find_contours contains_point
                                      image_shape pred)) masks =
             repeat [] (List.length masks)).
  { intros proj Hp. induction Hall as [|p t Hp' _ IH]; [reflexivity|].
    cbn [map List.length repeat]. rewrite IH. unfold Contours.get_contours_frame.
    now rewrite Hp', Hp. }
  rewrite (E fst eq_refl), (E snd eq_refl).
  apply ContoursFacts.downsample_empty_frames.
Qed.

End ExtractionProperties.

Lemma mask_to_contours_without_foreground_witness :
  Contours.mask_to_contours Examples.traced Examples.in_bounding_box
    [[[0; 0]; [0; 0]]; [[0; 2]; [2; 0]]]%Z (2, 2) =
  Ok (repeat [] 2, repeat [] 2).
Proof.
  refine (@mask_to_contours_without_foreground Examples.traced Examples.in_bounding_box (2, 2)
            [[[0; 0]; [0; 0]]; [[0; 2]; [2; 0]]]%Z _).
  repeat constructor.
Defined.

Section WriteContoursProperties.

Variable num_frames : nat.
Variable lumen : list (list float) * list (list float).

(** X9.  With as many y lists as x lists in the data, the frames that
    [write_contours] writes in XML mode are the first [num_frames] frames
    of the data followed by empty frames up to [num_frames]: exactly
    [num_frames] frames are written, frames that the data lacks are
    written empty, and frames of the data at or beyond [num_frames] are
    not written. *)
Theorem write_contours_pads_to_num_frames :
  List.length (snd lumen) = List.length (fst lumen) ->
  WriteContours.xml_frames num_frames lumen =
    Ok (firstn num_frames (fst lumen) ++ repeat [] (num_frames - List.length (fst lumen)),
        firstn num_frames (snd lumen) ++ repeat [] (num_frames - List.length (fst lumen))).
Proof.
  intros Hlen. unfold WriteContours.xml_frames.
  rewrite (@ContoursFacts.mapM_total _ _ _
             (fun i => (nth i (fst lumen) [], nth i (snd lumen) []))).
  - cbn [bind]. rewrite !map_map. cbn [fst snd].
    rewrite !ContoursFacts.map_nth_seq. now rewrite Hlen.
  - intros i _. unfold WriteContours.xml_frame.
    destruct (Nat.ltb_spec i (List.length (fst lumen))) as [Hi|Hi].
    + rewrite (@getitem_nth _ (fst lumen) i [] Hi).
      rewrite (@getitem_nth _ (snd lumen) i []) by lia. reflexivity.
    + rewrite !nth_overflow by lia. reflexivity.
Qed.

End WriteContoursProperties.

Lemma write_contours_pads_to_num_frames_witness :
  WriteContours.xml_frames 3 ([[1; 2]%float; []], [[3; 4]%float; []]) =
    Ok (firstn 3 [[1; 2]%float; []] ++ repeat [] (3 - 2),
        firstn 3 [[3; 4]%float; []] ++ repeat [] (3 - 2)).
Proof.
  refine (@write_contours_pads_to_num_frames 3 ([[1; 2]%float; []], [[3; 4]%float; []]) _).
  reflexivity.
Defined.

Section SegmentProperties.

Variable find_contours : Contours.mask -> list (list (float * float)).
Variable contains_point : list (float * float) -> nat * nat -> bool.
Variable images : Type.
Variable predictor : images -> list Contours.mask.
Variable image_shape : nat * nat.
Variable w : Window.
Variable imgs : images.

Local Notation "'segment'" :=
  (Segment.segment find_contours contains_point predictor image_shape).

(** X10.  Before an image is displayed [segment] changes nothing.
    Otherwise the areas are replaced first, by one value per mask frame,
    and stay replaced whatever follows.  When the contours cannot be
    downsampled (a kept contour of 1 to 19 points) [ValueError] is raised
    and the contours and the flag [contours_drawn] are those of before,
    beside the new areas.  When [segment] returns, the contours are
    those of the masks, one frame per mask, the flag is set, and every
    frame in which no pixel equals 1 has an empty contour. *)
Theorem segment_replaces_areas_then_contours :
  forall s : Segment.Segmentation,
    let masks := predictor imgs in
    let s' := fst (segment true w imgs s) in
    let r := snd (segment true w imgs s) in
    segment false w imgs s = (s, Ok tt) /\
    Segment.metrics s' = Segment.compute_area w masks /\
    List.length (Segment.metrics s') = List.length masks /\
    (forall e, r = Raise e ->
               e = ValueError /\ Segment.lumen s' = Segment.lumen s /\
               Segment.contours_drawn s' = Segment.contours_drawn s) /\
    (r = Ok tt ->
     Contours.mask_to_contours find_contours contains_point masks image_shape =
       Ok (Segment.lumen s') /\
     Segment.contours_drawn s' = true /\
     List.length (fst (Segment.lumen s')) = List.length masks /\
     forall frame pred,
       nth_error masks frame = Some pred ->
       Segment.count_ones pred = 0 ->
       nth_error (fst (Segment.lumen s')) frame = Some [] /\
       nth_error (snd (Segment.lumen s')) frame = Some []).
Proof.
  intros s masks s' r. subst s' r. unfold Segment.segment. cbn [negb]. fold masks.
  split; [reflexivity|].
  pose proof (ContoursFacts.get_contours_well_formed find_contours contains_point
                image_shape masks) as Hwf.
  unfold Contours.mask_to_contours, Contours.default_num_points.
  destruct (Contours.downsample
              (Contours.get_contours find_contours contains_point masks image_shape) 20)
    as [out|e] eqn:Hd; cbn [fst snd Segment.metrics Segment.lumen Segment.contours_drawn].
  - split; [reflexivity|]. split; [unfold Segment.compute_area; now rewrite length_map|].
    split; [discriminate|]. intros _. split; [reflexivity|]. split; [reflexivity|].
    destruct (@ContoursFacts.downsample_lengths _ _ _ _ Hd) as [L L'].
    rewrite Contours.get_contours_frames in L, L'. cbn [fst] in L, L'.
    rewrite length_map in L, L'. split; [exact L|].
    intros frame pred Hp Hz.
    assert (Hf : frame < List.length
                   (fst (Contours.get_contours find_contours contains_point masks
                           image_shape))).
    { rewrite Contours.get_contours_frames. cbn [fst]. rewrite length_map.
      apply nth_error_Some. congruence. }
    destruct (Contours.downsample_frames _ _ Hd Hf) as (dx & dy & Hdf & Hnx & Hny).
    assert (Hx : nth_error (fst (Contours.get_contours find_contours contains_point masks
                                   image_shape)) frame = Some []).
    { rewrite Contours.get_contours_frames. cbn [fst]. rewrite nth_error_map, Hp. cbn.
      unfold Contours.get_contours_frame. now rewrite (Segment.count_ones_zero _ Hz). }
    destruct (@ContoursFacts.downsample_frame_values _ _ _ _ _ _ _ Hx Hdf)
      as [(_ & -> & ->)|(Hne & _)]; [now split|congruence].
  - split; [reflexivity|]. split; [unfold Segment.compute_area; now rewrite length_map|].
    split; [|discriminate]. intros e' [= <-].
    destruct (@ContoursFacts.downsample_raise_inv _ _ _ _ Hwf Hd)
      as (frame & xs & _ & _ & [[Hz _]|[_ ->]]); [discriminate Hz|].
    now repeat split.
Qed.

End SegmentProperties.

(** A run with the tracing stand-in, whose centre square has five
    vertices: the area of the frame (36 pixels) is stored, the
    downsampling raises, and the contours and the flag are the old ones. *)
Example segment_with_short_contour :
  Segment.segment Examples.traced Examples.in_bounding_box (fun imgs => imgs) (6, 6)
    true (Examples.window 1 1) [repeat (repeat 1%Z 6) 6]
    (Segment.mkSegmentation [] ([], []) false) =
  (Segment.mkSegmentation [36%float] ([], []) false, Raise ValueError).
Proof. vm_compute. reflexivity. Qed.

(** ** gui/geometry.py *)

Section KnotEditing.

(** X11.  The first statement of [Spline.update], on knot lists of equal
    length n: the index n + 1 appends the point; an index in [-n, n)
    replaces the knot at that position (negative indices counting from the
    end) and no other; every other index, n itself included, raises
    [IndexError] and leaves the knot points as they were.  The two lists
    have equal length afterwards in every case. *)
Theorem update_knots_by_index :
  forall (k : coords) (pos : Geometry.QPointF) (idx : Z),
    List.length (snd k) = List.length (fst k) ->
    let n := Z.of_nat (List.length (fst k)) in
    let k' := fst (Geometry.update_knots k pos idx) in
    let r := snd (Geometry.update_knots k pos idx) in
    List.length (snd k') = List.length (fst k') /\
    ((idx = n + 1)%Z ->
     r = Ok tt /\ k' = (fst k ++ [Geometry.qx pos], snd k ++ [Geometry.qy pos])) /\
    ((- n <= idx < n)%Z ->
     r = Ok tt /\
     List.length (fst k') = List.length (fst k) /\
     forall j,
       nth_error (fst k') j =
         (if j =? Z.to_nat (idx mod n) then Some (Geometry.qx pos) else nth_error (fst k) j) /\
       nth_error (snd k') j =
         (if j =? Z.to_nat (idx mod n) then Some (Geometry.qy pos) else nth_error (snd k) j)) /\
    ((idx < - n \/ idx = n \/ n + 1 < idx)%Z ->
     r = Raise IndexError /\ k' = k).
Proof.
  intros [kx ky] pos idx Hlen n k' r. cbn [fst snd] in *. subst k' r n.
  unfold Geometry.update_knots. cbn [fst snd].
  destruct (Z.eqb_spec idx (Z.of_nat (List.length kx) + 1)) as [->|Hne].
  - cbn [fst snd]. split; [rewrite !length_app; cbn; lia|].
    split; [now intros _|]. split; intros H; lia.
  - pose proof (GeometryFacts.setitem_z_spec kx idx (Geometry.qx pos)) as Sx.
    pose proof (GeometryFacts.setitem_z_spec ky idx (Geometry.qy pos)) as Sy.
    rewrite Hlen in Sy.
    destruct (Geometry.py_index (List.length kx) idx) as [i|] eqn:Hi.
    + destruct Sx as (xs & -> & Lx & Nx & Ox). destruct Sy as (ys & -> & Ly & Ny & Oy).
      cbn [fst snd]. split; [congruence|]. split; [intros; lia|]. split.
      * intros Hr. rewrite (GeometryFacts.py_index_in_range _ Hr) in Hi.
        injection Hi as <-. split; [reflexivity|]. split; [exact Lx|].
        intros j. destruct (Nat.eqb_spec j (Z.to_nat (idx mod Z.of_nat (List.length kx))))
          as [->|Hj]; [now split|]. split; [now apply Ox|now apply Oy].
      * intros Hr. rewrite GeometryFacts.py_index_out_of_range in Hi by lia. discriminate.
    + rewrite Sx. cbn [fst snd]. split; [exact Hlen|]. split; [intros; lia|]. split.
      * intros Hr. rewrite (GeometryFacts.py_index_in_range _ Hr) in Hi. discriminate.
      * intros _. now split.
Qed.

End KnotEditing.

Lemma update_knots_by_index_witness :
  let k := Examples.square_knots in
  let pos := Geometry.mkQPointF 3 7 in
  let idx := (-1)%Z in
  let n := Z.of_nat (List.length (fst k)) in
  let k' := fst (Geometry.update_knots k pos idx) in
  let r := snd (Geometry.update_knots k pos idx) in
  List.length (snd k') = List.length (fst k') /\
  ((idx = n + 1)%Z ->
   r = Ok tt /\ k' = (fst k ++ [Geometry.qx pos], snd k ++ [Geometry.qy pos])) /\
  ((- n <= idx < n)%Z ->
   r = Ok tt /\
   List.length (fst k') = List.length (fst k) /\
   forall j,
     nth_error (fst k') j =
       (if j =? Z.to_nat (idx mod n) then Some (Geometry.qx pos) else nth_error (fst k) j) /\
     nth_error (snd k') j =
       (if j =? Z.to_nat (idx mod n) then Some (Geometry.qy pos) else nth_error (snd k) j)) /\
  ((idx < - n \/ idx = n \/ n + 1 < idx)%Z ->
   r = Raise IndexError /\ k' = k).
Proof.
  refine (@update_knots_by_index Examples.square_knots (Geometry.mkQPointF 3 7) (-1)%Z _).
  reflexivity.
Defined.

Section SplineLifeCycle.

Variable tck : Type.
Variable splprep : coords -> result (tck * list float).
Variable splev_linspace : tck -> list float -> list float * list float.

Local Notation "'fitted'" := (GeometryFacts.fitted splev_linspace).

(** X12.  The constructor stores knot points only together with their
    fitted curve: if the new spline has knot points they are the points
    given, both lists are non-empty and of one length, the fit succeeded
    and the curve is its evaluation.  When it raises, both lists are
    non-empty, both attributes are still unset, and either the lists
    differ in length and the exception is the [ValueError] of the
    conversion of line 90, or they have one length and the exception is
    what the fitting routine raised, other than [ValueError] and
    [IndexError] (which are swallowed).  On non-empty lists of different
    lengths it does raise [ValueError]; after a fit refused with
    [ValueError] on lists of one length it returns, the knot points are
    unset and the curve is the pair (None, None). *)
Theorem Spline_init_knots_come_with_curve :
  forall points : coords,
    let s := fst (Geometry.Spline_init splprep splev_linspace points) in
    let r := snd (Geometry.Spline_init splprep splev_linspace points) in
    (forall k, Geometry.knotpoints s = Some k ->
               k = points /\ fst points <> [] /\ snd points <> [] /\
               List.length (fst points) = List.length (snd points) /\
               exists t u, splprep points = Ok (t, u) /\
                           Geometry.full_contour s = fitted t u) /\
    (forall e, r = Raise e ->
               fst points <> [] /\ snd points <> [] /\
               s = Geometry.mkSpline None Geometry.NotSet /\
               ((List.length (fst points) <> List.length (snd points) /\ e = ValueError) \/
                (List.length (fst points) = List.length (snd points) /\
                 splprep points = Raise e /\ e <> ValueError /\ e <> IndexError))) /\
    (fst points <> [] -> snd points <> [] ->
     List.length (fst points) <> List.length (snd points) ->
     s = Geometry.mkSpline None Geometry.NotSet /\ r = Raise ValueError) /\
    (fst points <> [] -> snd points <> [] ->
     List.length (fst points) = List.length (snd points) ->
     splprep points = Raise ValueError ->
     s = Geometry.mkSpline None Geometry.NoContour /\ r = Ok tt).
Proof.
  intros [px py]. unfold Geometry.Spline_init, Geometry.setKnotPoints. cbn [fst snd].
  destruct px as [|x0 px]; [cbn; repeat split; try discriminate; congruence|].
  destruct py as [|y0 py]; [cbn; repeat split; try discriminate; congruence|].
  destruct (Nat.eq_dec (List.length (x0 :: px)) (List.length (y0 :: py))) as [Hlen|Hlen].
  - rewrite (@GeometryFacts.interpolate_equal_lengths _ splprep splev_linspace
               (x0 :: px, y0 :: py) Hlen).
    unfold GeometryFacts.fitted.
    destruct (splprep (x0 :: px, y0 :: py)) as [[t u]|e] eqn:Hs.
    + destruct (Geometry.feed_path (fst (splev_linspace t u)) (snd (splev_linspace t u)));
        cbn [fst snd Geometry.knotpoints Geometry.full_contour].
      * split; [|split; [discriminate|split; [contradiction|discriminate]]].
        intros k [= <-]. repeat split; try discriminate; try exact Hlen. now exists t, u.
      * split; [discriminate|]. split; [discriminate|]. split; [contradiction|discriminate].
    + destruct e; cbn [fst snd Geometry.knotpoints Geometry.full_contour];
        (split; [discriminate|]);
        (split; [|split; [contradiction|try discriminate; intros; now split]]);
        intros e' He'; try discriminate He'; injection He' as <-;
        (split; [discriminate|]); (split; [discriminate|]); (split; [reflexivity|]);
        right; repeat split; try discriminate; exact Hlen.
  - rewrite (@GeometryFacts.interpolate_different_lengths _ splprep splev_linspace
               (x0 :: px, y0 :: py) Hlen).
    cbn [fst snd Geometry.knotpoints Geometry.full_contour].
    split; [discriminate|]. split; [|split; [now intros|contradiction]].
    intros e [= <-]. split; [discriminate|]. split; [discriminate|]. split; [reflexivity|].
    left. now split.
Qed.

(** X13.  [Spline.update] returns normally only when the knot edit and the
    fit of the edited knot points both succeed; the spline then holds the
    edited knot points and the curve fitted to them. *)
Theorem update_returns_refitted_spline :
  forall (self s' : Geometry.Spline) (pos : Geometry.QPointF) (idx : Z),
    Geometry.update splprep splev_linspace self pos idx = (s', Ok tt) ->
    exists k k' t u,
      Geometry.knotpoints self = Some k /\
      Geometry.update_knots k pos idx = (k', Ok tt) /\
      splprep k' = Ok (t, u) /\
      s' = Geometry.mkSpline (Some k') (fitted t u).
Proof.
  intros self s' pos idx. unfold Geometry.update.
  destruct (Geometry.knotpoints self) as [k|]; [|discriminate].
  destruct (Geometry.update_knots k pos idx) as [k' [[]|e]] eqn:Hk; [|discriminate].
  destruct (Nat.eq_dec (List.length (fst k')) (List.length (snd k'))) as [Hlen|Hlen].
  - rewrite (@GeometryFacts.interpolate_equal_lengths _ splprep splev_linspace k' Hlen).
    destruct (splprep k') as [[t u]|e] eqn:Hs.
    + intros [= <- _]. exists k, k', t, u. now repeat split.
    + destruct e; discriminate.
  - rewrite (@GeometryFacts.interpolate_different_lengths _ splprep splev_linspace k' Hlen).
    discriminate.
Qed.

(** X14.  A spline constructed from a frame without points, or from
    coordinate lists of one length whose first fit was refused with
    [ValueError], is constructed without an error but has no knot points,
    and it cannot be edited: every [update] raises [TypeError] and leaves
    it as it is. *)
Theorem update_of_spline_without_knots :
  forall (points : coords) (pos : Geometry.QPointF) (idx : Z),
    fst points = [] \/ snd points = [] \/
    (List.length (fst points) = List.length (snd points) /\
     splprep points = Raise ValueError) ->
    let s := fst (Geometry.Spline_init splprep splev_linspace points) in
    snd (Geometry.Spline_init splprep splev_linspace points) = Ok tt /\
    Geometry.knotpoints s = None /\
    Geometry.update splprep splev_linspace s pos idx = (s, Raise TypeError).
Proof.
  intros [px py] pos idx H. cbn [fst snd] in H.
  unfold Geometry.Spline_init, Geometry.setKnotPoints. cbn [fst snd].
  destruct px as [|x0 px]; [now cbn|]. destruct py as [|y0 py]; [now cbn|].
  destruct H as [H|[H|[Hlen H]]]; try discriminate H.
  rewrite (@GeometryFacts.interpolate_equal_lengths _ splprep splev_linspace
             (x0 :: px, y0 :: py) Hlen).
  rewrite H. now cbn.
Qed.

End SplineLifeCycle.

Lemma update_returns_refitted_spline_witness :
  exists k k' t u,
    Geometry.knotpoints
      (fst (Geometry.Spline_init Examples.checked_splprep Examples.polyline
              Examples.square_knots)) = Some k /\
    Geometry.update_knots k (Geometry.mkQPointF 5 (-2)) 5 = (k', Ok tt) /\
    Examples.checked_splprep k' = Ok (t, u) /\
    Geometry.mkSpline (Some ([0; 10; 10; 0; 5]%float, [0; 0; 10; 10; -2]%float))
      (Geometry.Contour [0; 10; 10; 0; 5; 0]%float [0; 0; 10; 10; -2; 0]%float) =
    Geometry.mkSpline (Some k') (GeometryFacts.fitted Examples.polyline t u).
Proof.
  refine (@update_returns_refitted_spline _ Examples.checked_splprep Examples.polyline
            (fst (Geometry.Spline_init Examples.checked_splprep Examples.polyline
                    Examples.square_knots))
            _ (Geometry.mkQPointF 5 (-2)) 5%Z _).
  vm_compute. reflexivity.
Defined.

Lemma update_of_spline_without_knots_witness :
  let points := ([1; 1; 1; 1]%float, [2; 2; 2; 2]%float) in
  let s := fst (Geometry.Spline_init Examples.checked_splprep Examples.polyline points) in
  snd (Geometry.Spline_init Examples.checked_splprep Examples.polyline points) = Ok tt /\
  Geometry.knotpoints s = None /\
  Geometry.update Examples.checked_splprep Examples.polyline s (Geometry.mkQPointF 0 0) 0 =
    (s, Raise TypeError).
Proof.
  refine (@update_of_spline_without_knots _ Examples.checked_splprep Examples.polyline
            ([1; 1; 1; 1]%float, [2; 2; 2; 2]%float) (Geometry.mkQPointF 0 0) 0%Z _).
  right. right. split; [reflexivity|]. vm_compute. reflexivity.
Defined.

Section FailedEdit.

Variable tck : Type.
Variable splprep : coords -> result (tck * list float).
Variable splev_linspace : tck -> list float -> list float * list float.

(** X15.  An edit at an index that is neither a position of a knot nor
    the number of knots plus one raises [IndexError] before anything is
    changed: the spline has the knot points and the curve it had, and no
    fit is attempted.  (The index equal to the number of knots is one of
    these: appending takes the number of knots plus one.) *)
Theorem update_out_of_range_changes_nothing :
  forall (self : Geometry.Spline) (k : coords) (pos : Geometry.QPointF) (idx : Z),
    Geometry.knotpoints self = Some k ->
    List.length (snd k) = List.length (fst k) ->
    (idx < - Z.of_nat (List.length (fst k)) \/
     idx = Z.of_nat (List.length (fst k)) \/
     Z.of_nat (List.length (fst k)) + 1 < idx)%Z ->
    Geometry.update splprep splev_linspace self pos idx = (self, Raise IndexError).
Proof.
  intros [kp fc] [kx ky] pos idx Hk Hlen Hidx. cbn [Geometry.knotpoints fst snd] in *.
  subst kp. unfold Geometry.update, Geometry.update_knots. cbn [Geometry.knotpoints fst snd].
  destruct (Z.eqb_spec idx (Z.of_nat (List.length kx) + 1)) as [->|_]; [lia|].
  pose proof (GeometryFacts.setitem_z_spec kx idx (Geometry.qx pos)) as Sx.
  rewrite GeometryFacts.py_index_out_of_range in Sx by lia.
  now rewrite Sx.
Qed.

End FailedEdit.

Lemma update_out_of_range_changes_nothing_witness :
  Geometry.update Examples.checked_splprep Examples.polyline
    (fst (Geometry.Spline_init Examples.checked_splprep Examples.polyline
            Examples.square_knots))
    (Geometry.mkQPointF 5 5) 4 =
  (fst (Geometry.Spline_init Examples.checked_splprep Examples.polyline Examples.square_knots),
   Raise IndexError).
Proof.
  refine (@update_out_of_range_changes_nothing _ Examples.checked_splprep Examples.polyline
            (fst (Geometry.Spline_init Examples.checked_splprep Examples.polyline
                    Examples.square_knots))
            Examples.square_knots (Geometry.mkQPointF 5 5) 4%Z _ _ _).
  - vm_compute. reflexivity.
  - reflexivity.
  - right. left. reflexivity.
Defined.

(** ** report/report.py *)

Section TwoDiameters.

Variable math_dist : point -> point -> float.

(** X16.  On a ring of at least two points, the longest distance found by
    the search of [farthest_points] is never below the shortest distance
    found by the search of [closest_points] (both in pixels, before the
    scaling by the resolution): the pairs of the second search are among
    the pairs of the first. *)
Theorem shortest_distance_not_above_longest :
  forall (contour : list point) (longest : float * option (point * point))
         (shortest : float * option (point * point)),
    2 <= List.length contour ->
    farthest_search math_dist contour = longest ->
    closest_search math_dist contour = Ok shortest ->
    (fst longest <? DistanceFacts.shortest_in_pixels shortest)%float = false.
Proof.
  intros contour longest [m_close near] Hlen <- Hc.
  unfold DistanceFacts.shortest_in_pixels. cbn [fst snd].
  rewrite closest_search_fold in Hc by lia.
  rewrite visited_candidate_pairs in Hc by lia. injection Hc as Hc.
  unfold farthest_search.
  destruct near as [pq'|].
  - destruct (closest_fold_attained math_dist (candidate_pairs contour) (infinity, None))
      as [[E _]|(pq & Hin & E)]; [congruence|].
    rewrite Hc in E. injection E as -> _.
    pose proof (DistanceFacts.farthest_fold_upper math_dist (combinations2 contour)
                  (0%float, None)) as Hup.
    rewrite Forall_forall in Hup.
    apply (Hup pq). now apply DistanceFacts.candidate_pairs_combinations.
  - apply (DistanceFacts.farthest_fold_initial math_dist (combinations2 contour)
             (0%float, None)).
Qed.

End TwoDiameters.

Lemma shortest_distance_not_above_longest_witness :
  (fst (farthest_search Examples.euclid Examples.kite) <?
   DistanceFacts.shortest_in_pixels
     (match closest_search Examples.euclid Examples.kite with
      | Ok found => found
      | Raise _ => (0%float, None)
      end))%float = false.
Proof.
  refine (@shortest_distance_not_above_longest Examples.euclid Examples.kite
            (farthest_search Examples.euclid Examples.kite)
            (match closest_search Examples.euclid Examples.kite with
             | Ok found => found
             | Raise _ => (0%float, None)
             end) _ _ _).
  - vm_compute. lia.
  - reflexivity.
  - vm_compute. reflexivity.
Defined.

Section SkippedFrames.

Variable math_dist : point -> point -> float.
Variable shapely : Shapely.
Variable numpy : Numpy.
Variable Spline_full_contour : coords -> nat -> result Geometry.full_contour_t.
Variable wasCanceled : nat -> bool.
Variable w : Window.

(** X17.  The test of line 94, and what a pass leaves alone, whatever the
    constructor call of line 97 does.  The test succeeds for a frame
    exactly when its stored area is truthy and its elliptic ratio (the
    stored one, or zero when one of the three late keys is missing) is not
    zero.  When it succeeds the turn of the loop changes nothing; when it
    fails the turn is lines 97-117 followed by the progress dialog.  For a
    frame that the test skips at the start of the pass, everything stored
    for it, its knot points included, is after the pass what it was
    before, whatever else the pass does and however it ends.  The same
    holds for a frame that is not among the frames of the pass, when the
    three late keys are present. *)
Theorem metrics_pass_touches_only_uncomputed_frames :
  forall (frames : list nat) (suppress_messages : bool) (d : Data) (f : nat),
    (forall lc d0,
        snd (already_computed lc f d0) = Ok true <->
        exists a e,
          nth_error (lumen_area d0) f = Some a /\ truthy a = true /\
          nth_error (late_view ER lc d0) f = Some e /\ neqb e 0%float = true) /\
    (forall lc shown d0,
        snd (already_computed lc f d0) = Ok false ->
        process_frame math_dist shapely numpy Spline_full_contour wasCanceled
          w suppress_messages f (lc, shown) d0 =
        (lc' <~ compute_frame math_dist shapely numpy Spline_full_contour w lc f ;;
         if suppress_messages then ret (Some (lc', shown))
         else if wasCanceled f then ret None
              else ret (Some (lc', shown ++ [f]))) d0) /\
    (forall lc shown d0,
        snd (already_computed lc f d0) = Ok true ->
        process_frame math_dist shapely numpy Spline_full_contour wasCanceled
          w suppress_messages f (lc, shown) d0 = (d0, Ok (Some (lc, shown)))) /\
    (snd (already_computed (initial_locals w d) f d) = Ok true ->
     untouched f d
       (fst (compute_all math_dist shapely numpy Spline_full_contour wasCanceled
               w frames suppress_messages d))) /\
    (elliptic_ratio d <> None -> vector_length d <> None -> vector_angle d <> None ->
     ~ In f frames ->
     untouched f d
       (fst (compute_all math_dist shapely numpy Spline_full_contour wasCanceled
               w frames suppress_messages d))).
Proof.
  intros frames suppress_messages d f. split; [|split; [|split; [|split]]].
  - intros lc d0. apply already_computed_true.
  - intros lc shown d0 H. unfold process_frame. unfold bindM at 1.
    pose proof (already_computed_reads lc f d0) as Hst.
    destruct (already_computed lc f d0) as [d1 r]. cbn in Hst, H. now subst.
  - intros lc shown d0 H. eapply process_frame_skipped. exact H.
  - intros H. apply compute_all_untouched; [|now intros _].
    now apply already_computed_bound with (g := f).
  - intros He Hl Ha Hnot. apply compute_all_untouched; [|contradiction].
    now apply initial_locals_bound.
Qed.

End SkippedFrames.

(** Frame 0 of [Examples.second_frame_new] is skipped by the pass over
    both frames, which ends at frame 1. *)
Lemma metrics_pass_touches_only_uncomputed_frames_witness :
  untouched 0 Examples.second_frame_new
    (fst (compute_all Examples.euclid Examples.ring_polygon Examples.plain_numpy
            Examples.spline_full_contour Examples.never_canceled Examples.two_frame_window
            [0; 1] true Examples.second_frame_new)).
Proof.
  refine (proj1 (proj2 (proj2 (proj2
            (@metrics_pass_touches_only_uncomputed_frames Examples.euclid
               Examples.ring_polygon Examples.plain_numpy Examples.spline_full_contour
               Examples.never_canceled Examples.two_frame_window [0; 1] true
               Examples.second_frame_new 0)))) _).
  vm_compute. reflexivity.
Defined.

Section ReportTable.

Variable math_dist : point -> point -> float.
Variable shapely : Shapely.
Variable numpy : Numpy.
Variable Spline_full_contour : coords -> nat -> result Geometry.full_contour_t.
Variable wasCanceled : nat -> bool.
Variable w : Window.

(** X18.  When [compute_all] returns a table, the table has one row per
    contoured frame, in the order of the frames, and every row holds the
    values that the data holds for its frame after the call: position,
    phase, area, circumference, the two distances, and the elliptic
    ratio, vector length and vector angle of the three lists that the
    call binds in the data. *)
Theorem report_table_agrees_with_data :
  forall (contoured_frames : list nat) (suppress_messages : bool) (d d' : Data)
         (rows : list Row) (shown : list nat),
    compute_all math_dist shapely numpy Spline_full_contour wasCanceled
      w contoured_frames suppress_messages d = (d', Ok (Some (rows, shown))) ->
    map row_frame rows = contoured_frames /\
    Forall (ReportFacts.row_reads w (fun k => late_entry k d') d') rows.
Proof.
  intros frames suppress d d' rows shown H. unfold compute_all in H.
  apply bindM_inv in H as (lc0 & d0 & _ & H).
  apply bindM_inv in H as (r & d1 & _ & H).
  destruct r as [[lc shown']|]; [|discriminate].
  apply bindM_inv in H as (rows' & d2 & Hrows & H).
  apply ReportFacts.report_rows_inv in Hrows as (-> & Hf & Hrows).
  apply bindM_inv in H as (u & d3 & Hb & H). injection H as <- <- <-.
  apply ReportFacts.bind_late_entries_inv in Hb as (Hl & Hp & Ha & Hc & Hld & Hsd & _).
  split; [exact Hf|].
  eapply Forall_impl; [|exact Hrows]. intros r (R1 & R2 & R3 & R4 & R5 & R6 & R7 & R8 & R9).
  unfold ReportFacts.row_reads. rewrite Hp, Ha, Hc, Hld, Hsd, !Hl. now repeat split.
Qed.

End ReportTable.

Lemma report_table_agrees_with_data_witness :
  let r := Examples.run Examples.computed_rectangle false in
  let rows := match snd r with Ok (Some (rows, _)) => rows | _ => [] end in
  map row_frame rows = [0] /\
  Forall (ReportFacts.row_reads Examples.small_window (fun k => late_entry k (fst r)) (fst r))
         rows.
Proof.
  intros r rows.
  apply (@report_table_agrees_with_data Examples.euclid Examples.ring_polygon
           Examples.plain_numpy Examples.spline_full_contour Examples.never_canceled
           Examples.small_window [0] false Examples.computed_rectangle
           (fst r) rows []).
  vm_compute. reflexivity.
Defined.

Section LateKeys.

Variable math_dist : point -> point -> float.
Variable shapely : Shapely.
Variable numpy : Numpy.
Variable Spline_full_contour : coords -> nat -> result Geometry.full_contour_t.
Variable wasCanceled : nat -> bool.
Variable w : Window.


End LateKeys.

(** A pass over the frame of an older file, which lacks the three keys:
    it ends at the constructor call and the keys are still missing.  A
    pass over no frame at all returns an empty table and binds them. *)
Example failed_pass_leaves_keys_missing :
  let r := Examples.run Examples.older_rectangle false in
  snd r = Raise TypeError /\ elliptic_ratio (fst r) = None.
Proof. vm_compute. split; reflexivity. Qed.

Example empty_pass_binds_keys :
  let r := compute_all Examples.euclid Examples.ring_polygon Examples.plain_numpy
             Examples.spline_full_contour Examples.never_canceled Examples.small_window
             [] false Examples.older_rectangle in
  snd r = Ok (Some ([], [])) /\ elliptic_ratio (fst r) = Some [0%float].
Proof. vm_compute. split; reflexivity. Qed.

Section SuppressedPass.

Variable math_dist : point -> point -> float.
Variable shapely : Shapely.
Variable numpy : Numpy.
Variable Spline_full_contour : coords -> nat -> result Geometry.full_contour_t.
Variable w : Window.

Lemma frames_loop_suppressed (wasCanceled wasCanceled' : nat -> bool) (frames : list nat) :
  forall (st : Locals * list nat) (d : Data),
    frames_loop math_dist shapely numpy Spline_full_contour wasCanceled w true frames st d =
    frames_loop math_dist shapely numpy Spline_full_contour wasCanceled' w true frames st d /\
    snd (frames_loop math_dist shapely numpy Spline_full_contour wasCanceled w true frames st d)
      <> Ok None.
Proof.
  induction frames as [|g rest IH]; intros [lc shown] d; cbn [frames_loop].
  - split; [reflexivity|discriminate].
  - unfold process_frame, bindM.
    destruct (already_computed lc g d) as [d1 [[|]|e]]; cbn [ret].
    + apply IH.
    + destruct (compute_frame math_dist shapely numpy Spline_full_contour w lc g d1)
        as [d2 [lc1|e]]; [apply IH|split; [reflexivity|discriminate]].
    + split; [reflexivity|discriminate].
Qed.

(** X20.  With messages suppressed the progress dialog is never asked: the
    pass does not depend on it and cannot be cancelled, so [compute_all]
    never returns [None] (it returns its table or raises). *)
Theorem suppressed_pass_is_never_cancelled :
  forall (wasCanceled wasCanceled' : nat -> bool) (contoured_frames : list nat) (d : Data),
    compute_all math_dist shapely numpy Spline_full_contour wasCanceled
      w contoured_frames true d =
    compute_all math_dist shapely numpy Spline_full_contour wasCanceled'
      w contoured_frames true d /\
    snd (compute_all math_dist shapely numpy Spline_full_contour wasCanceled
           w contoured_frames true d) <> Ok None.
Proof.
  intros wc wc' frames d. unfold compute_all, bindM, gets.
  destruct (frames_loop_suppressed wc wc' frames (initial_locals w d, []) d) as [<- Hn].
  destruct (frames_loop math_dist shapely numpy Spline_full_contour wc w true frames
              (initial_locals w d, []) d) as [d1 [[[lc shown]|]|e]]; cbn [snd] in *.
  - split; [reflexivity|].
    destruct (report_rows w lc frames d1) as [d2 [rows|e]]; [|discriminate].
    unfold bind_late_entries, ret. destruct (fresh lc) as [[[? ?] ?]|]; discriminate.
  - now contradiction Hn.
  - split; [reflexivity|discriminate].
Qed.

End SuppressedPass.

Section ReportEntryProperties.

Variable report_data : Type.
Variable compute_all : list nat -> bool -> M (option report_data).
Variable w : Window.
Variable suppress_messages : bool.

(** X21.  [report] runs the metrics pass on exactly the frames below
    [num_frames] that have knot points, in increasing order.  Before an
    image is displayed, and when no frame has knot points, it returns
    [None] without calling [compute_all] and leaves the data alone; when
    the list of contours has fewer than [num_frames] entries it raises
    [IndexError], again before [compute_all] is called. *)
Theorem report_runs_on_frames_with_knots :
  forall d : Data,
    ReportEntry.report compute_all false w suppress_messages d = (d, Ok None) /\
    (List.length (fst (lumen d)) < num_frames w ->
     ReportEntry.report compute_all true w suppress_messages d = (d, Raise IndexError)) /\
    (num_frames w <= List.length (fst (lumen d)) ->
     ReportEntry.report compute_all true w suppress_messages d =
       match filter (ReportEntry.has_knots (fst (lumen d))) (seq 0 (num_frames w)) with
       | [] => (d, Ok None)
       | frame :: rest => compute_all (frame :: rest) suppress_messages d
       end).
Proof.
  intros d. split; [reflexivity|]. unfold ReportEntry.report, bindM. cbn [negb]. split.
  - intros Hlt. rewrite ReportEntry.select_contoured_short; [reflexivity|].
    apply Exists_exists. exists (List.length (fst (lumen d))).
    split; [apply in_seq; lia|lia].
  - intros Hle. rewrite ReportEntry.select_contoured_filter.
    + now destruct (filter (ReportEntry.has_knots (fst (lumen d))) (seq 0 (num_frames w))).
    + apply Forall_forall. intros frame Hin. apply in_seq in Hin. lia.
Qed.

End ReportEntryProperties.

Section PlotProperties.

Variable contoured_frames : list nat.

(** X22.  With at least one contoured frame (which [report] guarantees),
    the selection of the frames to plot never indexes out of range: it
    returns three frames of the list, taken at positions that do not
    decrease, and the three positions are pairwise different exactly when
    there are at least three contoured frames (with one or two frames a
    frame is plotted more than once). *)
Theorem frames_to_plot_in_range :
  contoured_frames <> [] ->
  let n := List.length contoured_frames in
  n / 4 <= n / 2 <= 3 * n / 4 /\ 3 * n / 4 < n /\
  (n / 4 < n / 2 < 3 * n / 4 <-> 3 <= n) /\
  exists a b c,
    Plot.frames_to_plot contoured_frames = Ok [a; b; c] /\
    nth_error contoured_frames (n / 4) = Some a /\
    nth_error contoured_frames (n / 2) = Some b /\
    nth_error contoured_frames (3 * n / 4) = Some c.
Proof.
  intros Hne n.
  assert (Hpos : 0 < n) by (subst n; destruct contoured_frames; [congruence|cbn; lia]).
  pose proof (Nat.div_mod_eq n 4) as H4. pose proof (Nat.mod_upper_bound n 4) as M4.
  pose proof (Nat.div_mod_eq n 2) as H2. pose proof (Nat.mod_upper_bound n 2) as M2.
  pose proof (Nat.div_mod_eq (3 * n) 4) as H3. pose proof (Nat.mod_upper_bound (3 * n) 4) as M3.
  assert (B : n / 4 <= n / 2 <= 3 * n / 4 /\ 3 * n / 4 < n) by lia.
  split; [apply B|]. split; [apply B|]. split; [lia|].
  unfold Plot.frames_to_plot, Plot.indices_to_plot. fold n. cbn [Contours.mapM].
  unfold getitem.
  destruct (nth_error contoured_frames (n / 4)) as [a|] eqn:Ea;
    [|apply nth_error_None in Ea; fold n in Ea; lia].
  destruct (nth_error contoured_frames (n / 2)) as [b|] eqn:Eb;
    [|apply nth_error_None in Eb; fold n in Eb; lia].
  destruct (nth_error contoured_frames (3 * n / 4)) as [c|] eqn:Ec;
    [|apply nth_error_None in Ec; fold n in Ec; lia].
  exists a, b, c. now repeat split.
Qed.

End PlotProperties.

Lemma frames_to_plot_in_range_witness :
  let n := List.length [4; 7] in
  n / 4 <= n / 2 <= 3 * n / 4 /\ 3 * n / 4 < n /\
  (n / 4 < n / 2 < 3 * n / 4 <-> 3 <= n) /\
  exists a b c,
    Plot.frames_to_plot [4; 7] = Ok [a; b; c] /\
    nth_error [4; 7] (n / 4) = Some a /\
    nth_error [4; 7] (n / 2) = Some b /\
    nth_error [4; 7] (3 * n / 4) = Some c.
Proof.
  refine (@frames_to_plot_in_range [4; 7] _).
  discriminate.
Defined.

Section FirstPass.

Variable tck : Type.
Variable splprep : coords -> result (tck * list float).
Variable splev_linspace : tck -> list float -> list float * list float.
Variable math_dist : point -> point -> float.
Variable shapely : Shapely.
Variable numpy : Numpy.
Variable wasCanceled : nat -> bool.
Variable w : Window.

(** X23.  After [read_contours] has read an XML file, no frame below
    [num_frames] counts as already computed: the test of line 94 fails
    for each of them.  So the first pass after it, over a list of frames
    whose first frame is below [num_frames] and has knot points, ends at
    the constructor call of line 97 with [TypeError], and the data are as
    [read_contours] left them. *)
Theorem first_pass_after_xml_raises :
  forall (frame : nat) (rest : list nat) (suppress_messages : bool) (d : Data)
         (xs ys : list float),
    frame < num_frames w ->
    nth_error (fst (lumen d)) frame = Some xs ->
    nth_error (snd (lumen d)) frame = Some ys ->
    (forall lc g, g < num_frames w ->
       already_computed lc g (ReadContours.xml_containers (num_frames w) d) =
         (ReadContours.xml_containers (num_frames w) d, Ok false)) /\
    compute_all math_dist shapely numpy (Spline_n_points splprep splev_linspace)
      wasCanceled w (frame :: rest) suppress_messages
      (ReadContours.xml_containers (num_frames w) d) =
    (ReadContours.xml_containers (num_frames w) d, Raise TypeError).
Proof.
  intros frame rest suppress_messages d xs ys Hlt Hx Hy.
  assert (Hskip : forall lc g, g < num_frames w ->
            already_computed lc g (ReadContours.xml_containers (num_frames w) d) =
              (ReadContours.xml_containers (num_frames w) d, Ok false)).
  { intros lc g Hg. apply ReadContours.already_computed_unset.
    now apply ReadContours.xml_containers_area_unset. }
  split; [exact Hskip|].
  apply (@compute_all_n_points _ splprep splev_linspace math_dist shapely numpy wasCanceled
           w suppress_messages (ReadContours.xml_containers (num_frames w) d)
           [] rest frame xs ys).
  - constructor.
  - now rewrite Hskip.
  - exact Hx.
  - exact Hy.
Qed.

End FirstPass.

Lemma first_pass_after_xml_raises_witness :
  let d := ReadContours.xml_containers 1
             (Examples.with_knots Examples.rectangle_knots (Examples.blank 1)) in
  Examples.run d false = (d, Raise TypeError).
Proof.
  intros d.
  refine (proj2 (@first_pass_after_xml_raises _ Examples.checked_splprep Examples.polyline
            Examples.euclid Examples.ring_polygon Examples.plain_numpy
            Examples.never_canceled Examples.small_window 0 [] false
            (Examples.with_knots Examples.rectangle_knots (Examples.blank 1))
            (fst Examples.rectangle_knots) (snd Examples.rectangle_knots) _ _ _)).
  - vm_compute. lia.
  - reflexivity.
  - reflexivity.
Defined.
